(** * xproli-backend: redirect gating, click recording and click analytics

    A shallow embedding of the redirect routes ([src/routes/redirect.ts]),
    the analytics routes ([src/routes/analytics.ts]), the link listing
    ([routes/links.ts]) and the two Mongoose schemas ([models/Link.ts],
    [models/ClickEvent.ts]), followed by the properties of the
    specification that concern them.

    Conventions of the embedding:
    - instants ([Date]) are integers, the milliseconds since the epoch;
    - strings are sequences of 8-bit code units (header values reach the
      handlers decoded as latin-1);
    - a value that JavaScript may leave [undefined] or [null] is a [JsStr];
    - [await] is sequencing in the monad [M] of a handler: a world holding
      the two collections and the console, plus exceptions;
    - the libraries the handlers call ([geoip-lite], [ua-parser-js], the
      database driver) are the oracles of an environment [Env];
    - object ids are opaque identifiers; an id in the path of a request
      is taken as well formed, an id in a request body is an [IdValue],
      which may fail to cast. *)

From Stdlib Require Import ZArith String Ascii List Lia Permutation.
From stdpp Require Import base option gmap sets list strings sorting.

Local Open Scope Z_scope.

(** ** JavaScript values the handlers compute with *)

Module Js.

(** A possibly missing string: a schema path of type [String] that is not
    required, an optional header, a body field. *)
Inductive JsStr : Type :=
  | Undefined : JsStr
  | Null : JsStr
  | Str (s : string) : JsStr.

#[global] Instance JsStr_eq_dec : EqDecision JsStr.
Proof. solve_decision. Defined.

#[global] Instance JsStr_countable : Countable JsStr.
Proof.
  refine (inj_countable'
    (fun v => match v with
              | Undefined => inl true
              | Null => inl false
              | Str s => inr s
              end)
    (fun x => match x with
              | inl true => Undefined
              | inl false => Null
              | inr s => Str s
              end) _).
  intros []; reflexivity.
Defined.

(** [ToBoolean] on such a value: only a non-empty string is truthy. *)
Definition truthy (v : JsStr) : bool :=
  match v with
  | Str s => negb (String.eqb s "")
  | _ => false
  end.

(** [v || d] with a string default. *)
Definition orElse (v : JsStr) (d : string) : string :=
  match v with
  | Str s => if String.eqb s "" then d else s
  | _ => d
  end.

(** [a || b] where both sides may be missing. *)
Definition orJs (a b : JsStr) : JsStr :=
  if truthy a then a else b.

Definition ofOption (o : option string) : JsStr :=
  match o with
  | Some s => Str s
  | None => Undefined
  end.

(** [s.startsWith(p)] *)
Fixpoint startsWith (p s : string) : bool :=
  match p with
  | EmptyString => true
  | String a p' =>
      match s with
      | EmptyString => false
      | String b s' => Ascii.eqb a b && startsWith p' s'
      end
  end.

(** [s.substring(n)] *)
Fixpoint substringFrom (n : nat) (s : string) : string :=
  match n with
  | O => s
  | S n' =>
      match s with
      | EmptyString => EmptyString
      | String _ s' => substringFrom n' s'
      end
  end.

(** [s.split(",")[0]]: everything before the first comma. *)
Fixpoint beforeComma (s : string) : string :=
  match s with
  | EmptyString => EmptyString
  | String a s' =>
      if Ascii.eqb a "," then EmptyString else String a (beforeComma s')
  end.

(** White space and line terminators of ECMAScript among the 8-bit code
    units: TAB, LF, VT, FF, CR, SP and NBSP. *)
Definition isWhiteSpace (a : ascii) : bool :=
  match a with
  | "009" | "010" | "011" | "012" | "013" | " " | "160" => true
  | _ => false
  end%char.

Fixpoint trimStart (s : string) : string :=
  match s with
  | EmptyString => EmptyString
  | String a s' => if isWhiteSpace a then trimStart s' else s
  end.

(** [s.trim()] *)
Definition trim (s : string) : string :=
  String.rev (trimStart (String.rev (trimStart s))).

(** A value of [req.query]: the query parser yields a string for a
    parameter given once, and an array or a nested object otherwise. *)
Inductive QVal : Type :=
  | QStr (s : string) : QVal
  | QMulti : QVal.

(** [!v] for [v = req.query[k]]. Arrays and objects are truthy. *)
Definition qfalsy (v : option QVal) : bool :=
  match v with
  | None => true
  | Some (QStr s) => String.eqb s ""
  | Some QMulti => false
  end.

(** [v !== stored] for [v = req.query[k]] and a stored optional string:
    strict inequality holds unless both are strings with the same code
    units. *)
Definition strictNe (v : option QVal) (stored : JsStr) : bool :=
  match v, stored with
  | Some (QStr s), Str p => negb (String.eqb s p)
  | None, Undefined => false
  | _, _ => true
  end.

(** [typeof v === 'string'] *)
Definition qstring (v : QVal) : option string :=
  match v with
  | QStr s => Some s
  | QMulti => None
  end.

End Js.
Export Js.

(** ** Documents, requests and the world of a handler *)

Module Model.

Definition ObjectId : Type := N.

(** A value a request gives where a schema expects an ObjectId
    ([req.body.linkId]). Mongoose casts it before it queries. [NoId] is
    [undefined] or [null]. [IsId i] is a value that casts, a string of 24
    hexadecimal digits, and stands for the id it denotes. [NotAnId raw]
    is any other string, such as ["abc"]: the cast fails. *)
Inductive IdValue : Type :=
  | NoId
  | IsId (id : ObjectId)
  | NotAnId (raw : string).

(** The ObjectId a value casts to, when it does. *)
Definition idOf (v : IdValue) : option ObjectId :=
  match v with
  | IsId i => Some i
  | NoId | NotAnId _ => None
  end.

(** [models/Link.ts]. The paths no handler below reads ([title],
    [description], [tags], [analyticsEnabled], [utmParameters],
    [metadata]) are left out. [password] is declared [select: false]. *)
Record Link : Type := mkLink {
  link_id : ObjectId;
  ownerId : ObjectId;
  domain : string;
  slug : string;
  destinationUrl : string;
  expiresAt : option Z;
  passwordProtected : bool;
  password : JsStr;
  createdAt : Z
}.

(** [models/ClickEvent.ts]: the paths of [clickEventSchema]. [ip],
    [device], [browser] and [os] are required, so a stored document holds
    a string there. *)
Record ClickEvent : Type := mkClickEvent {
  click_id : ObjectId;
  linkId : ObjectId;
  timestamp : Z;
  ip : string;
  country : JsStr;
  city : JsStr;
  device : string;
  browser : string;
  os : string;
  referrer : JsStr;
  utmSource : JsStr;
  utmMedium : JsStr;
  utmCampaign : JsStr
}.

(** The object handed to [ClickEvent.create], restricted to the paths of
    the schema (the model is strict: any other key is dropped). *)
Record ClickInput : Type := mkClickInput {
  in_linkId : option ObjectId;
  in_timestamp : option Z;
  in_ip : JsStr;
  in_country : JsStr;
  in_city : JsStr;
  in_device : JsStr;
  in_browser : JsStr;
  in_os : JsStr;
  in_referrer : JsStr;
  in_utmSource : JsStr;
  in_utmMedium : JsStr;
  in_utmCampaign : JsStr
}.

Inductive Error : Type :=
  | AppError (message : string) (statusCode : Z)
  | ValidationError (paths : list string)
  | CastError (path : string)
  | Failure (what : string).

Inductive Result (A : Type) : Type :=
  | Ok (a : A)
  | Throw (e : Error).
Arguments Ok {A} a.
Arguments Throw {A} e.

(** What [geoip.lookup] returns for an address it knows. *)
Record GeoData : Type := mkGeoData {
  lookup_country : JsStr;
  lookup_city : JsStr;
  lookup_region : JsStr
}.

(** [parser.getResult()] of [ua-parser-js], the members that are read. *)
Record UAResult : Type := mkUAResult {
  device_type : JsStr;
  device_vendor : JsStr;
  device_model : JsStr;
  browser_name : JsStr;
  browser_version : JsStr;
  os_name : JsStr;
  os_version : JsStr
}.

Record Request : Type := mkRequest {
  headers : gmap string string;
  query : gmap string QVal;
  remoteAddress : JsStr
}.

(** The collaborators of a handler. A fault is an exception raised by
    the database driver in place of an answer. [scanOrder] is the order
    in which the store answers a query on click events that asks for no
    sort. It is left to the environment: a scan of the collection
    answers in insertion order (the identity), a scan of the index
    [{ linkId: 1, timestamp: -1 }] that [clickEventSchema] declares
    answers the clicks of one link newest first. *)
Record Env : Type := mkEnv {
  now : Z;
  geoip_lookup : string -> Result (option GeoData);
  ua_getResult : string -> Result UAResult;
  linkReadFault : option Error;
  clickReadFault : option Error;
  clickWriteFault : option Error;
  scanOrder : list ClickEvent -> list ClickEvent;
  parseDate : QVal -> option Z;
  BACKEND_URL : JsStr
}.

(** The state a handler runs in. [clickEvents] lists the collection in
    the order of insertion. [geoQueries] records the addresses
    [geoip.lookup] was called with. *)
Record World : Type := mkWorld {
  links : list Link;
  clickEvents : list ClickEvent;
  consoleErrors : list (string * Error);
  geoQueries : list string;
  nextId : ObjectId
}.

Definition M (A : Type) : Type := World -> Result A * World.

#[global] Instance M_ret : MRet M := fun A a w => (Ok a, w).

#[global] Instance M_bind : MBind M := fun A B f m w =>
  match m w with
  | (Ok a, w') => f a w'
  | (Throw e, w') => (Throw e, w')
  end.

Definition throw {A : Type} (e : Error) : M A := fun w => (Throw e, w).

(** [try { body } catch (error) { handler error }] *)
Definition tryCatch {A : Type} (body : M A) (handler : Error -> M A) : M A :=
  fun w =>
    match body w with
    | (Ok a, w') => (Ok a, w')
    | (Throw e, w') => handler e w'
    end.

Definition console_error (msg : string) (e : Error) : M unit := fun w =>
  (Ok tt,
   mkWorld (links w) (clickEvents w) (consoleErrors w ++ [(msg, e)])
           (geoQueries w) (nextId w)).

End Model.
Export Model.

(** ** The Mongoose models *)

Module Mongoose.

(** The default projection of the [Link] schema: a path declared
    [select: false] is absent from a query result unless the query asks
    for it with [.select('+password')]. No query on links does. *)
Definition defaultProjection (l : Link) : Link :=
  mkLink (link_id l) (ownerId l) (domain l) (slug l) (destinationUrl l)
         (expiresAt l) (passwordProtected l) Undefined (createdAt l).

(** [Link.findOne(filter)] *)
Definition Link_findOne (env : Env) (matches : Link -> bool) : M (option Link) :=
  fun w =>
    match linkReadFault env with
    | Some e => (Throw e, w)
    | None => (Ok (defaultProjection <$> List.find matches (links w)), w)
    end.

(** The filters [{ domain, slug }] and [{ slug }]. *)
Definition byDomainAndSlug (d s : string) (l : Link) : bool :=
  String.eqb (domain l) d && String.eqb (slug l) s.

Definition bySlug (s : string) (l : Link) : bool :=
  String.eqb (slug l) s.

(** The filter [{ _id: id }] once [id] is cast; [findById(undefined)] is
    sent as [{ _id: null }] and matches nothing. *)
Definition byId (id : IdValue) (l : Link) : bool :=
  match id with
  | IsId i => N.eqb (link_id l) i
  | NoId | NotAnId _ => false
  end.

(** [Link.findById(id)]. The cast of [id] to the type of [_id] comes
    first, before the store is asked: for a value that does not cast the
    query rejects with a CastError on the path [_id]. *)
Definition Link_findById (env : Env) (id : IdValue) : M (option Link) :=
  match id with
  | NotAnId _ => throw (CastError "_id")
  | NoId | IsId _ => Link_findOne env (byId id)
  end.

(** The [required] validator of a [String] path rejects [undefined],
    [null] and the empty string. *)
Definition missingPaths (i : ClickInput) : list string :=
  (if bool_decide (in_linkId i = None) then ["linkId"] else []) ++
  (if truthy (in_ip i) then [] else ["ip"]) ++
  (if truthy (in_device i) then [] else ["device"]) ++
  (if truthy (in_browser i) then [] else ["browser"]) ++
  (if truthy (in_os i) then [] else ["os"]).

(** The document [ClickEvent.create] builds: [timestamp] defaults to
    [Date.now]. *)
Definition newClickEvent (env : Env) (id : ObjectId) (i : ClickInput) : ClickEvent :=
  mkClickEvent id (default 0%N (in_linkId i))
    (default (now env) (in_timestamp i))
    (orElse (in_ip i) "") (in_country i) (in_city i)
    (orElse (in_device i) "") (orElse (in_browser i) "") (orElse (in_os i) "")
    (in_referrer i) (in_utmSource i) (in_utmMedium i) (in_utmCampaign i).

(** [ClickEvent.create(fields)]: validation, then the insertion. On a
    rejection the collection is left as it was. *)
Definition ClickEvent_create (env : Env) (i : ClickInput) : M ClickEvent :=
  fun w =>
    match missingPaths i with
    | p :: ps => (Throw (ValidationError (p :: ps)), w)
    | [] =>
        match clickWriteFault env with
        | Some e => (Throw e, w)
        | None =>
            let doc := newClickEvent env (nextId w) i in
            (Ok doc,
             mkWorld (links w) (clickEvents w ++ [doc]) (consoleErrors w)
                     (geoQueries w) (N.succ (nextId w)))
        end
    end.

(** [ClickEvent.find(filter)] with no sort: the matching documents, in
    the order the store chooses. *)
Definition ClickEvent_find (env : Env) (matches : ClickEvent -> bool)
  : M (list ClickEvent) :=
  fun w =>
    match clickReadFault env with
    | Some e => (Throw e, w)
    | None => (Ok (scanOrder env (List.filter matches (clickEvents w))), w)
    end.

(** [.sort('-field')]: descending on an instant, by insertion; documents
    with the same instant keep the order they came in. *)
Fixpoint insertDesc {A : Type} (key : A -> Z) (x : A) (l : list A) : list A :=
  match l with
  | [] => [x]
  | y :: l' => if key y <=? key x then x :: l else y :: insertDesc key x l'
  end.

Definition sortDesc {A : Type} (key : A -> Z) (l : list A) : list A :=
  foldr (insertDesc key) [] l.

End Mongoose.
Export Mongoose.

(** ** [routes/redirect.ts] *)

Module RedirectRoutes.

Record Geo : Type := mkGeo {
  geo_country : string;
  geo_city : string;
  geo_region : string
}.

(** The object literal of [trackClickEvent], key by key. *)
Record TrackedClick : Type := mkTrackedClick {
  t_linkId : ObjectId;
  t_ip : string;
  t_timestamp : Z;
  t_country : string;
  t_city : string;
  t_region : string;
  t_device : string;
  t_deviceType : string;
  t_deviceVendor : string;
  t_deviceModel : string;
  t_browser : string;
  t_browserName : string;
  t_browserVersion : string;
  t_os : string;
  t_osName : string;
  t_osVersion : string;
  t_referrer : string;
  t_utmSource : JsStr;
  t_utmMedium : JsStr;
  t_utmCampaign : JsStr;
  t_utmTerm : JsStr;
  t_utmContent : JsStr;
  t_utmParams : gmap string string;
  t_queryParams : gmap string QVal;
  t_language : string;
  t_screenSize : string
}.

(** [req.headers[name]] *)
Definition header (req : Request) (name : string) : JsStr :=
  ofOption (headers req !! name).

(** [req.get("Referer")]: Express answers with
    [headers.referrer || headers.referer]. *)
Definition get_Referer (req : Request) : JsStr :=
  orJs (header req "referrer") (header req "referer").

(** [req.headers["x-forwarded-for"]?.toString().split(",")[0].trim()] *)
Definition forwardedFor (req : Request) : JsStr :=
  match headers req !! "x-forwarded-for" with
  | Some h => Str (trim (beforeComma h))
  | None => Undefined
  end.

(** Lines 14-18: the client address. *)
Definition clientIp (req : Request) : string :=
  orElse (orJs (orJs (forwardedFor req) (header req "x-real-ip"))
               (remoteAddress req))
         "Unknown".

(** [geoip.lookup(ip)]; the call is recorded in the world. *)
Definition geoipLookup (env : Env) (addr : string) : M (option GeoData) :=
  fun w =>
    (geoip_lookup env addr,
     mkWorld (links w) (clickEvents w) (consoleErrors w)
             (geoQueries w ++ [addr]) (nextId w)).

(** [ip && ip !== "::1" && !ip.startsWith("127.0.0.1")] *)
Definition nonLocal (addr : string) : bool :=
  negb (String.eqb addr "") && negb (String.eqb addr "::1")
  && negb (startsWith "127.0.0.1" addr).

(** Lines 20-34: the geo triple. *)
Definition resolveGeo (env : Env) (addr : string) : M Geo :=
  if nonLocal addr then
    geoLookup ← geoipLookup env addr;
    match geoLookup with
    | Some g =>
        mret (mkGeo (orElse (lookup_country g) "Unknown")
                    (orElse (lookup_city g) "Unknown")
                    (orElse (lookup_region g) "Unknown"))
    | None => mret (mkGeo "Unknown" "Unknown" "Unknown")
    end
  else mret (mkGeo "Local" "Development" "Local").

(** Lines 41-48 *)
Definition deviceInfo (result : UAResult) : string :=
  if truthy (device_type result) then
    let d0 := orElse (device_type result) "" in
    let d1 := if truthy (device_vendor result)
              then orElse (device_vendor result) "" +:+ " " +:+ d0 else d0 in
    if truthy (device_model result)
    then d1 +:+ " " +:+ orElse (device_model result) "" else d1
  else if truthy (os_name result) then
    "Desktop (" +:+ orElse (os_name result) "" +:+ ")"
  else "Unknown".

(** Lines 51-53 and 56-58: [name ? `${name} ${version || ''}` : "Unknown"] *)
Definition nameAndVersion (name version : JsStr) : string :=
  if truthy name then orElse name "" +:+ " " +:+ orElse version ""
  else "Unknown".

(** Lines 61-68. Assigning a string to the key [__proto__] of an object
    literal changes nothing. *)
Definition utmParams (q : gmap string QVal) : gmap string string :=
  map_fold
    (fun key v acc =>
       if startsWith "utm_" key then
         match qstring v with
         | Some s =>
             let utmKey := substringFrom 4 key in
             if String.eqb utmKey "__proto__" then acc
             else <[utmKey := s]> acc
         | None => acc
         end
       else acc)
    ∅ q.

(** Lines 99-101; a missing [viewport-height] prints as [undefined]. *)
Definition screenSize (req : Request) : string :=
  if truthy (header req "viewport-width") then
    orElse (header req "viewport-width") "" +:+ "x" +:+
    match header req "viewport-height" with
    | Str s => s
    | Null => "null"
    | Undefined => "undefined"
    end
  else "Unknown".

(** Lines 71-102: the argument of [ClickEvent.create]. *)
Definition trackedClick (env : Env) (req : Request) (link : Link)
    (addr : string) (geo : Geo) (result : UAResult) : TrackedClick :=
  let utm := utmParams (query req) in
  {| t_linkId := link_id link;
     t_ip := addr;
     t_timestamp := now env;
     t_country := geo_country geo;
     t_city := geo_city geo;
     t_region := geo_region geo;
     t_device := deviceInfo result;
     t_deviceType := orElse (device_type result) "desktop";
     t_deviceVendor := orElse (device_vendor result) "Unknown";
     t_deviceModel := orElse (device_model result) "Unknown";
     t_browser := nameAndVersion (browser_name result) (browser_version result);
     t_browserName := orElse (browser_name result) "Unknown";
     t_browserVersion := orElse (browser_version result) "Unknown";
     t_os := nameAndVersion (os_name result) (os_version result);
     t_osName := orElse (os_name result) "Unknown";
     t_osVersion := orElse (os_version result) "Unknown";
     t_referrer := orElse (get_Referer req) "Direct";
     t_utmSource := ofOption (utm !! "source");
     t_utmMedium := ofOption (utm !! "medium");
     t_utmCampaign := ofOption (utm !! "campaign");
     t_utmTerm := ofOption (utm !! "term");
     t_utmContent := ofOption (utm !! "content");
     t_utmParams := utm;
     t_queryParams := query req;
     t_language := orElse (header req "accept-language") "Unknown";
     t_screenSize := screenSize req |}.

(** The keys of the literal that [clickEventSchema] declares. *)
Definition schemaPaths (t : TrackedClick) : ClickInput :=
  {| in_linkId := Some (t_linkId t);
     in_timestamp := Some (t_timestamp t);
     in_ip := Str (t_ip t);
     in_country := Str (t_country t);
     in_city := Str (t_city t);
     in_device := Str (t_device t);
     in_browser := Str (t_browser t);
     in_os := Str (t_os t);
     in_referrer := Str (t_referrer t);
     in_utmSource := t_utmSource t;
     in_utmMedium := t_utmMedium t;
     in_utmCampaign := t_utmCampaign t |}.

(** The body of the [try] block of [trackClickEvent]. *)
Definition trackClickEvent_try (env : Env) (req : Request) (link : Link)
  : M (option ClickEvent) :=
  let addr := clientIp req in
  geo ← resolveGeo env addr;
  let userAgent := orElse (header req "user-agent") "" in
  result ← (fun w => (ua_getResult env userAgent, w)) : M UAResult;
  created ← ClickEvent_create env
              (schemaPaths (trackedClick env req link addr geo result));
  mret (Some created).

(** Lines 11-108. [None] is the [null] of the [catch] block. *)
Definition trackClickEvent (env : Env) (req : Request) (link : Link)
  : M (option ClickEvent) :=
  tryCatch (trackClickEvent_try env req link)
    (fun error =>
       _ ← console_error "Error tracking click event:" error;
       mret None).

(** What a handler does with the response: [res.redirect(url)],
    [res.status(s).json(body)], or [next(error)], which hands the error to
    the error middleware. *)
Inductive Response (Body : Type) : Type :=
  | Redirect (url : string)
  | Json (status : Z) (body : Body)
  | Next (e : Error).
Arguments Redirect {Body} url.
Arguments Json {Body} status body.
Arguments Next {Body} e.

(** [{ status, message }] *)
Record Envelope : Type := mkEnvelope {
  env_status : string;
  env_message : string
}.

(** [link.expiresAt && link.expiresAt < new Date()] *)
Definition expired (env : Env) (link : Link) : bool :=
  match expiresAt link with
  | Some t => t <? now env
  | None => false
  end.

(** [!password || password !== link.password] for
    [password = req.query.password]. *)
Definition passwordRejected (req : Request) (link : Link) : bool :=
  let password := query req !! "password" in
  qfalsy password || strictNe password (Model.password link).

(** [trackClickEvent(req, link).catch(err => console.error(...))], the
    result dropped. *)
Definition fireAndForget (env : Env) (req : Request) (link : Link) : M unit :=
  tryCatch (_ ← trackClickEvent env req link; mret tt)
           (fun err => console_error "Tracking error:" err).

(** [router.get("/:domain/:slug")], lines 111-148. *)
Definition get_domain_slug (env : Env) (req : Request) (domain slug : string)
  : M (Response Envelope) :=
  tryCatch
    (link ← Link_findOne env (byDomainAndSlug domain slug);
     match link with
     | None => mret (Next (AppError "Link not found" 404))
     | Some link =>
         if expired env link then
           mret (Next (AppError "Link has expired" 410))
         else if passwordProtected link && passwordRejected req link then
           mret (Json 401 (mkEnvelope "error" "Password required"))
         else
           _ ← fireAndForget env req link;
           mret (Redirect (destinationUrl link))
     end)
    (fun error => mret (Next error)).

(** [router.get("/:slug")], lines 151-182. *)
Definition get_slug (env : Env) (req : Request) (slug : string)
  : M (Response Envelope) :=
  tryCatch
    (link ← Link_findOne env (bySlug slug);
     match link with
     | None => mret (Next (AppError "Link not found" 404))
     | Some link =>
         if expired env link then
           mret (Next (AppError "Link has expired" 410))
         else if passwordProtected link && passwordRejected req link then
           mret (Json 401 (mkEnvelope "error" "Password required"))
         else
           _ ← fireAndForget env req link;
           mret (Redirect (destinationUrl link))
     end)
    (fun error => mret (Next error)).

End RedirectRoutes.
Export RedirectRoutes.

(** ** The aggregation of [routes/analytics.ts] and [routes/links.ts]

    Both handlers compute the same figures with the same text
    (analytics.ts lines 38-86, links.ts lines 296-344); they are embedded
    once. *)

Module Aggregator.

(** A value found in a breakdown object: a count, or the string the
    [+ 1] produces when the key names a member that every object literal
    inherits. *)
Inductive JsVal : Type :=
  | VNum (n : nat)
  | VStr (s : string).

#[global] Instance JsVal_eq_dec : EqDecision JsVal.
Proof. solve_decision. Defined.

(** The function-valued members of [Object.prototype]. *)
Definition inheritedFunctions : list string :=
  ["constructor"; "__defineGetter__"; "__defineSetter__"; "hasOwnProperty";
   "__lookupGetter__"; "__lookupSetter__"; "isPrototypeOf";
   "propertyIsEnumerable"; "toString"; "valueOf"; "toLocaleString"].

(** [String(f)] for such a member. *)
Definition functionSource (key : string) : string :=
  "function " +:+ (if String.eqb key "constructor" then "Object" else key)
  +:+ "() { [native code] }".

(** [(acc[key] || 0) + 1] on an accumulator that started as [{}]. An own
    count is incremented; an absent key starts at one, unless the lookup
    finds an inherited function, which is truthy and makes [+] a string
    concatenation. *)
Definition bumped (acc : gmap string JsVal) (key : string) : JsVal :=
  match acc !! key with
  | Some (VNum n) => VNum (n + 1)
  | Some (VStr s) => if String.eqb s "" then VNum 1 else VStr (s +:+ "1")
  | None =>
      if bool_decide (key ∈ inheritedFunctions)
      then VStr (functionSource key +:+ "1")
      else VNum 1
  end.

(** [acc[key] = (acc[key] || 0) + 1; return acc]. Assigning a string to
    [__proto__] leaves the object as it was. *)
Definition increment (acc : gmap string JsVal) (key : string)
  : gmap string JsVal :=
  if String.eqb key "__proto__" then acc else <[key := bumped acc key]> acc.

(** [clicks.reduce((acc, click) => { ...; return acc }, {})] *)
Definition tally (key : ClickEvent -> string) (clicks : list ClickEvent)
  : gmap string JsVal :=
  foldl (fun acc click => increment acc (key click)) ∅ clicks.

(** [new Set(values)]: the distinct values in order of first occurrence. *)
Definition setAdd {A : Type} `{EqDecision A} (s : list A) (x : A) : list A :=
  if bool_decide (x ∈ s) then s else s ++ [x].

Definition newSet {A : Type} `{EqDecision A} (values : list A) : list A :=
  foldl setAdd [] values.

Definition totalClicks (clicks : list ClickEvent) : nat := length clicks.

Definition uniqueCountries (clicks : list ClickEvent) : nat :=
  length (newSet (map country clicks)).

Definition uniqueDevices (clicks : list ClickEvent) : nat :=
  length (newSet (map device clicks)).

Definition uniqueBrowsers (clicks : list ClickEvent) : nat :=
  length (newSet (map browser clicks)).

Definition referrerBreakdown (clicks : list ClickEvent) : gmap string JsVal :=
  tally (fun click => orElse (referrer click) "Direct") clicks.

Definition countryBreakdown (clicks : list ClickEvent) : gmap string JsVal :=
  tally (fun click => orElse (country click) "Unknown") clicks.

Definition deviceBreakdown (clicks : list ClickEvent) : gmap string JsVal :=
  tally device clicks.

Definition browserBreakdown (clicks : list ClickEvent) : gmap string JsVal :=
  tally browser clicks.

Record UtmBreakdown : Type := mkUtmBreakdown {
  utm_source : gmap string JsVal;
  utm_medium : gmap string JsVal;
  utm_campaign : gmap string JsVal
}.

Definition utmBreakdown (clicks : list ClickEvent) : UtmBreakdown :=
  {| utm_source := tally (fun click => orElse (utmSource click) "Direct") clicks;
     utm_medium := tally (fun click => orElse (utmMedium click) "None") clicks;
     utm_campaign :=
       tally (fun click => orElse (utmCampaign click) "None") clicks |}.

(** The figures both responses carry. *)
Record Stats : Type := mkStats {
  s_totalClicks : nat;
  s_uniqueCountries : nat;
  s_uniqueDevices : nat;
  s_uniqueBrowsers : nat;
  s_referrerBreakdown : gmap string JsVal;
  s_countryBreakdown : gmap string JsVal;
  s_deviceBreakdown : gmap string JsVal;
  s_browserBreakdown : gmap string JsVal;
  s_utmBreakdown : UtmBreakdown
}.

Definition aggregate (clicks : list ClickEvent) : Stats :=
  {| s_totalClicks := totalClicks clicks;
     s_uniqueCountries := uniqueCountries clicks;
     s_uniqueDevices := uniqueDevices clicks;
     s_uniqueBrowsers := uniqueBrowsers clicks;
     s_referrerBreakdown := referrerBreakdown clicks;
     s_countryBreakdown := countryBreakdown clicks;
     s_deviceBreakdown := deviceBreakdown clicks;
     s_browserBreakdown := browserBreakdown clicks;
     s_utmBreakdown := utmBreakdown clicks |}.

(** [clicks.slice(0, n)] *)
Definition slice0 {A : Type} (n : nat) (l : list A) : list A := take n l.

(** The sum of the values of a breakdown, when they are all numbers. *)
Definition addValue (_ : string) (v : JsVal) (acc : option nat) : option nat :=
  match v, acc with
  | VNum n, Some total => Some (n + total)%nat
  | _, _ => None
  end.

Definition sumValues (b : gmap string JsVal) : option nat :=
  map_fold addValue (Some O) b.

(** [b[key]] read as a count: an absent key counts for nothing. *)
Definition countOf (b : gmap string JsVal) (key : string) : option nat :=
  match b !! key with
  | Some (VNum n) => Some n
  | Some (VStr _) => None
  | None => Some O
  end.

(** The number of clicks that satisfy a test. *)
Definition count (p : ClickEvent -> bool) (clicks : list ClickEvent) : nat :=
  length (List.filter p clicks).

(** The number of clicks filed under the key [k]. *)
Definition occurrences (key : ClickEvent -> string) (k : string)
    (clicks : list ClickEvent) : nat :=
  count (fun click => String.eqb (key click) k) clicks.

(** A key that an empty object literal already answers to. *)
Definition inherited (k : string) : bool :=
  bool_decide (k ∈ inheritedFunctions) || String.eqb k "__proto__".

(** The value a breakdown holds under [k] after [n] clicks with that key. *)
Definition tallied (k : string) (n : nat) : option JsVal :=
  if String.eqb k "__proto__" then None
  else match n with
       | O => None
       | S _ =>
           Some (if bool_decide (k ∈ inheritedFunctions)
                 then VStr (Nat.iter n (fun s => s +:+ "1") (functionSource k))
                 else VNum n)
       end.

(** A click whose referrer is absent or empty, and one whose referrer is
    the word [Direct] itself. *)
Definition emptyReferrer (click : ClickEvent) : bool :=
  negb (truthy (referrer click)).

Definition literalDirect (click : ClickEvent) : bool :=
  bool_decide (referrer click = Str "Direct").

End Aggregator.
Export Aggregator.

(** ** [routes/analytics.ts] *)

Module Analytics.

(** [data] of the response of [GET /links/:linkId]. *)
Record AnalyticsData : Type := mkAnalyticsData {
  a_stats : Stats;
  a_clicks : list ClickEvent
}.

(** Lines 23-31: the [timestamp] clause of the query. [None] when one of
    the two parameters is missing or empty; an unparsable date fails the
    cast of the query. *)
Definition window (env : Env) (req : Request) : Result (option (Z * Z)) :=
  let startDate := query req !! "startDate" in
  let endDate := query req !! "endDate" in
  if negb (qfalsy startDate) && negb (qfalsy endDate) then
    match startDate ≫= parseDate env, endDate ≫= parseDate env with
    | Some lo, Some hi => Ok (Some (lo, hi))
    | _, _ => Throw (CastError "timestamp")
    end
  else Ok None.

Definition inWindow (w : option (Z * Z)) (click : ClickEvent) : bool :=
  match w with
  | Some (lo, hi) => (lo <=? timestamp click) && (timestamp click <=? hi)
  | None => true
  end.

(** [router.get('/links/:linkId')], lines 10-106; [userId] is
    [req.user._id], set by the [protect] middleware. *)
Definition get_links_linkId (env : Env) (userId linkIdParam : ObjectId)
    (req : Request) : M (Response AnalyticsData) :=
  tryCatch
    (link ← Link_findOne env
              (fun l => N.eqb (link_id l) linkIdParam
                        && N.eqb (ownerId l) userId);
     match link with
     | None => mret (Next (AppError "Link not found" 404))
     | Some link =>
         range ← (fun w => (window env req, w)) : M (option (Z * Z));
         found ← ClickEvent_find env
                   (fun c => N.eqb (linkId c) (link_id link)
                             && inWindow range c);
         let clicks := sortDesc timestamp found in
         mret (Json 200 {| a_stats := aggregate clicks;
                           a_clicks := slice0 100 clicks |})
     end)
    (fun error => mret (Next error)).

(** [req.body] of [POST /clicks], the members that are read. *)
Record ClickBody : Type := mkClickBody {
  b_linkId : IdValue;
  b_ip : JsStr;
  b_country : JsStr;
  b_city : JsStr;
  b_device : JsStr;
  b_browser : JsStr;
  b_os : JsStr;
  b_referrer : JsStr;
  b_utmSource : JsStr;
  b_utmMedium : JsStr;
  b_utmCampaign : JsStr
}.

(** [router.post('/clicks')], lines 109-153. *)
Definition post_clicks (env : Env) (body : ClickBody)
  : M (Response ClickEvent) :=
  tryCatch
    (link ← Link_findById env (b_linkId body);
     match link with
     | None => mret (Next (AppError "Link not found" 404))
     | Some _ =>
         clickEvent ← ClickEvent_create env
           {| in_linkId := idOf (b_linkId body);
              in_timestamp := None;
              in_ip := b_ip body;
              in_country := b_country body;
              in_city := b_city body;
              in_device := b_device body;
              in_browser := b_browser body;
              in_os := b_os body;
              in_referrer := b_referrer body;
              in_utmSource := b_utmSource body;
              in_utmMedium := b_utmMedium body;
              in_utmCampaign := b_utmCampaign body |};
         mret (Json 201 clickEvent)
     end)
    (fun error => mret (Next error)).

End Analytics.
Export Analytics.

(** ** [routes/links.ts], the listing *)

Module Links.

Record LinkStats : Type := mkLinkStats {
  l_stats : Stats;
  recentClicks : list ClickEvent
}.

Record LinkWithStats : Type := mkLinkWithStats {
  lw_id : ObjectId;
  lw_slug : string;
  lw_destinationUrl : string;
  lw_shortUrl : string;
  lw_expiresAt : option Z;
  lw_passwordProtected : bool;
  lw_password : JsStr;
  lw_stats : LinkStats;
  lw_createdAt : Z
}.

(** [Link.find(filter).sort('-createdAt').lean()] *)
Definition Link_find (env : Env) (matches : Link -> bool) : M (list Link) :=
  fun w =>
    match linkReadFault env with
    | Some e => (Throw e, w)
    | None =>
        (Ok (sortDesc createdAt
               (map defaultProjection (List.filter matches (links w)))), w)
    end.

(** Lines 346-348 *)
Definition shortUrl (env : Env) (link : Link) : string :=
  if negb (String.eqb (domain link) "xpro.li")
  then "https://" +:+ domain link +:+ "/" +:+ slug link
  else orElse (BACKEND_URL env) "https://xpro.li" +:+ "/" +:+ slug link.

(** The callback of [links.map], lines 291-376. *)
Definition withStats (env : Env) (link : Link) : M LinkWithStats :=
  clicks ← ClickEvent_find env (fun c => N.eqb (linkId c) (link_id link));
  mret {| lw_id := link_id link;
          lw_slug := slug link;
          lw_destinationUrl := destinationUrl link;
          lw_shortUrl := shortUrl env link;
          lw_expiresAt := expiresAt link;
          lw_passwordProtected := passwordProtected link;
          lw_password := password link;
          lw_stats := {| l_stats := aggregate clicks;
                         recentClicks := slice0 5 clicks |};
          lw_createdAt := createdAt link |}.

(** [router.get('/')], lines 281-386. *)
Definition get_links (env : Env) (userId : ObjectId)
  : M (Response (list LinkWithStats)) :=
  tryCatch
    (found ← Link_find env (fun l => N.eqb (ownerId l) userId);
     linksWithStats ← mapM (withStats env) found;
     mret (Json 200 linksWithStats))
    (fun error => mret (Next error)).

End Links.
Export Links.

(** ** Concrete environments, worlds and requests *)

Module Sample.

Definition chrome : UAResult :=
  mkUAResult Undefined Undefined Undefined
             (Str "Chrome") (Str "120.0") (Str "Linux") Undefined.

(** An environment whose collaborators all answer; unsorted queries are
    answered in insertion order. *)
Definition env : Env :=
  mkEnv 1000 (fun _ => Ok None) (fun _ => Ok chrome) None None None
        (fun found => found) (fun _ => None) Undefined.

(** The same with a store that answers an unsorted query on click events
    from the index on [linkId] and descending [timestamp]. *)
Definition indexedEnv : Env :=
  mkEnv 1000 (fun _ => Ok None) (fun _ => Ok chrome) None None None
        (sortDesc timestamp) (fun _ => None) Undefined.

(** The same with a geo database and a click store that both fail. *)
Definition brokenEnv : Env :=
  mkEnv 1000 (fun _ => Throw (Failure "geoip")) (fun _ => Ok chrome)
        None None (Some (Failure "write")) (fun found => found)
        (fun _ => None) Undefined.

Definition openLink : Link :=
  mkLink 1%N 9%N "xpro.li" "open" "https://example.com/open"
         None false Undefined 0.

Definition secretLink : Link :=
  mkLink 2%N 9%N "xpro.li" "abc" "https://example.com/secret"
         None true (Str "secret") 0.

(** Protected and expired one millisecond ago. *)
Definition staleLink : Link :=
  mkLink 3%N 9%N "xpro.li" "old" "https://example.com/old"
         (Some 999) true (Str "secret") 0.

(** Expiring at the very instant of the request. *)
Definition edgeLink : Link :=
  mkLink 4%N 9%N "xpro.li" "edge" "https://example.com/edge"
         (Some 1000) false Undefined 0.

Definition world : World :=
  mkWorld [openLink; secretLink; staleLink; edgeLink] [] [] [] 100%N.

Definition plain : Request :=
  mkRequest {["x-forwarded-for" := "1.2.3.4, 5.6.7.8"]} ∅ Undefined.

Definition withSecret : Request :=
  mkRequest {["x-forwarded-for" := "1.2.3.4, 5.6.7.8"]}
            {["password" := QStr "secret"]} Undefined.

Definition fromLoopback : Request :=
  mkRequest ∅ ∅ (Str "127.0.0.1").

(** A click on [openLink] at instant [t] with the given referrer. *)
Definition click (id : ObjectId) (t : Z) (r : JsStr) : ClickEvent :=
  mkClickEvent id 1%N t "1.2.3.4" (Str "Unknown") Undefined
               "Desktop (Linux)" "Chrome 120.0" "Linux " r
               Undefined Undefined Undefined.

(** Two clicks: one whose referrer is the word [Direct], one whose
    referrer is the word [constructor]. Neither referrer is empty. *)
Definition twoReferrers : list ClickEvent :=
  [click 101%N 10 (Str "Direct"); click 102%N 20 (Str "constructor")].

(** Three clicks, one of them without a referrer. *)
Definition threeClicks : list ClickEvent :=
  [click 101%N 10 (Str "https://a.example/"); click 102%N 20 Undefined;
   click 103%N 30 (Str "Direct")].

(** Six clicks on [openLink], stored in the order they were made. *)
Definition sixClicks : list ClickEvent :=
  [click 101%N 10 Undefined; click 102%N 20 Undefined;
   click 103%N 30 Undefined; click 104%N 40 Undefined;
   click 105%N 50 Undefined; click 106%N 60 Undefined].

Definition busyWorld : World :=
  mkWorld [openLink] sixClicks [] [] 200%N.

(** A body of [POST /clicks] that names [openLink] and nothing else, and
    one that carries the four required strings as well. *)
Definition bareBody : ClickBody :=
  mkClickBody (IsId 1%N) Undefined Undefined Undefined Undefined Undefined
              Undefined Undefined Undefined Undefined Undefined.

Definition fullBody : ClickBody :=
  mkClickBody (IsId 1%N) (Str "1.2.3.4") (Str "FR") Undefined
              (Str "mobile") (Str "Firefox") (Str "Android") Undefined
              Undefined Undefined Undefined.

Definition strayBody : ClickBody :=
  mkClickBody (IsId 77%N) (Str "1.2.3.4") (Str "FR") Undefined
              (Str "mobile") (Str "Firefox") (Str "Android") Undefined
              Undefined Undefined Undefined.

(** A body whose [linkId] is no ObjectId, and one that has none. *)
Definition malformedBody : ClickBody :=
  mkClickBody (NotAnId "abc") (Str "1.2.3.4") (Str "FR") Undefined
              (Str "mobile") (Str "Firefox") (Str "Android") Undefined
              Undefined Undefined Undefined.

Definition anonymousBody : ClickBody :=
  mkClickBody NoId (Str "1.2.3.4") (Str "FR") Undefined
              (Str "mobile") (Str "Firefox") (Str "Android") Undefined
              Undefined Undefined Undefined.

End Sample.

(** An environment with the collaborators of the click recorder replaced. *)
Definition withRecorder (env : Env)
    (geo : string -> Result (option GeoData))
    (ua : string -> Result UAResult) (fault : option Error) : Env :=
  mkEnv (now env) geo ua (linkReadFault env) (clickReadFault env) fault
        (scanOrder env) (parseDate env) (BACKEND_URL env).

(** The response [next(new AppError("Link has expired", 410))]. *)
Definition Expired : Result (Response Envelope) :=
  Ok (Next (AppError "Link has expired" 410)).

(** The response [res.status(401).json({ status: "error", ... })]. *)
Definition PasswordRequired : Result (Response Envelope) :=
  Ok (Json 401 (mkEnvelope "error" "Password required")).

(** What the two routes do once the lookup has answered with a link. *)
Definition served (env : Env) (req : Request) (link : Link) (w : World)
  : Result (Response Envelope) * World :=
  if expired env link then (Expired, w)
  else if passwordProtected link && passwordRejected req link
       then (PasswordRequired, w)
       else (Ok (Redirect (destinationUrl link)),
             snd (fireAndForget env req link w)).

(** The filter of [Link.findById(req.body.linkId)]. *)
Definition byBodyId (body : ClickBody) (l : Link) : bool :=
  byId (b_linkId body) l.

(** The four required strings of a body are all present and non-empty. *)
Definition complete (body : ClickBody) : bool :=
  truthy (b_ip body) && truthy (b_device body)
  && truthy (b_browser body) && truthy (b_os body).

(** The click event made of the fields of a body, with a fresh id and the
    current instant. *)
Definition createdFrom (env : Env) (id : ObjectId) (body : ClickBody)
  : ClickEvent :=
  mkClickEvent id (default 0%N (idOf (b_linkId body))) (now env)
    (orElse (b_ip body) "") (b_country body) (b_city body)
    (orElse (b_device body) "") (orElse (b_browser body) "")
    (orElse (b_os body) "")
    (b_referrer body) (b_utmSource body) (b_utmMedium body)
    (b_utmCampaign body).

(** The world after one more click event has been stored. *)
Definition stored (w : World) (doc : ClickEvent) : World :=
  mkWorld (links w) (clickEvents w ++ [doc]) (consoleErrors w)
          (geoQueries w) (N.succ (nextId w)).

(** The click events the query of [GET /links/:linkId] selects. *)
Definition selected (link : Link) (range : option (Z * Z)) (w : World)
  : list ClickEvent :=
  List.filter (fun c => N.eqb (linkId c) (link_id link) && inWindow range c)
              (clickEvents w).

(** ** [routes/links.ts]: creating, reading and deleting a link *)

Module LinkRoutes.

(** What these routes need beyond [Env]: the verdict of the
    [express-validator] chain on the request ([validationResult(req)]),
    the slug [nanoid(8)] draws, and a fault of the store on a write to the
    link collection. *)
Record LinkEnv : Type := mkLinkEnv {
  base : Env;
  validationErrors : list string;
  nanoid8 : string;
  linkWriteFault : option Error
}.

(** [req.body] of [POST /], the members that reach a modelled path. *)
Record LinkBody : Type := mkLinkBody {
  lb_destinationUrl : JsStr;
  lb_domain : JsStr;
  lb_slug : JsStr;
  lb_expiresAt : JsStr;
  lb_passwordProtected : option bool;
  lb_password : JsStr
}.

(** The object handed to [Link.create]. *)
Record LinkInput : Type := mkLinkInput {
  li_ownerId : ObjectId;
  li_domain : JsStr;
  li_slug : JsStr;
  li_destinationUrl : JsStr;
  li_expiresAt : JsStr;
  li_passwordProtected : option bool;
  li_password : JsStr
}.

(** The body of an answer of [POST /]: [{ errors }] or [{ data: { link } }]. *)
Inductive LinkReply : Type :=
  | Errors (errors : list string)
  | Created (link : Link).

(** The filter [{ domain, slug }] when the two values come from a body:
    a [null] matches no stored string. *)
Definition byDomainAndSlugJs (d s : JsStr) (l : Link) : bool :=
  bool_decide (Str (domain l) = d) && bool_decide (Str (slug l) = s).

(** The filter [{ _id, ownerId }]. *)
Definition byIdAndOwner (id owner : ObjectId) (l : Link) : bool :=
  N.eqb (link_id l) id && N.eqb (ownerId l) owner.

(** The cast of a [Date] path: [undefined], [null] and the empty string
    give no date; a string that does not parse fails the cast. *)
Definition castDate (env : Env) (v : JsStr) : option (option Z) :=
  match v with
  | Undefined | Null => Some None
  | Str s =>
      if String.eqb s "" then Some None
      else match parseDate env (QStr s) with
           | Some t => Some (Some t)
           | None => None
           end
  end.

(** The paths [Link.create] rejects: the required strings, then the
    date. *)
Definition invalidPaths (env : Env) (i : LinkInput) : list string :=
  (if truthy (li_domain i) then [] else ["domain"]) ++
  (if truthy (li_slug i) then [] else ["slug"]) ++
  (if truthy (li_destinationUrl i) then [] else ["destinationUrl"]) ++
  (if bool_decide (castDate env (li_expiresAt i) = None)
   then ["expiresAt"] else []).

(** The unique indexes of [linkSchema]: [slug] alone ([unique: true]),
    [{ ownerId, slug }] and [{ slug, domain }]. *)
Definition sameSlug (a b : Link) : bool := String.eqb (slug a) (slug b).

Definition sameOwnerAndSlug (a b : Link) : bool :=
  N.eqb (ownerId a) (ownerId b) && String.eqb (slug a) (slug b).

Definition sameSlugAndDomain (a b : Link) : bool :=
  String.eqb (slug a) (slug b) && String.eqb (domain a) (domain b).

Definition duplicateKey (stored : list Link) (l : Link) : bool :=
  existsb (fun k => sameSlug k l || sameOwnerAndSlug k l
                    || sameSlugAndDomain k l) stored.

(** The document [Link.create] builds; [passwordProtected] defaults to
    [false], [createdAt] is the instant of the insertion. *)
Definition newLink (env : Env) (id : ObjectId) (i : LinkInput) : Link :=
  mkLink id (li_ownerId i)
    (orElse (li_domain i) "") (orElse (li_slug i) "")
    (orElse (li_destinationUrl i) "")
    (default None (castDate env (li_expiresAt i)))
    (default false (li_passwordProtected i))
    (li_password i) (now env).

(** [Link.create(fields)]: validation, then the insertion, which the
    store refuses on a fault or on a duplicate key. *)
Definition Link_create (lenv : LinkEnv) (i : LinkInput) : M Link :=
  fun w =>
    match invalidPaths (base lenv) i with
    | p :: ps => (Throw (ValidationError (p :: ps)), w)
    | [] =>
        match linkWriteFault lenv with
        | Some e => (Throw e, w)
        | None =>
            let doc := newLink (base lenv) (nextId w) i in
            if duplicateKey (links w) doc
            then (Throw (Failure "E11000 duplicate key error"), w)
            else (Ok doc,
                  mkWorld (links w ++ [doc]) (clickEvents w)
                          (consoleErrors w) (geoQueries w)
                          (N.succ (nextId w)))
        end
    end.

(** [const { domain = 'xpro.li', slug = nanoid(8) } = req.body]: a
    default replaces [undefined] only. *)
Definition orDefault (v : JsStr) (d : string) : JsStr :=
  match v with
  | Undefined => Str d
  | _ => v
  end.

(** [router.post('/')], lines 197-243; [userId] is [req.user._id]. *)
Definition post_link (lenv : LinkEnv) (userId : ObjectId) (body : LinkBody)
  : M (Response LinkReply) :=
  tryCatch
    (match validationErrors lenv with
     | _ :: _ => mret (Json 400 (Errors (validationErrors lenv)))
     | [] =>
         let d := orDefault (lb_domain body) "xpro.li" in
         let s := orDefault (lb_slug body) (nanoid8 lenv) in
         existingLink ← Link_findOne (base lenv) (byDomainAndSlugJs d s);
         match existingLink with
         | Some _ => mret (Next (AppError "Slug already in use" 400))
         | None =>
             link ← Link_create lenv
                      {| li_ownerId := userId;
                         li_domain := d;
                         li_slug := s;
                         li_destinationUrl := lb_destinationUrl body;
                         li_expiresAt := lb_expiresAt body;
                         li_passwordProtected := lb_passwordProtected body;
                         li_password := lb_password body |};
             mret (Json 201 (Created link))
         end
     end)
    (fun error => mret (Next error)).

(** [router.get('/:id')], lines 421-439. *)
Definition get_link (env : Env) (userId id : ObjectId) : M (Response Link) :=
  tryCatch
    (link ← Link_findOne env (byIdAndOwner id userId);
     match link with
     | None => mret (Next (AppError "Link not found" 404))
     | Some link => mret (Json 200 link)
     end)
    (fun error => mret (Next error)).

(** The collection without the first document that matches. *)
Fixpoint removeFirst (matches : Link -> bool) (l : list Link) : list Link :=
  match l with
  | [] => []
  | x :: l' => if matches x then l' else x :: removeFirst matches l'
  end.

(** [Link.findOneAndDelete(filter)] *)
Definition Link_findOneAndDelete (lenv : LinkEnv) (matches : Link -> bool)
  : M (option Link) :=
  fun w =>
    match linkWriteFault lenv with
    | Some e => (Throw e, w)
    | None =>
        match List.find matches (links w) with
        | None => (Ok None, w)
        | Some l =>
            (Ok (Some (defaultProjection l)),
             mkWorld (removeFirst matches (links w)) (clickEvents w)
                     (consoleErrors w) (geoQueries w) (nextId w))
        end
    end.

(** [router.delete('/:id')], lines 513-531; the answer carries
    [data: null]. *)
Definition delete_link (lenv : LinkEnv) (userId id : ObjectId)
  : M (Response unit) :=
  tryCatch
    (link ← Link_findOneAndDelete lenv (byIdAndOwner id userId);
     match link with
     | None => mret (Next (AppError "Link not found" 404))
     | Some _ => mret (Json 200 tt)
     end)
    (fun error => mret (Next error)).

End LinkRoutes.
Export LinkRoutes.

(** ** [middleware/auth.ts]: the [protect] middleware *)

Module Auth.

(** [s.split(c)] for a separator of one character; the result always
    has a first element. *)
Fixpoint splitOn (sep : ascii) (s : string) : list string :=
  match s with
  | EmptyString => [EmptyString]
  | String a s' =>
      if Ascii.eqb a sep then EmptyString :: splitOn sep s'
      else match splitOn sep s' with
           | [] => [String a EmptyString]
           | p :: ps => String a p :: ps
           end
  end.

(** [authorization.split(" ")[1]] *)
Definition bearerToken (authorization : string) : JsStr :=
  ofOption (splitOn " " authorization !! 1%nat).

(** [const [key, value] = cookie.trim().split("=")] *)
Definition cookiePair (cookie : string) : string * JsStr :=
  let parts := splitOn "=" (trim cookie) in
  (hd "" parts, ofOption (parts !! 1%nat)).

(** [acc[key] = value] on the cookie jar, which started as [{}]. *)
Definition putCookie (acc : gmap string JsStr) (cookie : string)
  : gmap string JsStr :=
  let (key, value) := cookiePair cookie in
  if String.eqb key "__proto__" then acc else <[key := value]> acc.

(** [req.headers.cookie.split(";").reduce(..., {})] *)
Definition parseCookies (cookie : string) : gmap string JsStr :=
  foldl putCookie ∅ (splitOn ";" cookie).

(** [cookies.token] *)
Definition cookieToken (cookie : string) : JsStr :=
  default Undefined (parseCookies cookie !! "token").

(** The [token] of lines 95-111: from an [Authorization] header that
    starts with [Bearer], else from the cookies when there are any. *)
Definition requestToken (req : Request) : JsStr :=
  let fromCookies :=
    match headers req !! "cookie" with
    | Some c => if String.eqb c "" then Undefined else cookieToken c
    | None => Undefined
    end in
  match headers req !! "authorization" with
  | Some a => if startsWith "Bearer" a then bearerToken a else fromCookies
  | None => fromCookies
  end.

(** What the middleware does: answer 401 itself, or set [req.user] and
    call [next()]. *)
Inductive Guard (U : Type) : Type :=
  | Denied (status : Z) (body : Envelope)
  | Granted (user : option U).
Arguments Denied {U} status body.
Arguments Granted {U} user.

(** [protect], lines 90-139. [verify] stands for
    [jwt.verify(token, JWT_SECRET)] and [findById] for
    [User.findById(decoded.id).select("-password")]; either may raise. *)
Definition protect {P U : Type}
    (verify : string -> Result P) (findById : P -> Result (option U))
    (req : Request) : Guard U :=
  let token := requestToken req in
  if negb (truthy token) then
    Denied 401 (mkEnvelope "error" "Not authorized, no token")
  else
    match verify (orElse token "") with
    | Throw _ => Denied 401 (mkEnvelope "error" "Not authorized, token failed")
    | Ok decoded =>
        match findById decoded with
        | Throw _ =>
            Denied 401 (mkEnvelope "error" "Not authorized, token failed")
        | Ok user => Granted user
        end
    end.

End Auth.
Export Auth.

(** ** More concrete inputs *)

Module Fixture.

(** A link on a custom domain, owned by another user. *)
Definition foreignLink : Link :=
  mkLink 5%N 8%N "go.example" "promo" "https://example.com/promo"
         None false Undefined 5.

Definition town : World :=
  mkWorld [Sample.openLink; Sample.secretLink; foreignLink]
          Sample.sixClicks [] [] 300%N.

Definition lenv : LinkEnv := mkLinkEnv Sample.env [] "Ab3dE6gH" None.

Definition newBody : LinkBody :=
  mkLinkBody (Str "https://example.com/new") Undefined (Str "fresh")
             Undefined None Undefined.

Definition takenBody : LinkBody :=
  mkLinkBody (Str "https://example.com/elsewhere") Undefined (Str "open")
             Undefined None Undefined.

Definition crossDomainBody : LinkBody :=
  mkLinkBody (Str "https://example.com/other") (Str "xpro.li") (Str "promo")
             Undefined None Undefined.

Definition withBearer : Request :=
  mkRequest {["authorization" := "Bearer abc.def.ghi";
              "cookie" := "token=zzz"]} ∅ Undefined.

Definition withCookie : Request :=
  mkRequest {["cookie" := "theme=dark; token=abc.def.ghi; lang=en"]}
            ∅ Undefined.

Definition bareBearer : Request :=
  mkRequest {["authorization" := "Bearer";
              "cookie" := "token=abc.def.ghi"]} ∅ Undefined.

Definition tagged : Request :=
  mkRequest {["referer" := "https://news.example/";
              "user-agent" := "Mozilla/5.0"]}
            {["utm_source" := QStr "newsletter";
              "utm_medium" := QMulti;
              "page" := QStr "2"]}
            (Str "203.0.113.9").

Definition onlyStart : Request :=
  mkRequest ∅ {["startDate" := QStr "2024-01-01"]} Undefined.

Definition blankHop : Request :=
  mkRequest {["x-forwarded-for" := " , 5.6.7.8"; "x-real-ip" := "9.9.9.9"]}
            ∅ (Str "10.0.0.7").

Definition dropHeader (name : string) (req : Request) : Request :=
  mkRequest (delete name (headers req)) (query req) (remoteAddress req).

End Fixture.

(** A click that holds the string [k] in an optional field, and one that
    holds nothing there ([undefined], [null] or the empty string). *)
Definition carries (field : ClickEvent -> JsStr) (k : string)
    (click : ClickEvent) : bool :=
  bool_decide (field click = Str k).

Definition lacks (field : ClickEvent -> JsStr) (click : ClickEvent) : bool :=
  negb (truthy (field click)).

(** The entry of the listing for a link, in a world whose click events
    can be read. *)
Definition entryOf (env : Env) (w : World) (link : Link) : LinkWithStats :=
  let clicks :=
    scanOrder env (List.filter (fun c => N.eqb (linkId c) (link_id link))
                               (clickEvents w)) in
  {| lw_id := link_id link;
     lw_slug := slug link;
     lw_destinationUrl := destinationUrl link;
     lw_shortUrl := shortUrl env link;
     lw_expiresAt := expiresAt link;
     lw_passwordProtected := passwordProtected link;
     lw_password := password link;
     lw_stats := {| l_stats := aggregate clicks;
                    recentClicks := slice0 5 clicks |};
     lw_createdAt := createdAt link |}.

(** The links of a user, as stored. *)
Definition ownedBy (userId : ObjectId) (w : World) : list Link :=
  List.filter (fun l => N.eqb (ownerId l) userId) (links w).




(** The fields [POST /] hands to [Link.create]. *)
Definition inputOf (lenv : LinkEnv) (userId : ObjectId) (body : LinkBody)
  : LinkInput :=
  {| li_ownerId := userId;
     li_domain := orDefault (lb_domain body) "xpro.li";
     li_slug := orDefault (lb_slug body) (nanoid8 lenv);
     li_destinationUrl := lb_destinationUrl body;
     li_expiresAt := lb_expiresAt body;
     li_passwordProtected := lb_passwordProtected body;
     li_password := lb_password body |}.

(** The world after one more link has been stored. *)
Definition linked (w : World) (doc : Link) : World :=
  mkWorld (links w ++ [doc]) (clickEvents w) (consoleErrors w)
          (geoQueries w) (N.succ (nextId w)).

(** The request with one header set. *)
Definition setHeader (name value : string) (req : Request) : Request :=
  mkRequest (<[name := value]> (headers req)) (query req) (remoteAddress req).

(** The two refusals of [protect]. *)
Definition NoToken {U : Type} : Guard U :=
  Denied 401 (mkEnvelope "error" "Not authorized, no token").

Definition TokenFailed {U : Type} : Guard U :=
  Denied 401 (mkEnvelope "error" "Not authorized, token failed").

(** The request without its [startDate] and [endDate] parameters. *)
Definition withoutDates (req : Request) : Request :=
  mkRequest (headers req)
            (delete "startDate" (delete "endDate" (query req)))
            (remoteAddress req).

(** What a redirect route may do to the world [w]: leave it as it was
    and not redirect, or redirect to the destination of a stored link and
    record at most one click, which refers to that link. *)
Definition quietOrServed (w : World)
    (r : Result (Response Envelope) * World) : Prop :=
  (snd r = w ∧ ∀ url, fst r ≠ Ok (Redirect url)) ∨
  (∃ link, link ∈ links w ∧
           fst r = Ok (Redirect (destinationUrl link)) ∧
           links (snd r) = links w ∧
           (clickEvents (snd r) = clickEvents w ∨
            ∃ doc, clickEvents (snd r) = clickEvents w ++ [doc] ∧
                   linkId doc = link_id link)).

(** * Properties *)

Ltac run :=
  unfold tryCatch, mbind, M_bind, mret, M_ret, throw; simpl.

Section RedirectFacts.

Variables (env : Env) (req : Request).

(** The click recorder returns; it never raises. *)
Lemma trackClickEvent_returns (link : Link) (w : World) :
  ∃ r w', trackClickEvent env req link w = (Ok r, w').
Proof.
  unfold trackClickEvent, tryCatch.
  destruct (trackClickEvent_try env req link w) as [[r|e] w1]; run; eauto.
Qed.

Lemma fireAndForget_returns (link : Link) (w : World) :
  ∃ w', fireAndForget env req link w = (Ok tt, w').
Proof.
  unfold fireAndForget.
  destruct (trackClickEvent_returns link w) as (r & w' & E).
  run. rewrite E. eauto.
Qed.

Lemma findOne_found (matches : Link -> bool) (w : World) (link : Link) :
  linkReadFault env = None ->
  List.find matches (links w) = Some link ->
  Link_findOne env matches w = (Ok (Some (defaultProjection link)), w).
Proof. intros F H. unfold Link_findOne. rewrite F, H. reflexivity. Qed.

Lemma findOne_missing (matches : Link -> bool) (w : World) :
  linkReadFault env = None ->
  List.find matches (links w) = None ->
  Link_findOne env matches w = (Ok None, w).
Proof. intros F H. unfold Link_findOne. rewrite F, H. reflexivity. Qed.

Lemma get_domain_slug_found (d s : string) (w : World) (link : Link) :
  linkReadFault env = None ->
  List.find (byDomainAndSlug d s) (links w) = Some link ->
  get_domain_slug env req d s w = served env req (defaultProjection link) w.
Proof.
  intros F H. unfold get_domain_slug, served.
  unfold tryCatch, mbind, M_bind, mret, M_ret.
  rewrite (findOne_found _ _ _ F H).
  destruct (expired env (defaultProjection link)); [reflexivity|].
  destruct (passwordProtected (defaultProjection link)
            && passwordRejected req (defaultProjection link)); [reflexivity|].
  destruct (fireAndForget_returns (defaultProjection link) w) as (w' & E).
  rewrite E. reflexivity.
Qed.

Lemma get_slug_found (s : string) (w : World) (link : Link) :
  linkReadFault env = None ->
  List.find (bySlug s) (links w) = Some link ->
  get_slug env req s w = served env req (defaultProjection link) w.
Proof.
  intros F H. unfold get_slug, served.
  unfold tryCatch, mbind, M_bind, mret, M_ret.
  rewrite (findOne_found _ _ _ F H).
  destruct (expired env (defaultProjection link)); [reflexivity|].
  destruct (passwordProtected (defaultProjection link)
            && passwordRejected req (defaultProjection link)); [reflexivity|].
  destruct (fireAndForget_returns (defaultProjection link) w) as (w' & E).
  rewrite E. reflexivity.
Qed.

Lemma expired_projection (link : Link) :
  expired env (defaultProjection link) = expired env link.
Proof. reflexivity. Qed.

Lemma expired_iff (link : Link) :
  expired env link = true <-> ∃ t, expiresAt link = Some t ∧ t < now env.
Proof.
  unfold expired. destruct (expiresAt link) as [t|].
  - rewrite Z.ltb_lt. split; [eauto|]. intros (t' & [= <-] & H). exact H.
  - split; [discriminate|]. intros (t' & [=] & _).
Qed.

(** A query for a protected link never carries what the password check
    compares against: the projection has removed it. *)
Lemma passwordRejected_projection (link : Link) :
  passwordRejected req (defaultProjection link) = true.
Proof.
  unfold passwordRejected. simpl.
  destruct (query req !! "password") as [[s|]|]; simpl;
    try reflexivity; apply orb_true_r.
Qed.

Lemma served_expired_iff (link : Link) (w : World) :
  fst (served env req link w) = Expired <-> expired env link = true.
Proof.
  unfold served. destruct (expired env link); [tauto|].
  destruct (passwordProtected link && passwordRejected req link);
    simpl; split; discriminate.
Qed.

End RedirectFacts.

(** ** The expiry gate *)

(** C1. A link whose [expiresAt] is set and earlier than the instant of
    the request answers Expired (410) on both redirect routes, whatever
    the [password] parameter of the request and whether or not the link
    is password protected: the expiry check comes first. Nothing is
    recorded: the world is left as it was. *)
Theorem expired_link_yields_410
    (env : Env) (req : Request) (w : World) (link : Link) (t : Z) :
  linkReadFault env = None ->
  expiresAt link = Some t ->
  t < now env ->
  (∀ d s, List.find (byDomainAndSlug d s) (links w) = Some link ->
          get_domain_slug env req d s w = (Expired, w)) ∧
  (∀ s, List.find (bySlug s) (links w) = Some link ->
        get_slug env req s w = (Expired, w)).
Proof.
  intros F E Lt.
  assert (X : expired env (defaultProjection link) = true).
  { rewrite expired_projection. apply expired_iff. eauto. }
  split.
  - intros d s H. rewrite (get_domain_slug_found env req d s w link F H).
    unfold served. rewrite X. reflexivity.
  - intros s H. rewrite (get_slug_found env req s w link F H).
    unfold served. rewrite X. reflexivity.
Qed.

Lemma expired_link_yields_410_witness :
  linkReadFault Sample.env = None ∧
  expiresAt Sample.staleLink = Some 999 ∧
  999 < now Sample.env ∧
  List.find (byDomainAndSlug "xpro.li" "old") (links Sample.world)
    = Some Sample.staleLink ∧
  List.find (bySlug "old") (links Sample.world) = Some Sample.staleLink ∧
  get_domain_slug Sample.env Sample.plain "xpro.li" "old" Sample.world
    = (Expired, Sample.world) ∧
  get_slug Sample.env Sample.withSecret "old" Sample.world
    = (Expired, Sample.world).
Proof.
  assert (F : linkReadFault Sample.env = None) by reflexivity.
  assert (E : expiresAt Sample.staleLink = Some 999) by reflexivity.
  assert (Lt : 999 < now Sample.env) by reflexivity.
  assert (H1 : List.find (byDomainAndSlug "xpro.li" "old") (links Sample.world)
               = Some Sample.staleLink) by reflexivity.
  assert (H2 : List.find (bySlug "old") (links Sample.world)
               = Some Sample.staleLink) by reflexivity.
  refine (conj F (conj E (conj Lt (conj H1 (conj H2 (conj _ _)))))).
  - exact (proj1 (expired_link_yields_410 Sample.env Sample.plain Sample.world
                    Sample.staleLink 999 F E Lt) "xpro.li" "old" H1).
  - exact (proj2 (expired_link_yields_410 Sample.env Sample.withSecret
                    Sample.world Sample.staleLink 999 F E Lt) "old" H2).
Defined.

(** C10. The comparison of the expiry gate is strict. For a link the
    lookup finds, either route answers Expired exactly when [expiresAt]
    is set and strictly earlier than the instant of the request; a link
    expiring at that very instant, later, or never is not stopped by this
    gate. *)
Theorem expiry_gate_is_strict
    (env : Env) (req : Request) (w : World) (link : Link) :
  linkReadFault env = None ->
  (∀ d s, List.find (byDomainAndSlug d s) (links w) = Some link ->
          (fst (get_domain_slug env req d s w) = Expired
           <-> ∃ t, expiresAt link = Some t ∧ t < now env)) ∧
  (∀ s, List.find (bySlug s) (links w) = Some link ->
        (fst (get_slug env req s w) = Expired
         <-> ∃ t, expiresAt link = Some t ∧ t < now env)).
Proof.
  intros F. split.
  - intros d s H. rewrite (get_domain_slug_found env req d s w link F H).
    rewrite served_expired_iff, expired_projection. apply expired_iff.
  - intros s H. rewrite (get_slug_found env req s w link F H).
    rewrite served_expired_iff, expired_projection. apply expired_iff.
Qed.

Lemma expiry_gate_is_strict_witness :
  linkReadFault Sample.env = None ∧
  List.find (bySlug "edge") (links Sample.world) = Some Sample.edgeLink ∧
  expiresAt Sample.edgeLink = Some (now Sample.env) ∧
  fst (get_slug Sample.env Sample.plain "edge" Sample.world) ≠ Expired.
Proof.
  assert (F : linkReadFault Sample.env = None) by reflexivity.
  assert (H : List.find (bySlug "edge") (links Sample.world)
              = Some Sample.edgeLink) by reflexivity.
  refine (conj F (conj H (conj eq_refl _))).
  intros X.
  apply (proj2 (expiry_gate_is_strict Sample.env Sample.plain Sample.world
                  Sample.edgeLink F) "edge" H) in X.
  destruct X as (t & E & Lt). simpl in E. injection E as <-.
  revert Lt. unfold Sample.env. simpl. lia.
Defined.

Example edge_link_redirects :
  fst (get_slug Sample.env Sample.plain "edge" Sample.world)
  = Ok (Redirect "https://example.com/edge").
Proof. vm_compute. reflexivity. Qed.

(** ** The password gate *)

(** The check itself, on a link document that carries its password,
    accepts the stored password and nothing else. *)
Lemma passwordRejected_spec (req : Request) (link : Link) (p : string) :
  password link = Str p ->
  (passwordRejected req link = false
   <-> p ≠ "" ∧ query req !! "password" = Some (QStr p)).
Proof.
  intros P. unfold passwordRejected. rewrite P.
  destruct (query req !! "password") as [[s|]|]; simpl.
  - rewrite orb_false_iff, negb_false_iff, String.eqb_neq, String.eqb_eq.
    split.
    + intros [N ->]. split; [exact N | reflexivity].
    + intros [N [= ->]]. split; [exact N | reflexivity].
  - split; [discriminate | intros [_ [=]]].
  - split; [discriminate | intros [_ [=]]].
Qed.

(** Through either route a protected link that has not expired answers
    PasswordRequired to every request, records no click and redirects
    nobody. This is the half of C2 that holds (a missing or wrong password
    is refused); it also refuses the right one. *)
Lemma protected_link_yields_401
    (env : Env) (req : Request) (w : World) (link : Link) :
  linkReadFault env = None ->
  passwordProtected link = true ->
  expired env link = false ->
  (∀ d s, List.find (byDomainAndSlug d s) (links w) = Some link ->
          get_domain_slug env req d s w = (PasswordRequired, w)) ∧
  (∀ s, List.find (bySlug s) (links w) = Some link ->
        get_slug env req s w = (PasswordRequired, w)).
Proof.
  intros F P X. split.
  - intros d s H. rewrite (get_domain_slug_found env req d s w link F H).
    unfold served. rewrite expired_projection, X.
    rewrite passwordRejected_projection. simpl. rewrite P. reflexivity.
  - intros s H. rewrite (get_slug_found env req s w link F H).
    unfold served. rewrite expired_projection, X.
    rewrite passwordRejected_projection. simpl. rewrite P. reflexivity.
Qed.

(** C2, at the failing input. The link [abc] is protected by the password
    [secret] and does not expire; the request carries [?password=secret].
    Both routes answer 401 and the click collection stays empty. *)
Theorem stored_password_is_refused :
  password Sample.secretLink = Str "secret" ∧
  query Sample.withSecret !! "password" = Some (QStr "secret") ∧
  passwordRejected Sample.withSecret Sample.secretLink = false ∧
  get_domain_slug Sample.env Sample.withSecret "xpro.li" "abc" Sample.world
    = (PasswordRequired, Sample.world) ∧
  get_slug Sample.env Sample.withSecret "abc" Sample.world
    = (PasswordRequired, Sample.world).
Proof. repeat split; vm_compute; reflexivity. Qed.

(** An unprotected link redirects and records exactly one click that
    refers to it. *)
Example open_link_records_one_click :
  ∃ click w',
    get_slug Sample.env Sample.plain "open" Sample.world
      = (Ok (Redirect "https://example.com/open"), w') ∧
    clickEvents w' = [click] ∧
    linkId click = link_id Sample.openLink ∧
    ip click = "1.2.3.4".
Proof. eexists _, _. vm_compute. repeat split; reflexivity. Qed.

(** ** The click recorder *)

Section RecorderFacts.

Variables (env : Env) (req : Request).

Lemma resolveGeo_keeps_clicks (addr : string) (w : World) :
  clickEvents (snd (resolveGeo env addr w)) = clickEvents w.
Proof.
  unfold resolveGeo. destruct (nonLocal addr); [|reflexivity].
  unfold mbind, M_bind, geoipLookup.
  destruct (geoip_lookup env addr) as [[g|]|e]; reflexivity.
Qed.

(** When the body of the [try] block raises, no click has been stored. *)
Lemma trackClickEvent_try_throw (link : Link) (w w1 : World) (e : Error) :
  trackClickEvent_try env req link w = (Throw e, w1) ->
  clickEvents w1 = clickEvents w.
Proof.
  unfold trackClickEvent_try, mbind, M_bind.
  pose proof (resolveGeo_keeps_clicks (clientIp req) w) as G.
  destruct (resolveGeo env (clientIp req) w) as [[geo|e1] w2]; simpl in G.
  - destruct (ua_getResult env _) as [result|e2].
    + unfold ClickEvent_create.
      destruct (missingPaths _); [|intros [= _ <-]; exact G].
      destruct (clickWriteFault env); [intros [= _ <-]; exact G|].
      discriminate.
    + intros [= _ <-]. exact G.
  - intros [= _ <-]. exact G.
Qed.

(** The recorder only ever hands the store an object that passes its
    validation: the four required strings are never empty. *)
Lemma tracked_click_is_valid (link : Link) (addr : string) (geo : Geo)
    (result : UAResult) :
  addr ≠ "" ->
  missingPaths (schemaPaths (trackedClick env req link addr geo result)) = [].
Proof.
  intros A.
  assert (NV : ∀ n v, truthy (Str (nameAndVersion n v)) = true).
  { intros n v. unfold nameAndVersion.
    destruct (truthy n) eqn:T; [|reflexivity].
    destruct n as [| |s]; try discriminate. simpl in *.
    destruct s; [discriminate|reflexivity]. }
  assert (D : truthy (Str (deviceInfo result)) = true).
  { unfold deviceInfo.
    destruct (device_type result) as [| |ty]; simpl;
      try (destruct (os_name result) as [| |o]; simpl; try reflexivity;
           destruct o; reflexivity).
    destruct ty as [|a ty]; simpl.
    - destruct (os_name result) as [| |o]; simpl; try reflexivity.
      destruct o; reflexivity.
    - destruct (device_vendor result) as [| |v]; simpl;
        try (destruct (device_model result) as [| |m]; simpl; try reflexivity;
             destruct m; reflexivity).
      destruct v as [|b v]; simpl;
        destruct (device_model result) as [| |m]; simpl; try reflexivity;
        destruct m; reflexivity. }
  assert (I : truthy (Str addr) = true).
  { simpl. apply String.eqb_neq in A. rewrite A. reflexivity. }
  unfold missingPaths, schemaPaths, trackedClick.
  cbn [in_linkId in_ip in_device in_browser in_os
       t_linkId t_ip t_device t_browser t_os].
  rewrite I, D, !NV. reflexivity.
Qed.

End RecorderFacts.

Lemma orElse_nonempty (v : JsStr) (d : string) : d ≠ "" -> orElse v d ≠ "".
Proof.
  intros D. destruct v as [| |s]; simpl; try exact D.
  destruct (String.eqb s "") eqn:E; [exact D|].
  apply String.eqb_neq in E. exact E.
Qed.

Lemma orElse_falsy (v : JsStr) (d : string) : truthy v = false -> orElse v d = d.
Proof.
  destruct v as [| |s]; simpl; try reflexivity.
  destruct (String.eqb s ""); [reflexivity | discriminate].
Qed.

(** The client address is never the empty string. *)
Lemma clientIp_nonempty (req : Request) : clientIp req ≠ "".
Proof. apply orElse_nonempty. discriminate. Qed.

(** The first hop of a forwarded-for chain is the recorded address. *)
Example clientIp_forwarded : clientIp Sample.plain = "1.2.3.4".
Proof. vm_compute. reflexivity. Qed.

Example trim_ex : trim " 5.6.7.8  " = "5.6.7.8".
Proof. reflexivity. Qed.

Lemma handlers_ignore_recorder (env : Env) (req : Request) (w : World)
    (geo : string -> Result (option GeoData))
    (ua : string -> Result UAResult) (fault : option Error) :
  (∀ d s, fst (get_domain_slug (withRecorder env geo ua fault) req d s w)
          = fst (get_domain_slug env req d s w)) ∧
  (∀ s, fst (get_slug (withRecorder env geo ua fault) req s w)
        = fst (get_slug env req s w)).
Proof.
  assert (K : ∀ found : option Link,
    fst (match found with
         | Some link => served (withRecorder env geo ua fault) req link w
         | None => (Ok (Next (AppError "Link not found" 404)), w)
         end)
    = fst (match found with
           | Some link => served env req link w
           | None => (Ok (Next (AppError "Link not found" 404)), w)
           end)).
  { intros [link|]; [|reflexivity]. unfold served.
    change (expired (withRecorder env geo ua fault) link) with (expired env link).
    destruct (expired env link); [reflexivity|].
    destruct (passwordProtected link && passwordRejected req link);
      reflexivity. }
  assert (R : ∀ (e : Env) (matches : Link -> bool),
    fst (tryCatch
           (link ← Link_findOne e matches;
            match link with
            | None => mret (Next (AppError "Link not found" 404))
            | Some link =>
                if expired e link then
                  mret (Next (AppError "Link has expired" 410))
                else if passwordProtected link && passwordRejected req link then
                  mret (Json 401 (mkEnvelope "error" "Password required"))
                else
                  _ ← fireAndForget e req link;
                  mret (Redirect (destinationUrl link))
            end)
           (fun error => mret (Next error)) w)
    = match linkReadFault e with
      | Some err => Ok (Next err)
      | None =>
          fst (match defaultProjection <$> List.find matches (links w) with
               | Some link => served e req link w
               | None => (Ok (Next (AppError "Link not found" 404)), w)
               end)
      end).
  { intros e matches. unfold tryCatch, mbind, M_bind, mret, M_ret, Link_findOne.
    destruct (linkReadFault e); [reflexivity|].
    destruct (List.find matches (links w)) as [l|]; [|reflexivity].
    unfold served. simpl.
    destruct (expired e (defaultProjection l)); [reflexivity|].
    destruct (passwordProtected l && passwordRejected req (defaultProjection l));
      [reflexivity|].
    destruct (fireAndForget_returns e req (defaultProjection l) w) as (w' & E).
    rewrite E. reflexivity. }
  split.
  - intros d s. unfold get_domain_slug. rewrite !R. simpl.
    destruct (linkReadFault env); [reflexivity|]. apply K.
  - intros s. unfold get_slug. rewrite !R. simpl.
    destruct (linkReadFault env); [reflexivity|]. apply K.
Qed.

Section RecorderFrame.

Variables (env : Env) (req : Request) (link : Link).

Lemma resolveGeo_frame (addr : string) (w : World) :
  links (snd (resolveGeo env addr w)) = links w ∧
  clickEvents (snd (resolveGeo env addr w)) = clickEvents w ∧
  consoleErrors (snd (resolveGeo env addr w)) = consoleErrors w ∧
  nextId (snd (resolveGeo env addr w)) = nextId w.
Proof.
  unfold resolveGeo. destruct (nonLocal addr); [|repeat split].
  unfold mbind, M_bind, geoipLookup.
  destruct (geoip_lookup env addr) as [[g|]|e]; repeat split.
Qed.

(** The body of the recorder either stores one click for the link or
    stores nothing; it writes nothing to the console and leaves the links
    alone. *)
Lemma trackClickEvent_try_cases (w : World) :
  match trackClickEvent_try env req link w with
  | (Ok r, w1) =>
      ∃ doc, r = Some doc ∧ clickEvents w1 = clickEvents w ++ [doc] ∧
             linkId doc = link_id link ∧ click_id doc = nextId w ∧
             consoleErrors w1 = consoleErrors w ∧ links w1 = links w
  | (Throw e, w1) =>
      clickEvents w1 = clickEvents w ∧ consoleErrors w1 = consoleErrors w ∧
      links w1 = links w
  end.
Proof.
  unfold trackClickEvent_try, mbind, M_bind.
  destruct (resolveGeo_frame (clientIp req) w) as (L & C & E & I).
  destruct (resolveGeo env (clientIp req) w) as [[geo|e1] w2]; simpl in *;
    [|tauto].
  destruct (ua_getResult env _) as [result|e2]; [|tauto].
  unfold ClickEvent_create.
  rewrite (tracked_click_is_valid env req link _ geo result
             (clientIp_nonempty req)).
  destruct (clickWriteFault env); [tauto|].
  eexists. split; [reflexivity|]. simpl. rewrite C, E, L, I. tauto.
Qed.

End RecorderFrame.

(** C3. The click recorder never raises to its caller. Whatever the
    request, the link and the behaviour of the geo database, of the
    user-agent parser and of the click store, [trackClickEvent] returns;
    it returns [null] whenever its body raised, and what its body
    returned otherwise. A failure is logged before [null] is returned:
    when the body raised, exactly one line has been added to the
    console, which carries the error that was raised, and no click has
    been stored; when the body returned, nothing has been logged. The
    response of both redirect routes is the same under any replacement
    of these three collaborators. *)
Theorem trackClickEvent_never_raises
    (env : Env) (req : Request) (link : Link) (w : World) :
  (∃ r w', trackClickEvent env req link w = (Ok r, w')) ∧
  fst (trackClickEvent env req link w)
    = match fst (trackClickEvent_try env req link w) with
      | Ok r => Ok r
      | Throw _ => Ok None
      end ∧
  match trackClickEvent_try env req link w with
  | (Ok r, w1) =>
      trackClickEvent env req link w = (Ok r, w1) ∧
      consoleErrors w1 = consoleErrors w
  | (Throw e, w1) =>
      fst (trackClickEvent env req link w) = Ok None ∧
      consoleErrors (snd (trackClickEvent env req link w))
        = consoleErrors w ++ [("Error tracking click event:", e)] ∧
      clickEvents (snd (trackClickEvent env req link w)) = clickEvents w
  end ∧
  (∀ geo ua fault d s,
     fst (get_domain_slug (withRecorder env geo ua fault) req d s w)
     = fst (get_domain_slug env req d s w)) ∧
  (∀ geo ua fault s,
     fst (get_slug (withRecorder env geo ua fault) req s w)
     = fst (get_slug env req s w)).
Proof.
  split; [apply trackClickEvent_returns|]. split; [|split].
  - unfold trackClickEvent, tryCatch.
    destruct (trackClickEvent_try env req link w) as [[r|e] w1]; reflexivity.
  - pose proof (trackClickEvent_try_cases env req link w) as T.
    unfold trackClickEvent, tryCatch.
    destruct (trackClickEvent_try env req link w) as [[r|e] w1].
    + destruct T as (doc & _ & _ & _ & _ & E & _).
      split; [reflexivity | exact E].
    + destruct T as (C & E & _). simpl. rewrite C, E.
      split; [reflexivity|]. split; reflexivity.
  - split.
    + intros geo ua fault. apply handlers_ignore_recorder.
    + intros geo ua fault. apply handlers_ignore_recorder.
Qed.

(** With a geo database and a click store that both fail, the recorder
    answers [null], logs the failure, stores nothing, and the visitor is
    redirected all the same. *)
Example recorder_failure_is_absorbed :
  fst (trackClickEvent Sample.brokenEnv Sample.plain Sample.openLink
                       Sample.world) = Ok None ∧
  consoleErrors (snd (trackClickEvent Sample.brokenEnv Sample.plain
                                      Sample.openLink Sample.world))
    = [("Error tracking click event:", Failure "geoip")] ∧
  clickEvents (snd (get_slug Sample.brokenEnv Sample.plain "open" Sample.world))
    = [] ∧
  fst (get_slug Sample.brokenEnv Sample.plain "open" Sample.world)
    = Ok (Redirect "https://example.com/open").
Proof. repeat split; vm_compute; reflexivity. Qed.

(** ** The geo resolver *)

(** C8. When the client address is [::1] or starts with [127.0.0.1] the
    geo triple is Local/Development/Local and [geoip.lookup] is not
    called (the world, which records its calls, is unchanged). For any
    other address the lookup is called once with that address; an address
    it does not know gives Unknown three times, and a field it leaves
    empty or undefined gives Unknown for that field. *)
Theorem loopback_resolves_locally (env : Env) (req : Request) (w : World) :
  (clientIp req = "::1" ∨ startsWith "127.0.0.1" (clientIp req) = true ->
   resolveGeo env (clientIp req) w
   = (Ok (mkGeo "Local" "Development" "Local"), w)) ∧
  (clientIp req ≠ "::1" -> startsWith "127.0.0.1" (clientIp req) = false ->
   resolveGeo env (clientIp req) w
   = (match geoip_lookup env (clientIp req) with
      | Ok (Some g) =>
          Ok (mkGeo (if truthy (lookup_country g)
                     then orElse (lookup_country g) "" else "Unknown")
                    (if truthy (lookup_city g)
                     then orElse (lookup_city g) "" else "Unknown")
                    (if truthy (lookup_region g)
                     then orElse (lookup_region g) "" else "Unknown"))
      | Ok None => Ok (mkGeo "Unknown" "Unknown" "Unknown")
      | Throw e => Throw e
      end,
      mkWorld (links w) (clickEvents w) (consoleErrors w)
              (geoQueries w ++ [clientIp req]) (nextId w))).
Proof.
  assert (O : ∀ v, orElse v "Unknown"
                   = if truthy v then orElse v "" else "Unknown").
  { intros [| |s]; simpl; try reflexivity. destruct (String.eqb s ""); reflexivity. }
  split.
  - intros H. unfold resolveGeo, nonLocal.
    destruct H as [-> | ->]; [reflexivity|].
    rewrite !andb_false_r. reflexivity.
  - intros N1 N2. unfold resolveGeo, nonLocal. rewrite N2.
    apply String.eqb_neq in N1. rewrite N1.
    pose proof (clientIp_nonempty req) as N0.
    apply String.eqb_neq in N0. rewrite N0. simpl.
    unfold mbind, M_bind, geoipLookup.
    destruct (geoip_lookup env (clientIp req)) as [[g|]|e]; try reflexivity.
    unfold mret, M_ret. rewrite !O. reflexivity.
Qed.

Lemma loopback_resolves_locally_witness :
  (clientIp Sample.fromLoopback = "::1"
   ∨ startsWith "127.0.0.1" (clientIp Sample.fromLoopback) = true) ∧
  resolveGeo Sample.brokenEnv (clientIp Sample.fromLoopback) Sample.world
  = (Ok (mkGeo "Local" "Development" "Local"), Sample.world) ∧
  clientIp Sample.plain ≠ "::1" ∧
  startsWith "127.0.0.1" (clientIp Sample.plain) = false ∧
  fst (resolveGeo Sample.env (clientIp Sample.plain) Sample.world)
  = Ok (mkGeo "Unknown" "Unknown" "Unknown").
Proof.
  assert (H : clientIp Sample.fromLoopback = "::1"
              ∨ startsWith "127.0.0.1" (clientIp Sample.fromLoopback) = true)
    by (right; reflexivity).
  assert (N1 : clientIp Sample.plain ≠ "::1") by discriminate.
  assert (N2 : startsWith "127.0.0.1" (clientIp Sample.plain) = false)
    by reflexivity.
  refine (conj H (conj _ (conj N1 (conj N2 _)))).
  - exact (proj1 (loopback_resolves_locally Sample.brokenEnv
                    Sample.fromLoopback Sample.world) H).
  - rewrite (proj2 (loopback_resolves_locally Sample.env Sample.plain
                      Sample.world) N1 N2).
    reflexivity.
Defined.

(** ** The breakdowns *)

Section TallyFacts.

Variable key : ClickEvent -> string.

Lemma tally_snoc (clicks : list ClickEvent) (c : ClickEvent) :
  tally key (clicks ++ [c]) = increment (tally key clicks) (key c).
Proof. unfold tally. rewrite foldl_snoc. reflexivity. Qed.

Lemma count_snoc (p : ClickEvent -> bool) (clicks : list ClickEvent)
    (c : ClickEvent) :
  count p (clicks ++ [c]) = (count p clicks + if p c then 1 else 0)%nat.
Proof.
  unfold count. rewrite List.filter_app, length_app. simpl.
  destruct (p c); reflexivity.
Qed.

Lemma append_one_nonempty (s : string) : String.eqb (s +:+ "1") "" = false.
Proof. destruct s; reflexivity. Qed.

(** What a breakdown holds under a key depends only on how many clicks
    were filed under that key. *)
Lemma tally_lookup (clicks : list ClickEvent) (k : string) :
  tally key clicks !! k = tallied k (occurrences key k clicks).
Proof.
  induction clicks as [|c clicks IH] using rev_ind.
  - unfold tallied, tally, occurrences, count. cbn [foldl List.filter length].
    rewrite lookup_empty.
    destruct (String.eqb k "__proto__"); reflexivity.
  - rewrite tally_snoc. unfold occurrences in *. rewrite count_snoc.
    unfold increment.
    destruct (String.eqb (key c) "__proto__") eqn:P.
    + destruct (String.eqb (key c) k) eqn:E.
      * apply String.eqb_eq in E. subst k.
        rewrite IH. unfold tallied. rewrite P. reflexivity.
      * rewrite Nat.add_0_r. exact IH.
    + destruct (String.eqb (key c) k) eqn:E.
      * apply String.eqb_eq in E. subst k.
        rewrite lookup_insert_eq. unfold bumped. rewrite IH.
        unfold tallied. rewrite P. rewrite Nat.add_1_r.
        destruct (count _ clicks) as [|n].
        -- destruct (bool_decide (key c ∈ inheritedFunctions)); reflexivity.
        -- destruct (bool_decide (key c ∈ inheritedFunctions)).
           ++ cbn [Nat.iter nat_rect]. rewrite append_one_nonempty. reflexivity.
           ++ rewrite Nat.add_1_r. reflexivity.
      * apply String.eqb_neq in E.
        rewrite lookup_insert_ne by exact E.
        rewrite Nat.add_0_r. exact IH.
Qed.

Lemma count_perm (p : ClickEvent -> bool) (l1 l2 : list ClickEvent) :
  l1 ≡ₚ l2 -> count p l1 = count p l2.
Proof.
  unfold count. induction 1 as [|x l l' _ IH|x y l|l l' l'' _ IH1 _ IH2]; simpl.
  - reflexivity.
  - destruct (p x); simpl; congruence.
  - destruct (p x), (p y); reflexivity.
  - congruence.
Qed.

(** The order of the clicks does not show in a breakdown. *)
Lemma tally_perm (l1 l2 : list ClickEvent) :
  l1 ≡ₚ l2 -> tally key l1 = tally key l2.
Proof.
  intros H. apply map_eq. intros k. rewrite !tally_lookup.
  unfold occurrences. rewrite (count_perm _ l1 l2 H). reflexivity.
Qed.

End TallyFacts.

Section SumFacts.

Lemma addValue_comm (j1 j2 : string) (z1 z2 : JsVal) (y : option nat) :
  addValue j1 z1 (addValue j2 z2 y) = addValue j2 z2 (addValue j1 z1 y).
Proof.
  destruct z1, z2, y; simpl; try reflexivity. f_equal. lia.
Qed.

Lemma sumValues_insert_fresh (m : gmap string JsVal) (k : string) (v : JsVal) :
  m !! k = None ->
  sumValues (<[k := v]> m) = addValue k v (sumValues m).
Proof.
  intros H. unfold sumValues.
  apply (map_fold_insert_L addValue); [|exact H].
  intros. apply addValue_comm.
Qed.

Lemma sumValues_bump (m : gmap string JsVal) (k : string) (n t : nat) :
  m !! k = Some (VNum n) ->
  sumValues m = Some t ->
  sumValues (<[k := VNum (n + 1)]> m) = Some (t + 1)%nat.
Proof.
  intros H S.
  rewrite <- (insert_delete_id m k (VNum n) H) in S.
  rewrite sumValues_insert_fresh in S by apply lookup_delete_eq.
  rewrite <- insert_delete_eq.
  rewrite sumValues_insert_fresh by apply lookup_delete_eq.
  simpl in *. destruct (sumValues (delete k m)) as [t'|]; [|discriminate].
  injection S as <-. f_equal. lia.
Qed.

(** When no click is filed under an inherited name, every value of the
    breakdown is a number and the numbers add up to the number of
    clicks. *)
Lemma tally_sum (key : ClickEvent -> string) (clicks : list ClickEvent) :
  Forall (fun c => inherited (key c) = false) clicks ->
  sumValues (tally key clicks) = Some (length clicks) ∧
  ∀ k v, tally key clicks !! k = Some v -> ∃ n, v = VNum n.
Proof.
  induction clicks as [|c clicks IH] using rev_ind; intros H.
  - split; [reflexivity|]. intros k v. unfold tally. simpl.
    rewrite lookup_empty. discriminate.
  - apply Forall_app in H as [H Hc]. apply Forall_inv in Hc.
    destruct (IH H) as [S V]. clear IH.
    unfold inherited in Hc. apply orb_false_iff in Hc as [I P].
    rewrite tally_snoc. unfold increment. rewrite P.
    rewrite length_app. simpl.
    unfold bumped. rewrite I.
    destruct (tally key clicks !! key c) as [v|] eqn:L.
    + destruct (V _ _ L) as [n ->]. split.
      * apply (sumValues_bump _ _ _ _ L S).
      * intros k v. destruct (decide (key c = k)) as [<-|N].
        -- rewrite lookup_insert_eq. intros [= <-]. eauto.
        -- rewrite lookup_insert_ne by exact N. apply V.
    + split.
      * rewrite sumValues_insert_fresh by exact L. rewrite S. simpl.
        f_equal. lia.
      * intros k v. destruct (decide (key c = k)) as [<-|N].
        -- rewrite lookup_insert_eq. intros [= <-]. eauto.
        -- rewrite lookup_insert_ne by exact N. apply V.
Qed.

End SumFacts.

Lemma tallied_plain (k : string) (n : nat) :
  inherited k = false ->
  tallied k n = match n with O => None | S _ => Some (VNum n) end.
Proof.
  unfold inherited, tallied. intros H.
  apply orb_false_iff in H as [-> ->]. reflexivity.
Qed.

Lemma direct_occurrences (clicks : list ClickEvent) :
  occurrences (fun c => orElse (referrer c) "Direct") "Direct" clicks
  = (count emptyReferrer clicks + count literalDirect clicks)%nat.
Proof.
  unfold occurrences, count.
  induction clicks as [|c clicks IH]; [reflexivity|].
  cbn [List.filter]. unfold emptyReferrer at 1, literalDirect at 1.
  destruct (referrer c) as [| |s] eqn:R; simpl.
  - rewrite IH. reflexivity.
  - rewrite IH. reflexivity.
  - destruct (String.eqb s "") eqn:E; simpl.
    + apply String.eqb_eq in E. subst s. simpl. rewrite IH. reflexivity.
    + destruct (String.eqb s "Direct") eqn:D.
      * apply String.eqb_eq in D. subst s. simpl. rewrite IH. lia.
      * rewrite bool_decide_eq_false_2; [exact IH|].
        intros [= ->]. discriminate.
Qed.

Lemma count_split (p : ClickEvent -> bool) (clicks : list ClickEvent) :
  (count p clicks + count (fun c => negb (p c)) clicks)%nat = length clicks.
Proof.
  unfold count. induction clicks as [|c clicks IH]; [reflexivity|].
  simpl. destruct (p c); simpl; lia.
Qed.

(** On the two sample clicks, neither of which has an empty referrer,
    the breakdown files one click under Direct, and its values do not add
    up to a number. *)
Lemma direct_counts_the_word_Direct :
  count emptyReferrer Sample.twoReferrers = 0%nat ∧
  count (fun c => negb (emptyReferrer c)) Sample.twoReferrers = 2%nat ∧
  referrerBreakdown Sample.twoReferrers !! "Direct" = Some (VNum 1) ∧
  referrerBreakdown Sample.twoReferrers !! "constructor"
    = Some (VStr "function Object() { [native code] }1") ∧
  countOf (referrerBreakdown Sample.twoReferrers) "Direct"
    ≠ Some (count emptyReferrer Sample.twoReferrers) ∧
  sumValues (referrerBreakdown Sample.twoReferrers)
    ≠ Some (count emptyReferrer Sample.twoReferrers
            + count (fun c => negb (emptyReferrer c)) Sample.twoReferrers)%nat.
Proof.
  split; [reflexivity|]. split; [reflexivity|].
  split; [vm_compute; reflexivity|]. split; [vm_compute; reflexivity|].
  split; vm_compute; discriminate.
Qed.

(** C5, as the code has it. With N clicks whose referrer is absent or
    empty and M clicks whose referrer is not, the breakdown files under
    Direct the N clicks and, with them, every click whose referrer is the
    word Direct itself; N + M is the total number of clicks; and when no
    referrer is a name that object literals inherit, the values of the
    breakdown are numbers that add up to N + M. *)
Theorem referrer_breakdown_counts (clicks : list ClickEvent) :
  referrerBreakdown clicks !! "Direct"
    = match (count emptyReferrer clicks + count literalDirect clicks)%nat with
      | O => None
      | S n => Some (VNum (S n))
      end ∧
  countOf (referrerBreakdown clicks) "Direct"
    = Some (count emptyReferrer clicks + count literalDirect clicks)%nat ∧
  (count emptyReferrer clicks
   + count (fun c => negb (emptyReferrer c)) clicks)%nat = totalClicks clicks ∧
  (Forall (fun c => inherited (orElse (referrer c) "Direct") = false) clicks ->
   sumValues (referrerBreakdown clicks)
   = Some (count emptyReferrer clicks
           + count (fun c => negb (emptyReferrer c)) clicks)%nat).
Proof.
  assert (L : referrerBreakdown clicks !! "Direct"
    = match (count emptyReferrer clicks + count literalDirect clicks)%nat with
      | O => None
      | S n => Some (VNum (S n))
      end).
  { unfold referrerBreakdown. rewrite tally_lookup.
    rewrite direct_occurrences. rewrite tallied_plain by reflexivity.
    destruct (count emptyReferrer clicks + count literalDirect clicks)%nat;
      reflexivity. }
  split; [exact L|]. split; [|split].
  - unfold countOf. rewrite L.
    destruct (count emptyReferrer clicks + count literalDirect clicks)%nat;
      reflexivity.
  - apply count_split.
  - intros H. rewrite count_split. unfold referrerBreakdown.
    apply (tally_sum _ clicks H).
Qed.

Lemma referrer_breakdown_counts_witness :
  Forall (fun c => inherited (orElse (referrer c) "Direct") = false)
         Sample.threeClicks ∧
  countOf (referrerBreakdown Sample.threeClicks) "Direct" = Some 2%nat ∧
  sumValues (referrerBreakdown Sample.threeClicks) = Some 3%nat.
Proof.
  assert (H : Forall (fun c => inherited (orElse (referrer c) "Direct") = false)
                     Sample.threeClicks).
  { repeat constructor. }
  pose proof (referrer_breakdown_counts Sample.threeClicks) as (_ & D & _ & S).
  exact (conj H (conj D (S H))).
Defined.

(** ** The unique counts *)

Section SetFacts.

Context {A : Type} {eqA : EqDecision A} {countA : Countable A}.

Lemma newSet_snoc (l : list A) (x : A) :
  newSet (l ++ [x]) = setAdd (newSet l) x.
Proof. unfold newSet. rewrite foldl_snoc. reflexivity. Qed.

Lemma elem_of_newSet (l : list A) (x : A) : x ∈ newSet l ↔ x ∈ l.
Proof.
  induction l as [|y l IH] using rev_ind; [reflexivity|].
  rewrite newSet_snoc. unfold setAdd. rewrite elem_of_app, list_elem_of_singleton.
  case_bool_decide as E.
  - rewrite IH. split; [tauto|]. intros [?| ->]; [assumption|].
    apply IH. exact E.
  - rewrite elem_of_app, list_elem_of_singleton, IH. reflexivity.
Qed.

Lemma NoDup_newSet (l : list A) : NoDup (newSet l).
Proof.
  induction l as [|y l IH] using rev_ind; [constructor|].
  rewrite newSet_snoc. unfold setAdd. case_bool_decide as E; [exact IH|].
  apply NoDup_app. split; [exact IH|]. split.
  - intros z Hz Hz'. apply list_elem_of_singleton in Hz'. subst z. tauto.
  - apply NoDup_singleton.
Qed.

(** The size of [new Set(values)] is the number of distinct values. *)
Lemma newSet_size (l : list A) :
  length (newSet l) = size (list_to_set l : gset A).
Proof.
  rewrite <- (size_list_to_set (C := gset A) (newSet l)) by apply NoDup_newSet.
  f_equal. apply set_eq. intros x.
  rewrite !elem_of_list_to_set. apply elem_of_newSet.
Qed.

(** A member of a finite set accounts for exactly one of its elements. *)
Lemma size_counts_member_once (X : gset A) (u : A) :
  size X = (size (X ∖ {[u]}) + if bool_decide (u ∈ X) then 1 else 0)%nat.
Proof.
  case_bool_decide as E.
  - rewrite size_difference by set_solver. rewrite size_singleton.
    assert (size X ≠ 0%nat); [|lia].
    intros Z. apply size_empty_inv in Z. set_solver.
  - rewrite Nat.add_0_r. f_equal. symmetry. apply difference_disjoint_L.
    apply disjoint_singleton_r. exact E.
Qed.

End SetFacts.

(** C6. Each unique count is the number of distinct values of the field
    as stored, before any default is applied: an absent country is a
    value of its own, distinct from the string Unknown. The value Unknown
    accounts for exactly one in the count when some click carries it, and
    for nothing otherwise. *)
Theorem unique_counts_are_cardinalities (clicks : list ClickEvent) :
  uniqueCountries clicks
    = size (list_to_set (map country clicks) : gset JsStr) ∧
  uniqueDevices clicks
    = size (list_to_set (map device clicks) : gset string) ∧
  uniqueBrowsers clicks
    = size (list_to_set (map browser clicks) : gset string) ∧
  uniqueCountries clicks
    = (size ((list_to_set (map country clicks) : gset JsStr) ∖ {[Str "Unknown"]})
       + if bool_decide (Str "Unknown" ∈ map country clicks) then 1 else 0)%nat ∧
  uniqueDevices clicks
    = (size ((list_to_set (map device clicks) : gset string) ∖ {["Unknown"]})
       + if bool_decide ("Unknown" ∈ map device clicks) then 1 else 0)%nat ∧
  uniqueBrowsers clicks
    = (size ((list_to_set (map browser clicks) : gset string) ∖ {["Unknown"]})
       + if bool_decide ("Unknown" ∈ map browser clicks) then 1 else 0)%nat.
Proof.
  unfold uniqueCountries, uniqueDevices, uniqueBrowsers.
  rewrite !newSet_size.
  repeat split; try reflexivity.
  - rewrite (size_counts_member_once _ (Str "Unknown")) at 1. f_equal.
    erewrite bool_decide_ext; [reflexivity | apply elem_of_list_to_set].
  - rewrite (size_counts_member_once _ "Unknown") at 1. f_equal.
    erewrite bool_decide_ext; [reflexivity | apply elem_of_list_to_set].
  - rewrite (size_counts_member_once _ "Unknown") at 1. f_equal.
    erewrite bool_decide_ext; [reflexivity | apply elem_of_list_to_set].
Qed.

Example unique_countries_ex :
  uniqueCountries
    [mkClickEvent 1%N 1%N 1 "a" (Str "Unknown") Undefined "d" "b" "o"
                  Undefined Undefined Undefined Undefined;
     mkClickEvent 2%N 1%N 2 "a" Undefined Undefined "d" "b" "o"
                  Undefined Undefined Undefined Undefined;
     mkClickEvent 3%N 1%N 3 "a" (Str "Unknown") Undefined "d" "b" "o"
                  Undefined Undefined Undefined Undefined;
     mkClickEvent 4%N 1%N 4 "a" (Str "FR") Undefined "d" "b" "o"
                  Undefined Undefined Undefined Undefined] = 3%nat.
Proof. reflexivity. Qed.

(** ** Order independence *)

Lemma newSet_length_perm {A : Type} `{Countable A} (l1 l2 : list A) :
  l1 ≡ₚ l2 -> length (newSet l1) = length (newSet l2).
Proof.
  intros P. rewrite !newSet_size. f_equal. apply set_eq. intros x.
  rewrite !elem_of_list_to_set. rewrite P. reflexivity.
Qed.

Lemma aggregate_reordered (l1 l2 : list ClickEvent) :
  l1 ≡ₚ l2 -> aggregate l1 = aggregate l2.
Proof.
  intros P. unfold aggregate, utmBreakdown.
  unfold totalClicks, uniqueCountries, uniqueDevices, uniqueBrowsers,
    referrerBreakdown, countryBreakdown, deviceBreakdown, browserBreakdown.
  rewrite (Permutation_length P).
  rewrite (newSet_length_perm (map country l1) (map country l2))
    by (apply Permutation_map; exact P).
  rewrite (newSet_length_perm (map device l1) (map device l2))
    by (apply Permutation_map; exact P).
  rewrite (newSet_length_perm (map browser l1) (map browser l2))
    by (apply Permutation_map; exact P).
  rewrite !(tally_perm _ l1 l2 P). reflexivity.
Qed.

(** C7. The figures computed from a list of clicks and from any
    permutation of it are the same: the total, the three unique counts,
    and the seven breakdowns (referrer, country, device, browser, UTM
    source, medium and campaign) as maps from key to value. *)
Theorem aggregate_perm (l1 l2 : list ClickEvent) :
  l1 ≡ₚ l2 ->
  aggregate l1 = aggregate l2 ∧
  s_totalClicks (aggregate l1) = s_totalClicks (aggregate l2) ∧
  s_uniqueCountries (aggregate l1) = s_uniqueCountries (aggregate l2) ∧
  s_uniqueDevices (aggregate l1) = s_uniqueDevices (aggregate l2) ∧
  s_uniqueBrowsers (aggregate l1) = s_uniqueBrowsers (aggregate l2) ∧
  ∀ k, s_referrerBreakdown (aggregate l1) !! k
         = s_referrerBreakdown (aggregate l2) !! k ∧
       s_countryBreakdown (aggregate l1) !! k
         = s_countryBreakdown (aggregate l2) !! k ∧
       s_deviceBreakdown (aggregate l1) !! k
         = s_deviceBreakdown (aggregate l2) !! k ∧
       s_browserBreakdown (aggregate l1) !! k
         = s_browserBreakdown (aggregate l2) !! k ∧
       utm_source (s_utmBreakdown (aggregate l1)) !! k
         = utm_source (s_utmBreakdown (aggregate l2)) !! k ∧
       utm_medium (s_utmBreakdown (aggregate l1)) !! k
         = utm_medium (s_utmBreakdown (aggregate l2)) !! k ∧
       utm_campaign (s_utmBreakdown (aggregate l1)) !! k
         = utm_campaign (s_utmBreakdown (aggregate l2)) !! k.
Proof.
  intros P. rewrite (aggregate_reordered l1 l2 P).
  repeat split; reflexivity.
Qed.

Lemma aggregate_perm_witness :
  Sample.threeClicks ≡ₚ rev Sample.threeClicks ∧
  aggregate Sample.threeClicks = aggregate (rev Sample.threeClicks).
Proof.
  assert (P : Sample.threeClicks ≡ₚ rev Sample.threeClicks)
    by apply Permutation_rev.
  exact (conj P (proj1 (aggregate_perm _ _ P))).
Defined.

(** ** [POST /clicks] *)

Lemma findById_casts (env : Env) (id : IdValue) :
  (∀ raw, id ≠ NotAnId raw) ->
  Link_findById env id = Link_findOne env (byId id).
Proof.
  destruct id as [|i|raw]; intros H; [reflexivity | reflexivity |].
  destruct (H raw eq_refl).
Qed.

Lemma byBodyId_names (body : ClickBody) (l : list Link) (link : Link) :
  List.find (byBodyId body) l = Some link ->
  b_linkId body = IsId (link_id link).
Proof.
  intros H. apply List.find_some in H as [_ H]. unfold byBodyId, byId in H.
  destruct (b_linkId body) as [|i|raw]; try discriminate.
  apply N.eqb_eq in H. rewrite H. reflexivity.
Qed.

Lemma findById_body (env : Env) (body : ClickBody) (link : Link)
    (l : list Link) :
  List.find (byBodyId body) l = Some link ->
  Link_findById env (b_linkId body) = Link_findOne env (byBodyId body).
Proof.
  intros H. unfold byBodyId. apply findById_casts. intros raw E.
  rewrite (byBodyId_names body l link H) in E. discriminate.
Qed.

(** The body names an existing link and nothing else: the schema
    requires [ip], [device], [browser] and [os], the creation is rejected
    and the response is not a 201. *)
Lemma post_clicks_rejects_bare_body :
  List.find (byBodyId Sample.bareBody) (links Sample.world)
    = Some Sample.openLink ∧
  post_clicks Sample.env Sample.bareBody Sample.world
    = (Ok (Next (ValidationError ["ip"; "device"; "browser"; "os"])),
       Sample.world) ∧
  ∀ doc, fst (post_clicks Sample.env Sample.bareBody Sample.world)
         ≠ Ok (Json 201 doc).
Proof.
  split; [reflexivity|]. split; [vm_compute; reflexivity|].
  intros doc. vm_compute. discriminate.
Qed.

(** The body carries a [linkId] that is no ObjectId: the lookup rejects
    on the cast, the error goes to the error middleware, and the
    response is not the 404 of a link that does not exist. *)
Lemma post_clicks_rejects_malformed_id :
  b_linkId Sample.malformedBody = NotAnId "abc" ∧
  post_clicks Sample.env Sample.malformedBody Sample.world
    = (Ok (Next (CastError "_id")), Sample.world) ∧
  fst (post_clicks Sample.env Sample.malformedBody Sample.world)
    ≠ Ok (Next (AppError "Link not found" 404)).
Proof.
  split; [reflexivity|]. split; [vm_compute; reflexivity|].
  vm_compute. discriminate.
Qed.

Lemma missingPaths_complete (body : ClickBody) (id : ObjectId) :
  b_linkId body = IsId id ->
  (missingPaths
     {| in_linkId := idOf (b_linkId body); in_timestamp := None;
        in_ip := b_ip body; in_country := b_country body;
        in_city := b_city body; in_device := b_device body;
        in_browser := b_browser body; in_os := b_os body;
        in_referrer := b_referrer body; in_utmSource := b_utmSource body;
        in_utmMedium := b_utmMedium body;
        in_utmCampaign := b_utmCampaign body |} = []
   <-> complete body = true).
Proof.
  intros I. unfold missingPaths, complete. cbn [in_linkId in_ip in_device in_browser in_os].
  rewrite I. simpl.
  destruct (truthy (b_ip body)), (truthy (b_device body)),
    (truthy (b_browser body)), (truthy (b_os body)); simpl;
    split; (reflexivity || discriminate).
Qed.

Lemma post_clicks_created (env : Env) (body : ClickBody) (w : World)
    (link : Link) :
  linkReadFault env = None ->
  clickWriteFault env = None ->
  List.find (byBodyId body) (links w) = Some link ->
  complete body = true ->
  post_clicks env body w
  = (Ok (Json 201 (createdFrom env (nextId w) body)),
     stored w (createdFrom env (nextId w) body)).
Proof.
  intros F W H C. unfold post_clicks.
  rewrite (findById_body env body link _ H).
  unfold tryCatch, mbind, M_bind.
  rewrite (findOne_found env _ w link F H).
  unfold ClickEvent_create.
  rewrite (proj2 (missingPaths_complete body _ (byBodyId_names _ _ _ H)) C).
  rewrite W. reflexivity.
Qed.

(** C9, what the code does. A [linkId] that is no ObjectId makes the
    lookup reject, and the cast error goes to the error middleware: this
    is not the NotFound (404) the claim promises for every [linkId] that
    identifies no link. With the link collection readable, an absent
    [linkId] and a well-formed one that identifies no link get NotFound
    (404). A [linkId] that identifies a link, with a body whose [ip],
    [device], [browser] and [os] are non-empty strings and a store that
    takes the write, gets 201 with a click event made of the fields of
    the body, which is appended to the collection. When one of these
    four is missing or empty the creation is refused with a validation
    error that goes to the error middleware: this is not the 201 the
    claim, and the documentation of the route, promise for an existing
    [linkId]. In every outcome but the 201 the world is as it was. *)
Theorem post_clicks_outcomes (env : Env) (body : ClickBody) (w : World) :
  (∀ raw, b_linkId body = NotAnId raw ->
     post_clicks env body w = (Ok (Next (CastError "_id")), w)) ∧
  (linkReadFault env = None ->
   (∀ raw, b_linkId body ≠ NotAnId raw) ->
   List.find (byBodyId body) (links w) = None ->
   post_clicks env body w = (Ok (Next (AppError "Link not found" 404)), w)) ∧
  (∀ link, linkReadFault env = None ->
     List.find (byBodyId body) (links w) = Some link ->
     complete body = true -> clickWriteFault env = None ->
     post_clicks env body w
     = (Ok (Json 201 (createdFrom env (nextId w) body)),
        stored w (createdFrom env (nextId w) body))) ∧
  (∀ link, linkReadFault env = None ->
     List.find (byBodyId body) (links w) = Some link ->
     complete body = false ->
     ∃ p paths,
       post_clicks env body w = (Ok (Next (ValidationError (p :: paths))), w) ∧
       ∀ doc, fst (post_clicks env body w) ≠ Ok (Json 201 doc)).
Proof.
  split; [|split; [|split]].
  - intros raw E. unfold post_clicks. rewrite E. reflexivity.
  - intros F N H. unfold post_clicks.
    rewrite (findById_casts env _ N). unfold tryCatch, mbind, M_bind.
    change (byId (b_linkId body)) with (byBodyId body).
    rewrite (findOne_missing env _ w F H). reflexivity.
  - intros link F H C W. apply (post_clicks_created env body w link F W H C).
  - intros link F H C. unfold post_clicks.
    rewrite (findById_body env body link _ H).
    unfold tryCatch, mbind, M_bind.
    rewrite (findOne_found env _ w link F H).
    unfold ClickEvent_create.
    pose proof (missingPaths_complete body _ (byBodyId_names _ _ _ H)) as M.
    destruct (missingPaths _) as [|p ps].
    + rewrite (proj1 M eq_refl) in C. discriminate.
    + exists p, ps. split; [reflexivity|]. intros doc. discriminate.
Qed.

Lemma post_clicks_outcomes_witness :
  b_linkId Sample.malformedBody = NotAnId "abc" ∧
  linkReadFault Sample.env = None ∧
  (∀ raw, b_linkId Sample.strayBody ≠ NotAnId raw) ∧
  List.find (byBodyId Sample.strayBody) (links Sample.world) = None ∧
  List.find (byBodyId Sample.fullBody) (links Sample.world)
    = Some Sample.openLink ∧
  complete Sample.fullBody = true ∧
  clickWriteFault Sample.env = None ∧
  List.find (byBodyId Sample.bareBody) (links Sample.world)
    = Some Sample.openLink ∧
  complete Sample.bareBody = false ∧
  post_clicks Sample.env Sample.malformedBody Sample.world
    = (Ok (Next (CastError "_id")), Sample.world) ∧
  post_clicks Sample.env Sample.strayBody Sample.world
    = (Ok (Next (AppError "Link not found" 404)), Sample.world) ∧
  post_clicks Sample.env Sample.fullBody Sample.world
    = (Ok (Json 201 (createdFrom Sample.env 100%N Sample.fullBody)),
       stored Sample.world (createdFrom Sample.env 100%N Sample.fullBody)) ∧
  ∃ p paths,
    post_clicks Sample.env Sample.bareBody Sample.world
      = (Ok (Next (ValidationError (p :: paths))), Sample.world) ∧
    ∀ doc, fst (post_clicks Sample.env Sample.bareBody Sample.world)
           ≠ Ok (Json 201 doc).
Proof.
  assert (E : b_linkId Sample.malformedBody = NotAnId "abc") by reflexivity.
  assert (F : linkReadFault Sample.env = None) by reflexivity.
  assert (Ns : ∀ raw, b_linkId Sample.strayBody ≠ NotAnId raw)
    by (intros raw; discriminate).
  assert (H0 : List.find (byBodyId Sample.strayBody) (links Sample.world) = None)
    by reflexivity.
  assert (H1 : List.find (byBodyId Sample.fullBody) (links Sample.world)
               = Some Sample.openLink) by reflexivity.
  assert (H2 : List.find (byBodyId Sample.bareBody) (links Sample.world)
               = Some Sample.openLink) by reflexivity.
  assert (C1 : complete Sample.fullBody = true) by reflexivity.
  assert (W : clickWriteFault Sample.env = None) by reflexivity.
  assert (C2 : complete Sample.bareBody = false) by reflexivity.
  pose proof (post_clicks_outcomes Sample.env Sample.malformedBody Sample.world)
    as (Z & _ & _ & _).
  pose proof (post_clicks_outcomes Sample.env Sample.strayBody Sample.world)
    as (_ & A & _ & _).
  pose proof (post_clicks_outcomes Sample.env Sample.fullBody Sample.world)
    as (_ & _ & B & _).
  pose proof (post_clicks_outcomes Sample.env Sample.bareBody Sample.world)
    as (_ & _ & _ & C).
  exact (conj E (conj F (conj Ns (conj H0 (conj H1 (conj C1 (conj W (conj H2
          (conj C2 (conj (Z _ E) (conj (A F Ns H0) (conj (B _ F H1 C1 W)
             (C _ F H2 C2))))))))))))).
Defined.

(** ** The lists of clicks returned to clients *)

Section SortFacts.

Context {A : Type} (key : A -> Z).

Lemma insertDesc_perm (x : A) (l : list A) : insertDesc key x l ≡ₚ x :: l.
Proof.
  induction l as [|y l IH]; simpl; [reflexivity|].
  destruct (key y <=? key x); [reflexivity|].
  rewrite IH. apply Permutation_swap.
Qed.

Lemma sortDesc_perm (l : list A) : sortDesc key l ≡ₚ l.
Proof.
  induction l as [|x l IH]; simpl; [reflexivity|].
  rewrite insertDesc_perm, IH. reflexivity.
Qed.

Lemma insertDesc_sorted (x : A) (l : list A) :
  StronglySorted (fun a b => key b <= key a) l ->
  StronglySorted (fun a b => key b <= key a) (insertDesc key x l).
Proof.
  induction 1 as [|y l S IH F]; simpl.
  - repeat constructor.
  - destruct (key y <=? key x) eqn:E.
    + apply Z.leb_le in E. constructor; [constructor; assumption|].
      constructor; [exact E|].
      eapply Forall_impl; [exact F|]. simpl. intros; lia.
    + apply Z.leb_gt in E. constructor; [exact IH|].
      rewrite insertDesc_perm. constructor; [lia | assumption].
Qed.

Lemma sortDesc_sorted (l : list A) :
  StronglySorted (fun a b => key b <= key a) (sortDesc key l).
Proof.
  induction l as [|x l IH]; simpl; [constructor|].
  apply insertDesc_sorted. exact IH.
Qed.

(** The first [n] of a list sorted by descending key are the [n] greatest:
    whatever is left out is no greater than anything kept. *)
Lemma take_sorted_top (n : nat) (l : list A) (kept left : A) :
  StronglySorted (fun a b => key b <= key a) l ->
  kept ∈ take n l -> left ∈ drop n l -> key left <= key kept.
Proof.
  intros S. revert n. induction S as [|y l S IH F]; intros n K L.
  - rewrite take_nil in K. inversion K.
  - destruct n as [|n]; simpl in *; [inversion K|].
    apply elem_of_cons in K as [-> | K].
    + rewrite Forall_forall in F. apply F.
      exact (subseteq_drop n l _ L).
    + exact (IH n K L).
Qed.

End SortFacts.

(** The analytics endpoint returns the most recent clicks of the link
    within the requested window, a hundred at most, newest first:
    whatever it leaves out is no more recent than anything it returns. *)
Lemma analytics_returns_most_recent
    (env : Env) (userId id : ObjectId) (req : Request) (w : World)
    (link : Link) (range : option (Z * Z)) :
  linkReadFault env = None ->
  clickReadFault env = None ->
  (∀ l, scanOrder env l ≡ₚ l) ->
  List.find (fun l => N.eqb (link_id l) id && N.eqb (ownerId l) userId) (links w)
    = Some link ->
  window env req = Ok range ->
  ∃ data,
    get_links_linkId env userId id req w = (Ok (Json 200 data), w) ∧
    a_stats data = aggregate (selected link range w) ∧
    a_clicks data
      = take 100 (sortDesc timestamp (scanOrder env (selected link range w))) ∧
    length (a_clicks data) = Nat.min 100 (length (selected link range w)) ∧
    StronglySorted (fun a b => timestamp b <= timestamp a) (a_clicks data) ∧
    ∀ kept left, kept ∈ a_clicks data -> left ∈ selected link range w ->
                 left ∉ a_clicks data -> timestamp left <= timestamp kept.
Proof.
  intros F C O H R. eexists. split.
  - unfold get_links_linkId, tryCatch, mbind, M_bind.
    rewrite (findOne_found env _ w link F H). rewrite R.
    unfold ClickEvent_find. rewrite C. reflexivity.
  - cbn [a_clicks a_stats]. unfold slice0.
    change (link_id (defaultProjection link)) with (link_id link).
    fold (selected link range w).
    pose proof (sortDesc_sorted timestamp
                  (scanOrder env (selected link range w))) as S.
    assert (P : sortDesc timestamp (scanOrder env (selected link range w))
                ≡ₚ selected link range w).
    { rewrite sortDesc_perm. apply O. }
    split; [apply aggregate_reordered; exact P|].
    split; [reflexivity|]. split; [|split].
    + rewrite length_take, (Permutation_length P). reflexivity.
    + rewrite <- (take_drop 100) in S.
      apply StronglySorted_app_1_l in S. exact S.
    + intros kept left K L N.
      apply (take_sorted_top timestamp 100 _ kept left S K).
      rewrite <- P in L. rewrite <- (take_drop 100) in L.
      apply elem_of_app in L as [L|L]; [contradiction|exact L].
Qed.

Example analytics_newest_first :
  ∃ data,
    fst (get_links_linkId Sample.env 9%N 1%N Sample.plain Sample.busyWorld)
      = Ok (Json 200 data) ∧
    map timestamp (a_clicks data) = [60; 50; 40; 30; 20; 10].
Proof. eexists. split; vm_compute; reflexivity. Qed.

(** The listing embeds the first five of the clicks of the link in the
    order the store answers in; no order is asked for. *)
Lemma listing_embeds_first_five (env : Env) (link : Link) (w : World) :
  clickReadFault env = None ->
  ∃ entry,
    withStats env link w = (Ok entry, w) ∧
    recentClicks (lw_stats entry)
    = take 5 (scanOrder env
                (List.filter (fun c => N.eqb (linkId c) (link_id link))
                             (clickEvents w))).
Proof.
  intros C. eexists. split.
  - unfold withStats, mbind, M_bind, ClickEvent_find. rewrite C. reflexivity.
  - reflexivity.
Qed.

Lemma withStats_cases (env : Env) (link : Link) (w : World) :
  withStats env link w
  = match clickReadFault env with
    | Some e => (Throw e, w)
    | None =>
        let clicks :=
          scanOrder env (List.filter (fun c => N.eqb (linkId c) (link_id link))
                                     (clickEvents w)) in
        (Ok {| lw_id := link_id link;
               lw_slug := slug link;
               lw_destinationUrl := destinationUrl link;
               lw_shortUrl := shortUrl env link;
               lw_expiresAt := expiresAt link;
               lw_passwordProtected := passwordProtected link;
               lw_password := password link;
               lw_stats := {| l_stats := aggregate clicks;
                              recentClicks := slice0 5 clicks |};
               lw_createdAt := createdAt link |}, w)
    end.
Proof.
  unfold withStats, mbind, M_bind, ClickEvent_find.
  destruct (clickReadFault env); reflexivity.
Qed.

Lemma mapM_cons {A B : Type} (f : A -> M B) (x : A) (l : list A)
    (w : World) :
  mapM f (x :: l) w
  = match f x w with
    | (Ok y, w1) =>
        match mapM f l w1 with
        | (Ok k, w2) => (Ok (y :: k), w2)
        | (Throw e, w2) => (Throw e, w2)
        end
    | (Throw e, w1) => (Throw e, w1)
    end.
Proof. reflexivity. Qed.

Lemma mapM_withStats (env : Env) (l : list Link) (w : World) :
  clickReadFault env = None ->
  mapM (withStats env) l w = (Ok (map (entryOf env w) l), w).
Proof.
  intros C. induction l as [|x l IH]; [reflexivity|].
  rewrite mapM_cons, withStats_cases, C. cbv beta iota zeta.
  rewrite IH. reflexivity.
Qed.





(** The link has six clicks, made at the instants 10 to 60 and stored in
    that order. Answered from the index, the listing embeds the clicks
    made at 60, 50, 40, 30 and 20. *)
Example listing_newest_first :
  ∃ entry,
    fst (get_links Sample.indexedEnv 9%N Sample.busyWorld)
      = Ok (Json 200 [entry]) ∧
    map timestamp (recentClicks (lw_stats entry)) = [60; 50; 40; 30; 20].
Proof. eexists. split; vm_compute; reflexivity. Qed.

(** * Further properties of the modelled code *)

(** ** The client address *)

Section StringFacts.

Lemma chars_rev_app (s1 s2 : string) :
  list_ascii_of_string (String.rev_app s1 s2)
  = reverse (list_ascii_of_string s1) ++ list_ascii_of_string s2.
Proof.
  revert s2. induction s1 as [|a s1 IH]; intros s2; simpl; [reflexivity|].
  rewrite IH, reverse_cons, <- app_assoc. reflexivity.
Qed.

Lemma chars_rev (s : string) :
  list_ascii_of_string (String.rev s) = reverse (list_ascii_of_string s).
Proof. unfold String.rev. rewrite chars_rev_app. apply app_nil_r. Qed.

Lemma trimStart_suffix (s : string) :
  ∃ p, list_ascii_of_string s = p ++ list_ascii_of_string (trimStart s).
Proof.
  induction s as [|a s [p E]]; simpl; [exists []; reflexivity|].
  destruct (isWhiteSpace a).
  - exists (a :: p). simpl. rewrite <- E. reflexivity.
  - exists []. reflexivity.
Qed.

Lemma trimStart_head (s : string) (a : ascii) :
  head (list_ascii_of_string (trimStart s)) = Some a -> isWhiteSpace a = false.
Proof.
  induction s as [|b s IH]; simpl; [discriminate|].
  destruct (isWhiteSpace b) eqn:E; [exact IH|].
  simpl. intros [= <-]. exact E.
Qed.

(** [trim] keeps a middle part of the string. *)
Lemma trim_middle (s : string) :
  ∃ p q, list_ascii_of_string s = p ++ list_ascii_of_string (trim s) ++ q.
Proof.
  destruct (trimStart_suffix s) as [p E].
  destruct (trimStart_suffix (String.rev (trimStart s))) as [q' E'].
  rewrite chars_rev in E'.
  apply (f_equal reverse) in E'.
  rewrite reverse_involutive, reverse_app in E'.
  exists p, (reverse q'). rewrite E, E'. unfold trim. rewrite chars_rev.
  reflexivity.
Qed.

Lemma trim_head (s : string) (a : ascii) :
  head (list_ascii_of_string (trim s)) = Some a -> isWhiteSpace a = false.
Proof.
  intros H. apply (trimStart_head s).
  destruct (trimStart_suffix (String.rev (trimStart s))) as [q' E'].
  rewrite chars_rev in E'.
  apply (f_equal reverse) in E'.
  rewrite reverse_involutive, reverse_app in E'.
  rewrite E'. unfold trim in H. rewrite chars_rev in H.
  apply head_Some in H as [l' H]. rewrite H. reflexivity.
Qed.

Lemma trim_last (s : string) (a : ascii) :
  last (list_ascii_of_string (trim s)) = Some a -> isWhiteSpace a = false.
Proof.
  unfold trim. rewrite chars_rev, last_reverse. apply trimStart_head.
Qed.

Lemma beforeComma_no_comma (s : string) :
  ("," : ascii) ∉ list_ascii_of_string (beforeComma s).
Proof.
  induction s as [|a s IH]; simpl; [apply not_elem_of_nil|].
  destruct (Ascii.eqb a ",") eqn:E; simpl; [apply not_elem_of_nil|].
  apply Ascii.eqb_neq in E. rewrite elem_of_cons. intros [X|X]; [|tauto].
  congruence.
Qed.

End StringFacts.

(** X1. When the first entry of the [x-forwarded-for] chain is not
    blank, the recorded address is that entry with the white space
    around it removed, whatever [x-real-ip] and the socket say; it holds
    no comma and neither starts nor ends with white space. *)
Theorem clientIp_is_first_forwarded_hop (req : Request) (h : string) :
  headers req !! "x-forwarded-for" = Some h ->
  trim (beforeComma h) ≠ "" ->
  clientIp req = trim (beforeComma h) ∧
  (("," : ascii) ∉ list_ascii_of_string (clientIp req)) ∧
  (∀ a, head (list_ascii_of_string (clientIp req)) = Some a ->
        isWhiteSpace a = false) ∧
  (∀ a, last (list_ascii_of_string (clientIp req)) = Some a ->
        isWhiteSpace a = false).
Proof.
  intros H N.
  assert (E : clientIp req = trim (beforeComma h)).
  { unfold clientIp, forwardedFor. rewrite H. unfold orJs at 2.
    assert (T : truthy (Str (trim (beforeComma h))) = true).
    { simpl. apply String.eqb_neq in N. rewrite N. reflexivity. }
    rewrite T. unfold orJs. rewrite T. simpl.
    apply String.eqb_neq in N. rewrite N. reflexivity. }
  rewrite E. split; [reflexivity|]. split; [|split].
  - intros X. apply (beforeComma_no_comma h).
    destruct (trim_middle (beforeComma h)) as (p & q & M). rewrite M.
    rewrite !elem_of_app. tauto.
  - apply trim_head.
  - apply trim_last.
Qed.

Lemma clientIp_is_first_forwarded_hop_witness :
  headers Sample.plain !! "x-forwarded-for" = Some "1.2.3.4, 5.6.7.8" ∧
  trim (beforeComma "1.2.3.4, 5.6.7.8") ≠ "" ∧
  clientIp Sample.plain = "1.2.3.4".
Proof.
  assert (H : headers Sample.plain !! "x-forwarded-for"
              = Some "1.2.3.4, 5.6.7.8") by reflexivity.
  assert (N : trim (beforeComma "1.2.3.4, 5.6.7.8") ≠ "") by discriminate.
  exact (conj H (conj N
           (proj1 (clientIp_is_first_forwarded_hop Sample.plain _ H N)))).
Defined.

(** X2. A forwarded-for chain whose first entry is blank is ignored as a
    whole: the recorded address is the one the request would get without
    the header ([x-real-ip], else the socket address, else Unknown); the
    later entries of the chain are never used. *)
Theorem blank_first_hop_is_ignored (req : Request) (h : string) :
  headers req !! "x-forwarded-for" = Some h ->
  trim (beforeComma h) = "" ->
  clientIp req = clientIp (Fixture.dropHeader "x-forwarded-for" req).
Proof.
  intros H B. unfold clientIp, forwardedFor, header, Fixture.dropHeader. simpl.
  rewrite H, B, lookup_delete_eq.
  rewrite lookup_delete_ne by discriminate. reflexivity.
Qed.

Lemma blank_first_hop_is_ignored_witness :
  headers Fixture.blankHop !! "x-forwarded-for" = Some " , 5.6.7.8" ∧
  trim (beforeComma " , 5.6.7.8") = "" ∧
  clientIp Fixture.blankHop = "9.9.9.9".
Proof.
  assert (H : headers Fixture.blankHop !! "x-forwarded-for"
              = Some " , 5.6.7.8") by reflexivity.
  assert (B : trim (beforeComma " , 5.6.7.8") = "") by reflexivity.
  refine (conj H (conj B _)).
  rewrite (blank_first_hop_is_ignored Fixture.blankHop _ H B).
  reflexivity.
Defined.

(** ** The click recorder, continued *)

Lemma orElse_Str_empty (s : string) : orElse (Str s) "" = s.
Proof.
  simpl. destruct (String.eqb s "") eqn:E; [|reflexivity].
  apply String.eqb_eq in E. congruence.
Qed.

(** X3. When the geo lookup and the user-agent parser answer and the
    store takes the write, the recorder stores exactly one click and
    logs nothing. The click refers to the link, carries the client
    address, the instant of the request, the device and browser
    descriptions of the parsed user agent and the [Referer] header
    ([Direct] without one, so that the stored referrer is never empty),
    and the [utm_source], [utm_medium] and [utm_campaign] collected from
    the query. *)
Theorem trackClickEvent_records
    (env : Env) (req : Request) (link : Link) (w : World)
    (found : option GeoData) (result : UAResult) :
  geoip_lookup env (clientIp req) = Ok found ->
  ua_getResult env (orElse (header req "user-agent") "") = Ok result ->
  clickWriteFault env = None ->
  ∃ doc,
    fst (trackClickEvent env req link w) = Ok (Some doc) ∧
    clickEvents (snd (trackClickEvent env req link w))
      = clickEvents w ++ [doc] ∧
    consoleErrors (snd (trackClickEvent env req link w)) = consoleErrors w ∧
    linkId doc = link_id link ∧
    ip doc = clientIp req ∧
    timestamp doc = now env ∧
    device doc = deviceInfo result ∧
    browser doc = nameAndVersion (browser_name result) (browser_version result) ∧
    referrer doc = Str (orElse (get_Referer req) "Direct") ∧
    emptyReferrer doc = false ∧
    utmSource doc = ofOption (utmParams (query req) !! "source") ∧
    utmMedium doc = ofOption (utmParams (query req) !! "medium") ∧
    utmCampaign doc = ofOption (utmParams (query req) !! "campaign").
Proof.
  intros G U W.
  assert (R : ∃ geo w2, resolveGeo env (clientIp req) w = (Ok geo, w2) ∧
                        clickEvents w2 = clickEvents w ∧
                        consoleErrors w2 = consoleErrors w).
  { unfold resolveGeo. destruct (nonLocal (clientIp req)).
    - unfold mbind, M_bind, geoipLookup. rewrite G.
      destruct found; eexists _, _; repeat split.
    - eexists _, _. repeat split. }
  destruct R as (geo & w2 & R & C & E).
  assert (V := tracked_click_is_valid env req link _ geo result
                 (clientIp_nonempty req)).
  eexists.
  unfold trackClickEvent, tryCatch, trackClickEvent_try, mbind, M_bind.
  rewrite R, U. unfold ClickEvent_create. rewrite V, W. simpl.
  rewrite C, E.
  repeat split; try reflexivity; try apply orElse_Str_empty.
  - unfold emptyReferrer. simpl.
    pose proof (orElse_nonempty (get_Referer req) "Direct") as N.
    destruct (String.eqb (orElse (get_Referer req) "Direct") "") eqn:X;
      [|reflexivity].
    apply String.eqb_eq in X. exfalso. apply N; [discriminate | exact X].
Qed.

Lemma trackClickEvent_records_witness :
  geoip_lookup Sample.env (clientIp Fixture.tagged) = Ok None ∧
  ua_getResult Sample.env (orElse (header Fixture.tagged "user-agent") "")
    = Ok Sample.chrome ∧
  clickWriteFault Sample.env = None ∧
  ∃ doc,
    fst (trackClickEvent Sample.env Fixture.tagged Sample.openLink Fixture.town)
      = Ok (Some doc) ∧
    clickEvents (snd (trackClickEvent Sample.env Fixture.tagged
                                      Sample.openLink Fixture.town))
      = clickEvents Fixture.town ++ [doc] ∧
    referrer doc = Str (orElse (get_Referer Fixture.tagged) "Direct").
Proof.
  assert (G : geoip_lookup Sample.env (clientIp Fixture.tagged) = Ok None)
    by reflexivity.
  assert (U : ua_getResult Sample.env
                (orElse (header Fixture.tagged "user-agent") "")
              = Ok Sample.chrome) by reflexivity.
  assert (W : clickWriteFault Sample.env = None) by reflexivity.
  refine (conj G (conj U (conj W _))).
  destruct (trackClickEvent_records Sample.env Fixture.tagged Sample.openLink
              Fixture.town None Sample.chrome G U W)
    as (doc & A & B & _ & _ & _ & _ & _ & _ & R & _).
  exists doc. exact (conj A (conj B R)).
Defined.

(** X4. Whatever its collaborators do, the recorder does one of two
    things: it stores exactly one click, which refers to the link, and
    writes nothing to the console; or it stores nothing, returns [null]
    and writes exactly one line to the console. It never touches the
    links. *)
Theorem trackClickEvent_records_or_logs
    (env : Env) (req : Request) (link : Link) (w : World) :
  links (snd (trackClickEvent env req link w)) = links w ∧
  ((∃ doc,
      fst (trackClickEvent env req link w) = Ok (Some doc) ∧
      clickEvents (snd (trackClickEvent env req link w))
        = clickEvents w ++ [doc] ∧
      linkId doc = link_id link ∧
      consoleErrors (snd (trackClickEvent env req link w)) = consoleErrors w)
   ∨
   (∃ e,
      fst (trackClickEvent env req link w) = Ok None ∧
      clickEvents (snd (trackClickEvent env req link w)) = clickEvents w ∧
      consoleErrors (snd (trackClickEvent env req link w))
        = consoleErrors w ++ [("Error tracking click event:", e)])).
Proof.
  pose proof (trackClickEvent_try_cases env req link w) as T.
  unfold trackClickEvent, tryCatch.
  destruct (trackClickEvent_try env req link w) as [[r|e] w1].
  - destruct T as (doc & -> & C & I & _ & E & L). simpl.
    split; [exact L|]. left. exists doc. tauto.
  - destruct T as (C & E & L). simpl. split; [exact L|]. right. exists e.
    rewrite C, E. tauto.
Qed.

(** ** The redirect routes, continued *)

Lemma fireAndForget_cases (env : Env) (req : Request) (link : Link)
    (w : World) :
  fst (fireAndForget env req link w) = Ok tt ∧
  links (snd (fireAndForget env req link w)) = links w ∧
  (clickEvents (snd (fireAndForget env req link w)) = clickEvents w ∨
   ∃ doc, clickEvents (snd (fireAndForget env req link w))
          = clickEvents w ++ [doc] ∧ linkId doc = link_id link).
Proof.
  pose proof (trackClickEvent_try_cases env req link w) as T.
  unfold fireAndForget, trackClickEvent, tryCatch, mbind, M_bind.
  destruct (trackClickEvent_try env req link w) as [[r|e] w1]; simpl.
  - destruct T as (doc & _ & C & I & _ & _ & L).
    split; [reflexivity|]. split; [exact L|]. right. eauto.
  - destruct T as (C & _ & L).
    split; [reflexivity|]. split; [exact L|]. left. exact C.
Qed.

Section Served.

Variables (env : Env) (req : Request).

Lemma served_quietOrServed (w : World) (stored link : Link) :
  stored ∈ links w ->
  link = defaultProjection stored ->
  quietOrServed w (served env req link w).
Proof.
  intros I ->. unfold quietOrServed, served.
  destruct (expired env (defaultProjection stored)).
  { left. split; [reflexivity|]. intros url. discriminate. }
  destruct (passwordProtected (defaultProjection stored)
            && passwordRejected req (defaultProjection stored)).
  { left. split; [reflexivity|]. intros url. discriminate. }
  right. exists stored. split; [exact I|]. split; [reflexivity|].
  destruct (fireAndForget_cases env req (defaultProjection stored) w)
    as (_ & L & C).
  split; [exact L|]. exact C.
Qed.

(** Either route, whatever the store answers. *)
Lemma route_cases (matches : Link -> bool) (w : World)
    (r : Result (Response Envelope) * World) :
  r = match linkReadFault env with
      | Some e => (Ok (Next e), w)
      | None =>
          match List.find matches (links w) with
          | Some l => served env req (defaultProjection l) w
          | None => (Ok (Next (AppError "Link not found" 404)), w)
          end
      end ->
  quietOrServed w r.
Proof.
  intros ->. destruct (linkReadFault env).
  { left. split; [reflexivity|]. intros url. discriminate. }
  destruct (List.find matches (links w)) as [l|] eqn:F.
  - apply (served_quietOrServed w l); [|reflexivity].
    apply List.find_some in F as [F _]. apply list_elem_of_In. exact F.
  - left. split; [reflexivity|]. intros url. discriminate.
Qed.

Lemma get_domain_slug_unfold (d s : string) (w : World) :
  get_domain_slug env req d s w
  = match linkReadFault env with
    | Some e => (Ok (Next e), w)
    | None =>
        match List.find (byDomainAndSlug d s) (links w) with
        | Some l => served env req (defaultProjection l) w
        | None => (Ok (Next (AppError "Link not found" 404)), w)
        end
    end.
Proof.
  destruct (linkReadFault env) as [e|] eqn:F.
  - unfold get_domain_slug, tryCatch, mbind, M_bind, Link_findOne.
    rewrite F. reflexivity.
  - destruct (List.find (byDomainAndSlug d s) (links w)) as [l|] eqn:H.
    + apply get_domain_slug_found; assumption.
    + unfold get_domain_slug, tryCatch, mbind, M_bind.
      rewrite (findOne_missing env _ w F H). reflexivity.
Qed.

Lemma get_slug_unfold (s : string) (w : World) :
  get_slug env req s w
  = match linkReadFault env with
    | Some e => (Ok (Next e), w)
    | None =>
        match List.find (bySlug s) (links w) with
        | Some l => served env req (defaultProjection l) w
        | None => (Ok (Next (AppError "Link not found" 404)), w)
        end
    end.
Proof.
  destruct (linkReadFault env) as [e|] eqn:F.
  - unfold get_slug, tryCatch, mbind, M_bind, Link_findOne.
    rewrite F. reflexivity.
  - destruct (List.find (bySlug s) (links w)) as [l|] eqn:H.
    + apply get_slug_found; assumption.
    + unfold get_slug, tryCatch, mbind, M_bind.
      rewrite (findOne_missing env _ w F H). reflexivity.
Qed.

End Served.

(** X5. A redirect route records a click only when it redirects. On
    both routes and for every request, either the response is not a
    redirect and the world is exactly as it was; or the response
    redirects to the destination of a stored link, the links are
    unchanged, and at most one click has been added, which refers to that
    link. *)
Theorem redirect_records_only_when_redirecting
    (env : Env) (req : Request) (w : World) :
  (∀ d s, quietOrServed w (get_domain_slug env req d s w)) ∧
  (∀ s, quietOrServed w (get_slug env req s w)).
Proof.
  split.
  - intros d s. apply (route_cases env req (byDomainAndSlug d s)).
    apply get_domain_slug_unfold.
  - intros s. apply (route_cases env req (bySlug s)).
    apply get_slug_unfold.
Qed.

Lemma find_unique_slug (d s : string) (l : list Link) (link : Link) :
  NoDup (map slug l) ->
  List.find (byDomainAndSlug d s) l = Some link ->
  List.find (bySlug s) l = Some link.
Proof.
  induction l as [|x l IH]; simpl; [discriminate|].
  intros N. apply NoDup_cons in N as [X N].
  unfold byDomainAndSlug at 1. unfold bySlug at 1.
  destruct (String.eqb (slug x) s) eqn:S.
  - destruct (String.eqb (domain x) d); simpl; [tauto|].
    intros F. exfalso. apply X.
    apply List.find_some in F as [I B].
    unfold byDomainAndSlug in B. apply andb_true_iff in B as [_ B].
    apply String.eqb_eq in B, S. rewrite S, <- B.
    apply list_elem_of_In. apply in_map. exact I.
  - rewrite andb_false_r. apply IH. exact N.
Qed.

(** X6. While slugs are unique in the collection (the [slug] path is
    declared [unique]), the route without a domain serves the very link
    the route with a domain finds: both give the same response and leave
    the same world. *)
Theorem slug_route_agrees_with_domain_route
    (env : Env) (req : Request) (w : World) (d s : string) (link : Link) :
  NoDup (map slug (links w)) ->
  List.find (byDomainAndSlug d s) (links w) = Some link ->
  get_slug env req s w = get_domain_slug env req d s w.
Proof.
  intros N F. rewrite get_slug_unfold, get_domain_slug_unfold.
  rewrite F, (find_unique_slug d s _ link N F). reflexivity.
Qed.

Lemma slug_route_agrees_with_domain_route_witness :
  NoDup (map slug (links Sample.world)) ∧
  List.find (byDomainAndSlug "xpro.li" "open") (links Sample.world)
    = Some Sample.openLink ∧
  get_slug Sample.env Sample.plain "open" Sample.world
  = get_domain_slug Sample.env Sample.plain "xpro.li" "open" Sample.world.
Proof.
  assert (N : NoDup (map slug (links Sample.world))).
  { simpl. repeat (apply NoDup_cons; split;
                   [rewrite ?elem_of_cons, elem_of_nil; intros X;
                    repeat destruct X as [X|X]; try discriminate X; exact X|]).
    apply NoDup_nil. exact I. }
  assert (F : List.find (byDomainAndSlug "xpro.li" "open") (links Sample.world)
              = Some Sample.openLink) by reflexivity.
  exact (conj N (conj F
          (slug_route_agrees_with_domain_route Sample.env Sample.plain
             Sample.world "xpro.li" "open" Sample.openLink N F))).
Defined.

(** X7. A link that is password protected is never redirected to. For
    a protected link the lookup finds, both routes answer Expired when it
    has expired and PasswordRequired otherwise, to every request, and
    leave the world as it was. *)
Theorem protected_link_never_redirects
    (env : Env) (req : Request) (w : World) (link : Link) :
  linkReadFault env = None ->
  passwordProtected link = true ->
  (∀ d s, List.find (byDomainAndSlug d s) (links w) = Some link ->
          get_domain_slug env req d s w
          = (if expired env link then Expired else PasswordRequired, w)) ∧
  (∀ s, List.find (bySlug s) (links w) = Some link ->
        get_slug env req s w
        = (if expired env link then Expired else PasswordRequired, w)).
Proof.
  intros F P.
  assert (S : served env req (defaultProjection link) w
              = (if expired env link then Expired else PasswordRequired, w)).
  { unfold served. rewrite expired_projection.
    destruct (expired env link); [reflexivity|].
    rewrite passwordRejected_projection. simpl. rewrite P. reflexivity. }
  split.
  - intros d s H. rewrite get_domain_slug_unfold, F, H. exact S.
  - intros s H. rewrite get_slug_unfold, F, H. exact S.
Qed.

Lemma protected_link_never_redirects_witness :
  linkReadFault Sample.env = None ∧
  passwordProtected Sample.secretLink = true ∧
  List.find (bySlug "abc") (links Sample.world) = Some Sample.secretLink ∧
  get_slug Sample.env Sample.withSecret "abc" Sample.world
  = (PasswordRequired, Sample.world).
Proof.
  assert (F : linkReadFault Sample.env = None) by reflexivity.
  assert (P : passwordProtected Sample.secretLink = true) by reflexivity.
  assert (H : List.find (bySlug "abc") (links Sample.world)
              = Some Sample.secretLink) by reflexivity.
  exact (conj F (conj P (conj H
          (proj2 (protected_link_never_redirects Sample.env Sample.withSecret
                    Sample.world Sample.secretLink F P) "abc" H)))).
Defined.

(** ** The UTM parameters *)

Lemma startsWith_utm (key : string) :
  startsWith "utm_" key = true -> key = "utm_" +:+ substringFrom 4 key.
Proof.
  destruct key as [|a [|b [|c [|d key]]]]; cbn [startsWith];
    rewrite ?andb_false_r; try discriminate.
  rewrite !andb_true_iff, !Ascii.eqb_eq.
  intros (<- & <- & <- & <- & _). reflexivity.
Qed.

(** X8. The recorder collects under [k] the query parameter [utm_k]
    when it is given once, as a string, and only then: a parameter given
    several times (an array) is left out, no other parameter is
    collected, and the key [__proto__] is never set. *)
Theorem utmParams_lookup (q : gmap string QVal) (k : string) :
  utmParams q !! k
  = if String.eqb k "__proto__" then None
    else q !! ("utm_" +:+ k) ≫= qstring.
Proof.
  revert k. unfold utmParams.
  apply (map_fold_weak_ind
           (fun r m => ∀ k, r !! k
                            = if String.eqb k "__proto__" then None
                              else m !! ("utm_" +:+ k) ≫= qstring)).
  - intros k. rewrite !lookup_empty.
    destruct (String.eqb k "__proto__"); reflexivity.
  - intros i x m r Hi IH k.
    assert (NE : startsWith "utm_" i = false ∨ substringFrom 4 i ≠ k ->
                 <[i:=x]> m !! ("utm_" +:+ k) = m !! ("utm_" +:+ k)).
    { intros C. apply lookup_insert_ne. intros ->.
      destruct C as [C|C]; [discriminate C | apply C; reflexivity]. }
    destruct (startsWith "utm_" i) eqn:P.
    + pose proof (startsWith_utm i P) as E.
      remember (substringFrom 4 i) as u eqn:Hu. clear Hu.
      destruct (decide (u = k)) as [K|K].
      * assert (X : <[i:=x]> m !! ("utm_" +:+ k) = Some x).
        { rewrite <- K, <- E. apply lookup_insert_eq. }
        rewrite X. simpl.
        destruct (qstring x) as [v|] eqn:Q.
        -- rewrite K. destruct (String.eqb k "__proto__") eqn:B.
           ++ rewrite IH, B. reflexivity.
           ++ apply lookup_insert_eq.
        -- rewrite IH. destruct (String.eqb k "__proto__"); [reflexivity|].
           rewrite <- K, <- E, Hi. reflexivity.
      * rewrite (NE (or_intror K)).
        destruct (qstring x) as [v|]; [|apply IH].
        destruct (String.eqb u "__proto__"); [apply IH|].
        rewrite lookup_insert_ne by exact K. apply IH.
    + rewrite (NE (or_introl eq_refl)). apply IH.
Qed.

Example utmParams_ex :
  utmParams (query Fixture.tagged) !! "source" = Some "newsletter" ∧
  utmParams (query Fixture.tagged) !! "medium" = None ∧
  utmParams (query Fixture.tagged) !! "page" = None.
Proof. repeat split; vm_compute; reflexivity. Qed.

(** ** The breakdowns, continued *)

Lemma count_ext (p q : ClickEvent -> bool) (clicks : list ClickEvent) :
  (∀ c, p c = q c) -> count p clicks = count q clicks.
Proof.
  intros E. unfold count. induction clicks as [|c clicks IH]; [reflexivity|].
  simpl. rewrite E. destruct (q c); simpl; congruence.
Qed.

Lemma count_or (p q : ClickEvent -> bool) (clicks : list ClickEvent) :
  (∀ c, p c = true -> q c = false) ->
  count (fun c => p c || q c) clicks = (count p clicks + count q clicks)%nat.
Proof.
  intros X. unfold count. induction clicks as [|c clicks IH]; [reflexivity|].
  simpl. destruct (p c) eqn:P; simpl.
  - rewrite (X c P). simpl. lia.
  - destruct (q c); simpl; lia.
Qed.

Lemma count_never (clicks : list ClickEvent) :
  count (fun _ => false) clicks = 0%nat.
Proof. unfold count. induction clicks; simpl; assumption || reflexivity. Qed.

(** Under a key [k] that is not empty, a breakdown with the default [d]
    files the clicks that hold [k] and, when [k] is the default, the
    clicks that hold nothing. *)
Lemma defaulted_occurrences (field : ClickEvent -> JsStr) (d k : string)
    (clicks : list ClickEvent) :
  k ≠ "" ->
  occurrences (fun c => orElse (field c) d) k clicks
  = (count (carries field k) clicks
     + if String.eqb k d then count (lacks field) clicks else 0)%nat.
Proof.
  intros K. unfold occurrences.
  rewrite (count_ext _ (fun c => carries field k c
                                 || (lacks field c && String.eqb k d))).
  - rewrite count_or.
    + f_equal. destruct (String.eqb k d).
      * apply count_ext. intros c. apply andb_true_r.
      * rewrite <- (count_never clicks). apply count_ext.
        intros c. apply andb_false_r.
    + intros c. unfold carries, lacks. intros C.
      apply bool_decide_eq_true in C. rewrite C. simpl.
      apply String.eqb_neq in K. rewrite K. reflexivity.
  - intros c. unfold carries, lacks.
    destruct (field c) as [| |s]; simpl.
    + rewrite String.eqb_sym. reflexivity.
    + rewrite String.eqb_sym. reflexivity.
    + destruct (String.eqb s "") eqn:E; simpl.
      * apply String.eqb_eq in E. subst s.
        rewrite bool_decide_eq_false_2 by (intros [= <-]; contradiction).
        rewrite String.eqb_sym. reflexivity.
      * rewrite orb_false_r. destruct (String.eqb s k) eqn:S.
        -- apply String.eqb_eq in S. subst s.
           symmetry. apply bool_decide_eq_true. reflexivity.
        -- apply String.eqb_neq in S. symmetry.
           apply bool_decide_eq_false. intros [= X]. contradiction.
Qed.

Lemma countOf_tally (key : ClickEvent -> string) (clicks : list ClickEvent)
    (k : string) :
  inherited k = false ->
  countOf (tally key clicks) k = Some (occurrences key k clicks) ∧
  (tally key clicks !! k = None <-> occurrences key k clicks = 0%nat).
Proof.
  intros I. unfold countOf. rewrite tally_lookup, (tallied_plain k _ I).
  destruct (occurrences key k clicks); split; try reflexivity;
    split; (reflexivity || discriminate).
Qed.

(** X9. Under a key that no object literal inherits, the device and the
    browser breakdown hold the number of clicks whose stored device, or
    browser, is that key; the key is absent exactly when there is no such
    click. *)
Theorem device_and_browser_breakdowns_count
    (clicks : list ClickEvent) (k : string) :
  inherited k = false ->
  countOf (deviceBreakdown clicks) k
    = Some (count (fun c => String.eqb (device c) k) clicks) ∧
  (deviceBreakdown clicks !! k = None
   <-> count (fun c => String.eqb (device c) k) clicks = 0%nat) ∧
  countOf (browserBreakdown clicks) k
    = Some (count (fun c => String.eqb (browser c) k) clicks) ∧
  (browserBreakdown clicks !! k = None
   <-> count (fun c => String.eqb (browser c) k) clicks = 0%nat).
Proof.
  intros I. unfold deviceBreakdown, browserBreakdown.
  destruct (countOf_tally device clicks k I) as [A B].
  destruct (countOf_tally browser clicks k I) as [C D].
  repeat split; try assumption; apply B || apply D.
Qed.

Lemma device_and_browser_breakdowns_count_witness :
  inherited "Desktop (Linux)" = false ∧
  countOf (deviceBreakdown Sample.sixClicks) "Desktop (Linux)" = Some 6%nat ∧
  browserBreakdown Sample.sixClicks !! "Safari" = None.
Proof.
  assert (I : inherited "Desktop (Linux)" = false) by reflexivity.
  assert (J : inherited "Safari" = false) by reflexivity.
  refine (conj I (conj _ _)).
  - exact (proj1 (device_and_browser_breakdowns_count Sample.sixClicks _ I)).
  - apply (device_and_browser_breakdowns_count Sample.sixClicks _ J).
    reflexivity.
Defined.

(** X10. The country breakdown and the three UTM breakdowns, under a
    non-empty key that no object literal inherits, hold the number of
    clicks whose stored field is that key, plus, under the default key
    (Unknown for the country, Direct for the UTM source, None for the UTM
    medium and campaign), the number of clicks whose field is absent or
    empty. A click stored with the default word itself and a click with
    nothing stored fall in the same bucket. *)
Theorem defaulted_breakdowns_count (clicks : list ClickEvent) (k : string) :
  inherited k = false ->
  k ≠ "" ->
  countOf (countryBreakdown clicks) k
    = Some (count (carries country k) clicks
            + if String.eqb k "Unknown"
              then count (lacks country) clicks else 0)%nat ∧
  countOf (utm_source (utmBreakdown clicks)) k
    = Some (count (carries utmSource k) clicks
            + if String.eqb k "Direct"
              then count (lacks utmSource) clicks else 0)%nat ∧
  countOf (utm_medium (utmBreakdown clicks)) k
    = Some (count (carries utmMedium k) clicks
            + if String.eqb k "None"
              then count (lacks utmMedium) clicks else 0)%nat ∧
  countOf (utm_campaign (utmBreakdown clicks)) k
    = Some (count (carries utmCampaign k) clicks
            + if String.eqb k "None"
              then count (lacks utmCampaign) clicks else 0)%nat.
Proof.
  intros I K. unfold countryBreakdown, utmBreakdown. simpl.
  rewrite !(proj1 (countOf_tally _ clicks k I)).
  rewrite !(defaulted_occurrences _ _ k clicks K). tauto.
Qed.

Lemma defaulted_breakdowns_count_witness :
  inherited "Unknown" = false ∧ "Unknown" ≠ "" ∧
  countOf (countryBreakdown
             [mkClickEvent 1%N 1%N 1 "a" (Str "Unknown") Undefined "d" "b" "o"
                           Undefined Undefined Undefined Undefined;
              mkClickEvent 2%N 1%N 2 "a" Undefined Undefined "d" "b" "o"
                           Undefined Undefined Undefined Undefined;
              mkClickEvent 3%N 1%N 3 "a" (Str "FR") Undefined "d" "b" "o"
                           Undefined Undefined Undefined Undefined])
          "Unknown" = Some 2%nat.
Proof.
  assert (I : inherited "Unknown" = false) by reflexivity.
  assert (K : "Unknown" ≠ "") by discriminate.
  refine (conj I (conj K _)).
  exact (proj1 (defaulted_breakdowns_count _ "Unknown" I K)).
Defined.

(** X11. As long as no click is filed under a name that object literals
    inherit, the values of the country, device, browser and UTM
    breakdowns are numbers that add up to the total number of clicks:
    every click is counted once in each of them. *)
Theorem breakdowns_sum_to_total (clicks : list ClickEvent) :
  (Forall (fun c => inherited (orElse (country c) "Unknown") = false) clicks ->
   sumValues (countryBreakdown clicks) = Some (totalClicks clicks)) ∧
  (Forall (fun c => inherited (device c) = false) clicks ->
   sumValues (deviceBreakdown clicks) = Some (totalClicks clicks)) ∧
  (Forall (fun c => inherited (browser c) = false) clicks ->
   sumValues (browserBreakdown clicks) = Some (totalClicks clicks)) ∧
  (Forall (fun c => inherited (orElse (utmSource c) "Direct") = false) clicks ->
   sumValues (utm_source (utmBreakdown clicks)) = Some (totalClicks clicks)) ∧
  (Forall (fun c => inherited (orElse (utmMedium c) "None") = false) clicks ->
   sumValues (utm_medium (utmBreakdown clicks)) = Some (totalClicks clicks)) ∧
  (Forall (fun c => inherited (orElse (utmCampaign c) "None") = false) clicks ->
   sumValues (utm_campaign (utmBreakdown clicks)) = Some (totalClicks clicks)).
Proof.
  unfold countryBreakdown, deviceBreakdown, browserBreakdown, utmBreakdown,
    totalClicks. simpl.
  repeat split; intros H; apply (tally_sum _ clicks H).
Qed.

Lemma breakdowns_sum_to_total_witness :
  Forall (fun c => inherited (device c) = false) Sample.sixClicks ∧
  Forall (fun c => inherited (orElse (country c) "Unknown") = false)
         Sample.sixClicks ∧
  sumValues (deviceBreakdown Sample.sixClicks) = Some 6%nat ∧
  sumValues (countryBreakdown Sample.sixClicks) = Some 6%nat.
Proof.
  assert (D : Forall (fun c => inherited (device c) = false) Sample.sixClicks)
    by repeat constructor.
  assert (C : Forall (fun c => inherited (orElse (country c) "Unknown") = false)
                     Sample.sixClicks) by repeat constructor.
  pose proof (breakdowns_sum_to_total Sample.sixClicks) as (A & B & _).
  exact (conj D (conj C (conj (B D) (A C)))).
Defined.

Lemma sumValues_string (m : gmap string JsVal) (k s : string) :
  m !! k = Some (VStr s) -> sumValues m = None.
Proof.
  intros H. rewrite <- (insert_delete_id m k (VStr s) H).
  rewrite sumValues_insert_fresh by apply lookup_delete_eq. reflexivity.
Qed.

Lemma inherited_function_not_proto (k : string) :
  k ∈ inheritedFunctions -> String.eqb k "__proto__" = false.
Proof.
  unfold inheritedFunctions. rewrite !elem_of_cons, elem_of_nil.
  intros H. repeat destruct H as [->|H]; try reflexivity. contradiction.
Qed.

(** X12. A click filed under a name that every object literal inherits
    spoils the breakdown. Under [__proto__] nothing is ever stored, so
    such a click is in no bucket of the device or browser breakdown
    although the total counts it; under [constructor], [toString] and
    the other inherited functions the breakdown holds a string, not a
    count, and its values no longer add up. *)
Theorem inherited_keys_spoil_breakdowns (clicks : list ClickEvent) :
  deviceBreakdown clicks !! "__proto__" = None ∧
  browserBreakdown clicks !! "__proto__" = None ∧
  (∀ k, k ∈ inheritedFunctions ->
        count (fun c => String.eqb (device c) k) clicks ≠ 0%nat ->
        (∃ s, deviceBreakdown clicks !! k = Some (VStr s)) ∧
        countOf (deviceBreakdown clicks) k = None ∧
        sumValues (deviceBreakdown clicks) = None) ∧
  (∀ k, k ∈ inheritedFunctions ->
        count (fun c => String.eqb (browser c) k) clicks ≠ 0%nat ->
        (∃ s, browserBreakdown clicks !! k = Some (VStr s)) ∧
        countOf (browserBreakdown clicks) k = None ∧
        sumValues (browserBreakdown clicks) = None).
Proof.
  assert (G : ∀ key k, k ∈ inheritedFunctions ->
                occurrences key k clicks ≠ 0%nat ->
                (∃ s, tally key clicks !! k = Some (VStr s)) ∧
                countOf (tally key clicks) k = None ∧
                sumValues (tally key clicks) = None).
  { intros key k I N.
    assert (L : ∃ s, tally key clicks !! k = Some (VStr s)).
    { rewrite tally_lookup. unfold tallied.
      rewrite (inherited_function_not_proto k I).
      destruct (occurrences key k clicks); [contradiction|].
      rewrite bool_decide_eq_true_2 by exact I. eauto. }
    destruct L as [s L]. split; [eauto|]. split.
    - unfold countOf. rewrite L. reflexivity.
    - exact (sumValues_string _ _ _ L). }
  unfold deviceBreakdown, browserBreakdown.
  split; [rewrite tally_lookup; reflexivity|].
  split; [rewrite tally_lookup; reflexivity|].
  split; intros k I N; apply G; assumption.
Qed.

Lemma inherited_keys_spoil_breakdowns_witness :
  "constructor" ∈ inheritedFunctions ∧
  count (fun c => String.eqb (device c) "constructor")
        [mkClickEvent 1%N 1%N 1 "a" Undefined Undefined "constructor" "b" "o"
                      Undefined Undefined Undefined Undefined] ≠ 0%nat ∧
  sumValues (deviceBreakdown
               [mkClickEvent 1%N 1%N 1 "a" Undefined Undefined "constructor"
                             "b" "o" Undefined Undefined Undefined Undefined])
  = None.
Proof.
  assert (I : "constructor" ∈ inheritedFunctions) by (left).
  assert (N : count (fun c => String.eqb (device c) "constructor")
                [mkClickEvent 1%N 1%N 1 "a" Undefined Undefined "constructor"
                              "b" "o" Undefined Undefined Undefined Undefined]
              ≠ 0%nat) by discriminate.
  refine (conj I (conj N _)).
  destruct (inherited_keys_spoil_breakdowns
              [mkClickEvent 1%N 1%N 1 "a" Undefined Undefined "constructor"
                            "b" "o" Undefined Undefined Undefined Undefined])
    as (_ & _ & D & _).
  exact (proj2 (proj2 (D "constructor" I N))).
Defined.

(** ** Keys, distinct values and clicks *)

Section KeyFacts.

Lemma newSet_map_length {A B : Type} `{Countable A} `{Countable B}
    (g : A -> B) (l : list A) :
  (length (newSet (map g l)) <= length (newSet l))%nat.
Proof.
  rewrite <- (length_map g (newSet l)).
  apply submseteq_length, NoDup_submseteq; [apply NoDup_newSet|].
  intros y Y. rewrite elem_of_newSet in Y.
  apply list_elem_of_fmap in Y as (x & -> & X).
  apply list_elem_of_fmap. exists x. split; [reflexivity|].
  rewrite elem_of_newSet. exact X.
Qed.

Lemma newSet_length_le {A : Type} `{Countable A} (l : list A) :
  (length (newSet l) <= length l)%nat.
Proof.
  apply submseteq_length, NoDup_submseteq; [apply NoDup_newSet|].
  intros y Y. rewrite elem_of_newSet in Y. exact Y.
Qed.

Lemma occurrences_pos_elem (key : ClickEvent -> string) (k : string)
    (clicks : list ClickEvent) :
  occurrences key k clicks ≠ 0%nat -> k ∈ map key clicks.
Proof.
  unfold occurrences, count.
  induction clicks as [|c clicks IH]; simpl; [contradiction|].
  destruct (String.eqb (key c) k) eqn:E.
  - intros _. apply String.eqb_eq in E. rewrite E. left.
  - intros N. right. apply IH. exact N.
Qed.

(** The keys of a breakdown are keys of clicks. *)
Lemma tally_keys (key : ClickEvent -> string) (clicks : list ClickEvent) :
  (size (dom (tally key clicks)) <= length (newSet (map key clicks)))%nat.
Proof.
  rewrite newSet_size. apply subseteq_size.
  intros k K. apply elem_of_dom in K as [v K].
  apply elem_of_list_to_set. apply (occurrences_pos_elem key).
  intros Z. rewrite tally_lookup, Z in K. unfold tallied in K.
  destruct (String.eqb k "__proto__"); discriminate.
Qed.

End KeyFacts.

(** X13. A breakdown never has more keys than the matching unique count,
    and a unique count never exceeds the total: for the country, the
    device and the browser, keys <= distinct stored values <= clicks. *)
Theorem keys_unique_total (clicks : list ClickEvent) :
  (size (dom (countryBreakdown clicks)) <= uniqueCountries clicks
     <= totalClicks clicks)%nat ∧
  (size (dom (deviceBreakdown clicks)) <= uniqueDevices clicks
     <= totalClicks clicks)%nat ∧
  (size (dom (browserBreakdown clicks)) <= uniqueBrowsers clicks
     <= totalClicks clicks)%nat.
Proof.
  unfold countryBreakdown, deviceBreakdown, browserBreakdown,
    uniqueCountries, uniqueDevices, uniqueBrowsers, totalClicks.
  repeat split.
  - etransitivity; [apply tally_keys|].
    rewrite <- (map_map country (fun v => orElse v "Unknown")).
    apply newSet_map_length.
  - etransitivity; [apply newSet_length_le|]. rewrite length_map. reflexivity.
  - apply tally_keys.
  - etransitivity; [apply newSet_length_le|]. rewrite length_map. reflexivity.
  - apply tally_keys.
  - etransitivity; [apply newSet_length_le|]. rewrite length_map. reflexivity.
Qed.

(** ** The analytics endpoint, continued *)

Lemma selected_spec (link : Link) (range : option (Z * Z)) (w : World)
    (c : ClickEvent) :
  c ∈ selected link range w <->
  c ∈ clickEvents w ∧ linkId c = link_id link ∧ inWindow range c = true.
Proof.
  unfold selected. rewrite !list_elem_of_In, List.filter_In.
  rewrite andb_true_iff, N.eqb_eq. tauto.
Qed.

(** X14. The analytics endpoint counts every click of the link that
    falls in the requested window, however many there are, and returns
    at most a hundred of them: [totalClicks] is the number of selected
    clicks, the returned list has the smaller of 100 and that number,
    and each returned click is a stored click of this link whose instant
    lies between the two bounds when a window is given. *)
Theorem analytics_counts_all_and_returns_a_hundred
    (env : Env) (userId id : ObjectId) (req : Request) (w : World)
    (link : Link) (range : option (Z * Z)) :
  linkReadFault env = None ->
  clickReadFault env = None ->
  (∀ l, scanOrder env l ≡ₚ l) ->
  List.find (fun l => N.eqb (link_id l) id && N.eqb (ownerId l) userId) (links w)
    = Some link ->
  window env req = Ok range ->
  ∃ data,
    get_links_linkId env userId id req w = (Ok (Json 200 data), w) ∧
    s_totalClicks (a_stats data) = length (selected link range w) ∧
    length (a_clicks data) = Nat.min 100 (length (selected link range w)) ∧
    ∀ c, c ∈ a_clicks data ->
         c ∈ clickEvents w ∧ linkId c = link_id link ∧
         match range with
         | Some (lo, hi) => lo <= timestamp c <= hi
         | None => True
         end.
Proof.
  intros F C O H R.
  destruct (analytics_returns_most_recent env userId id req w link range
              F C O H R) as (data & E & S & K & L & _ & _).
  exists data. split; [exact E|]. split; [rewrite S; reflexivity|].
  split; [exact L|].
  intros c I. rewrite K in I.
  apply subseteq_take in I. rewrite sortDesc_perm, O in I.
  apply selected_spec in I as (I1 & I2 & I3).
  split; [exact I1|]. split; [exact I2|].
  destruct range as [[lo hi]|]; [|exact Logic.I].
  simpl in I3. apply andb_true_iff in I3 as [A B].
  apply Z.leb_le in A, B. lia.
Qed.

Lemma analytics_counts_all_and_returns_a_hundred_witness :
  linkReadFault Sample.env = None ∧
  clickReadFault Sample.env = None ∧
  (∀ l, scanOrder Sample.env l ≡ₚ l) ∧
  List.find (fun l => N.eqb (link_id l) 1%N && N.eqb (ownerId l) 9%N)
            (links Sample.busyWorld) = Some Sample.openLink ∧
  window Sample.env Sample.plain = Ok None ∧
  ∃ data,
    get_links_linkId Sample.env 9%N 1%N Sample.plain Sample.busyWorld
      = (Ok (Json 200 data), Sample.busyWorld) ∧
    s_totalClicks (a_stats data) = 6%nat.
Proof.
  assert (F : linkReadFault Sample.env = None) by reflexivity.
  assert (C : clickReadFault Sample.env = None) by reflexivity.
  assert (O : ∀ l, scanOrder Sample.env l ≡ₚ l) by (intros l; reflexivity).
  assert (H : List.find (fun l => N.eqb (link_id l) 1%N && N.eqb (ownerId l) 9%N)
                (links Sample.busyWorld) = Some Sample.openLink) by reflexivity.
  assert (R : window Sample.env Sample.plain = Ok None) by reflexivity.
  refine (conj F (conj C (conj O (conj H (conj R _))))).
  destruct (analytics_counts_all_and_returns_a_hundred Sample.env 9%N 1%N
              Sample.plain Sample.busyWorld Sample.openLink None F C O H R)
    as (data & E & T & _).
  exists data. split; [exact E | exact T].
Defined.

Lemma find_none_forall (matches : Link -> bool) (l : list Link) :
  (∀ x, x ∈ l -> matches x = false) -> List.find matches l = None.
Proof.
  induction l as [|x l IH]; intros H; simpl; [reflexivity|].
  rewrite (H x) by left. apply IH. intros y Y. apply H. right. exact Y.
Qed.

(** X15. Analytics are scoped to the owner. When no stored link has
    both the requested id and the caller as its owner, the endpoint
    answers NotFound (404) and shows nothing, whether or not a link with
    that id exists for somebody else. *)
Theorem analytics_are_owner_scoped
    (env : Env) (userId id : ObjectId) (req : Request) (w : World) :
  linkReadFault env = None ->
  (∀ l, l ∈ links w -> link_id l = id -> ownerId l ≠ userId) ->
  get_links_linkId env userId id req w
  = (Ok (Next (AppError "Link not found" 404)), w).
Proof.
  intros F H. unfold get_links_linkId, tryCatch, mbind, M_bind.
  rewrite (findOne_missing env _ w F); [reflexivity|].
  apply find_none_forall. intros l L.
  destruct (N.eqb (link_id l) id) eqn:E; [|reflexivity].
  apply N.eqb_eq in E. simpl. apply N.eqb_neq. exact (H l L E).
Qed.

Lemma analytics_are_owner_scoped_witness :
  linkReadFault Sample.env = None ∧
  (∀ l, l ∈ links Fixture.town -> link_id l = 5%N -> ownerId l ≠ 9%N) ∧
  Fixture.foreignLink ∈ links Fixture.town ∧
  get_links_linkId Sample.env 9%N 5%N Sample.plain Fixture.town
  = (Ok (Next (AppError "Link not found" 404)), Fixture.town).
Proof.
  assert (F : linkReadFault Sample.env = None) by reflexivity.
  assert (H : ∀ l, l ∈ links Fixture.town -> link_id l = 5%N
                   -> ownerId l ≠ 9%N).
  { intros l L. simpl in L. rewrite !elem_of_cons, elem_of_nil in L.
    destruct L as [->|[->|[->|[]]]]; simpl; intros; discriminate. }
  assert (I : Fixture.foreignLink ∈ links Fixture.town)
    by (simpl; right; right; left).
  exact (conj F (conj H (conj I
          (analytics_are_owner_scoped Sample.env 9%N 5%N Sample.plain
             Fixture.town F H)))).
Defined.

(** X16. The window applies only when both bounds are given. With
    [startDate] or [endDate] missing or empty, the endpoint answers
    exactly as it does to the request without either parameter: a single
    bound is ignored, not applied. *)
Theorem one_sided_window_is_ignored
    (env : Env) (userId id : ObjectId) (req : Request) (w : World) :
  qfalsy (query req !! "startDate") || qfalsy (query req !! "endDate") = true ->
  get_links_linkId env userId id req w
  = get_links_linkId env userId id (withoutDates req) w.
Proof.
  intros Q.
  assert (A : window env req = Ok None).
  { unfold window. rewrite <- negb_orb, Q. reflexivity. }
  assert (B : window env (withoutDates req) = Ok None).
  { unfold window, withoutDates. simpl. rewrite lookup_delete_eq. reflexivity. }
  unfold get_links_linkId. rewrite A, B. reflexivity.
Qed.

Lemma one_sided_window_is_ignored_witness :
  qfalsy (query Fixture.onlyStart !! "startDate")
  || qfalsy (query Fixture.onlyStart !! "endDate") = true ∧
  get_links_linkId Sample.env 9%N 1%N Fixture.onlyStart Sample.busyWorld
  = get_links_linkId Sample.env 9%N 1%N (withoutDates Fixture.onlyStart)
                     Sample.busyWorld.
Proof.
  assert (Q : qfalsy (query Fixture.onlyStart !! "startDate")
              || qfalsy (query Fixture.onlyStart !! "endDate") = true)
    by reflexivity.
  exact (conj Q (one_sided_window_is_ignored Sample.env 9%N 1%N
                   Fixture.onlyStart Sample.busyWorld Q)).
Defined.

(** ** Reading never writes *)

Lemma mapM_withStats_world (env : Env) (l : list Link) (w : World) :
  snd (mapM (withStats env) l w) = w.
Proof.
  induction l as [|x l IH]; [reflexivity|].
  rewrite mapM_cons, withStats_cases.
  destruct (clickReadFault env); [reflexivity|]. cbv beta iota zeta.
  destruct (mapM (withStats env) l w) as [[k|e] w1]; simpl in *;
    exact IH.
Qed.

(** X17. The three reading endpoints never write. Whatever the request,
    the caller and the behaviour of the store, the analytics of a link,
    the listing of the links and the reading of one link leave the
    links, the click events and the console exactly as they were. *)
Theorem reading_endpoints_do_not_write
    (env : Env) (userId id : ObjectId) (req : Request) (w : World) :
  snd (get_links_linkId env userId id req w) = w ∧
  snd (get_links env userId w) = w ∧
  snd (get_link env userId id w) = w.
Proof.
  split; [|split].
  - unfold get_links_linkId, tryCatch, mbind, M_bind, Link_findOne.
    destruct (linkReadFault env); [reflexivity|].
    destruct (List.find _ (links w)); [|reflexivity]. simpl.
    destruct (window env req); [|reflexivity].
    unfold ClickEvent_find. destruct (clickReadFault env); reflexivity.
  - unfold get_links, tryCatch, mbind, M_bind, Link_find.
    destruct (linkReadFault env); [reflexivity|].
    pose proof (mapM_withStats_world env
                  (sortDesc createdAt
                     (map defaultProjection
                        (List.filter (fun l => N.eqb (ownerId l) userId)
                                     (links w)))) w) as W.
    destruct (mapM (withStats env) _ w) as [[k|e] w1]; simpl in *; exact W.
  - unfold get_link, tryCatch, mbind, M_bind, Link_findOne.
    destruct (linkReadFault env); [reflexivity|].
    destruct (List.find _ (links w)); reflexivity.
Qed.

(** ** [POST /clicks], continued *)

(** X18. [POST /clicks] writes only when it answers 201. For every body
    and whatever the store does, either the response is 201 with a click
    event that has been appended to the collection, refers to the link
    named in the body and is dated at the instant of the request; or the
    world is exactly as it was. *)
Theorem post_clicks_writes_only_on_201
    (env : Env) (body : ClickBody) (w : World) :
  (∃ doc,
     post_clicks env body w = (Ok (Json 201 doc), stored w doc) ∧
     b_linkId body = IsId (linkId doc) ∧
     (∃ l, l ∈ links w ∧ link_id l = linkId doc) ∧
     timestamp doc = now env ∧
     click_id doc = nextId w)
  ∨ (snd (post_clicks env body w) = w ∧
     ∀ doc, fst (post_clicks env body w) ≠ Ok (Json 201 doc)).
Proof.
  unfold post_clicks, Link_findById.
  destruct (b_linkId body) as [|i|raw] eqn:E;
    unfold tryCatch, mbind, M_bind, Link_findOne, throw;
    try (right; split; [reflexivity | intros; discriminate]).
  - destruct (linkReadFault env);
      [right; split; [reflexivity | intros; discriminate]|].
    assert (X : List.find (byId NoId) (links w) = None).
    { apply find_none_forall. intros l _. reflexivity. }
    rewrite X. right; split; [reflexivity | intros; discriminate].
  - destruct (linkReadFault env);
      [right; split; [reflexivity | intros; discriminate]|].
    destruct (List.find _ (links w)) as [l|] eqn:F;
      [|right; split; [reflexivity | intros; discriminate]].
    apply List.find_some in F as [I B]. apply N.eqb_eq in B.
    simpl. unfold ClickEvent_create.
    destruct (missingPaths _);
      [|right; split; [reflexivity | intros; discriminate]].
    destruct (clickWriteFault env);
      [right; split; [reflexivity | intros; discriminate]|].
    left. eexists. split; [reflexivity|]. simpl.
    split; [reflexivity|]. split; [|split; reflexivity].
    exists l. split; [apply list_elem_of_In; exact I | exact B].
Qed.

Lemma selected_stored (link : Link) (w : World) (doc : ClickEvent) :
  linkId doc = link_id link ->
  selected link None (stored w doc) = selected link None w ++ [doc].
Proof.
  intros E. unfold selected, stored. simpl.
  rewrite List.filter_app. simpl. rewrite E, N.eqb_refl. reflexivity.
Qed.

(** X19. A click posted for a link shows in its analytics. After a
    [POST /clicks] that names a link of the caller with the four required
    fields, the analytics of that link, asked without a window, report
    one click more than before. *)
Theorem posted_click_is_counted
    (env : Env) (userId : ObjectId) (req : Request) (body : ClickBody)
    (w : World) (link : Link) :
  linkReadFault env = None ->
  clickReadFault env = None ->
  clickWriteFault env = None ->
  (∀ l, scanOrder env l ≡ₚ l) ->
  List.find (byBodyId body) (links w) = Some link ->
  List.find (fun l => N.eqb (link_id l) (link_id link)
                      && N.eqb (ownerId l) userId) (links w) = Some link ->
  complete body = true ->
  window env req = Ok None ->
  ∃ before after,
    get_links_linkId env userId (link_id link) req w
      = (Ok (Json 200 before), w) ∧
    get_links_linkId env userId (link_id link) req
                     (snd (post_clicks env body w))
      = (Ok (Json 200 after), snd (post_clicks env body w)) ∧
    s_totalClicks (a_stats after) = S (s_totalClicks (a_stats before)).
Proof.
  intros F C W O HB HO K R.
  rewrite (post_clicks_created env body w link F W HB K). cbn [snd].
  destruct (analytics_returns_most_recent env userId (link_id link) req w
              link None F C O HO R) as (before & E1 & S1 & _).
  destruct (analytics_returns_most_recent env userId (link_id link) req
              (stored w (createdFrom env (nextId w) body))
              link None F C O HO R) as (after & E2 & S2 & _).
  exists before, after. split; [exact E1|]. split; [exact E2|].
  rewrite S1, S2. unfold aggregate, totalClicks. cbn [s_totalClicks].
  rewrite selected_stored, length_app; [simpl; lia|].
  simpl. rewrite (byBodyId_names _ _ _ HB). reflexivity.
Qed.

Lemma posted_click_is_counted_witness :
  linkReadFault Sample.env = None ∧
  clickReadFault Sample.env = None ∧
  clickWriteFault Sample.env = None ∧
  (∀ l, scanOrder Sample.env l ≡ₚ l) ∧
  List.find (byBodyId Sample.fullBody) (links Sample.busyWorld)
    = Some Sample.openLink ∧
  List.find (fun l => N.eqb (link_id l) (link_id Sample.openLink)
                      && N.eqb (ownerId l) 9%N) (links Sample.busyWorld)
    = Some Sample.openLink ∧
  complete Sample.fullBody = true ∧
  window Sample.env Sample.plain = Ok None ∧
  ∃ before after,
    get_links_linkId Sample.env 9%N (link_id Sample.openLink) Sample.plain
                     Sample.busyWorld
      = (Ok (Json 200 before), Sample.busyWorld) ∧
    get_links_linkId Sample.env 9%N (link_id Sample.openLink) Sample.plain
                     (snd (post_clicks Sample.env Sample.fullBody
                                       Sample.busyWorld))
      = (Ok (Json 200 after),
         snd (post_clicks Sample.env Sample.fullBody Sample.busyWorld)) ∧
    s_totalClicks (a_stats after) = S (s_totalClicks (a_stats before)).
Proof.
  assert (F : linkReadFault Sample.env = None) by reflexivity.
  assert (C : clickReadFault Sample.env = None) by reflexivity.
  assert (W : clickWriteFault Sample.env = None) by reflexivity.
  assert (O : ∀ l, scanOrder Sample.env l ≡ₚ l) by (intros l; reflexivity).
  assert (HB : List.find (byBodyId Sample.fullBody) (links Sample.busyWorld)
               = Some Sample.openLink) by reflexivity.
  assert (HO : List.find (fun l => N.eqb (link_id l) (link_id Sample.openLink)
                                   && N.eqb (ownerId l) 9%N)
                 (links Sample.busyWorld) = Some Sample.openLink)
    by reflexivity.
  assert (K : complete Sample.fullBody = true) by reflexivity.
  assert (R : window Sample.env Sample.plain = Ok None) by reflexivity.
  exact (conj F (conj C (conj W (conj O (conj HB (conj HO (conj K (conj R
          (posted_click_is_counted Sample.env 9%N Sample.plain
             Sample.fullBody Sample.busyWorld Sample.openLink
             F C W O HB HO K R))))))))).
Defined.

(** ** The listing, continued *)

Lemma count_length_filter (p : ClickEvent -> bool) (l : list ClickEvent) :
  length (List.filter p l) = count p l.
Proof. reflexivity. Qed.

(** X20. The listing shows the caller's links and nothing else: one
    entry per stored link of the caller, newest first, none for a link
    of another owner. No entry carries the password of its link. Each
    entry's [totalClicks] is the number of stored clicks that refer to
    its link, and it embeds at most five of them. *)
Theorem listing_shows_own_links (env : Env) (userId : ObjectId) (w : World) :
  linkReadFault env = None ->
  clickReadFault env = None ->
  (∀ l, scanOrder env l ≡ₚ l) ->
  ∃ entries,
    get_links env userId w = (Ok (Json 200 entries), w) ∧
    map lw_id entries ≡ₚ map link_id (ownedBy userId w) ∧
    StronglySorted (fun a b => b <= a) (map lw_createdAt entries) ∧
    Forall (fun e => lw_password e = Undefined) entries ∧
    Forall (fun e =>
              s_totalClicks (l_stats (lw_stats e))
              = count (fun c => N.eqb (linkId c) (lw_id e)) (clickEvents w) ∧
              (length (recentClicks (lw_stats e)) <= 5)%nat ∧
              ∀ c, c ∈ recentClicks (lw_stats e) ->
                   c ∈ clickEvents w ∧ linkId c = lw_id e)
           entries.
Proof.
  intros F C O.
  set (found := sortDesc createdAt (map defaultProjection (ownedBy userId w))).
  exists (map (entryOf env w) found).
  assert (P : found ≡ₚ map defaultProjection (ownedBy userId w))
    by apply sortDesc_perm.
  split; [|split; [|split; [|split]]].
  - unfold get_links, tryCatch, mbind, M_bind, Link_find. rewrite F.
    cbv beta iota zeta. rewrite (mapM_withStats env _ w C). reflexivity.
  - rewrite map_map. simpl. rewrite P, map_map. reflexivity.
  - rewrite map_map. simpl.
    apply (StronglySorted_fmap createdAt
             (fun a b => createdAt b <= createdAt a) (fun a b => b <= a)).
    + intros a b X. exact X.
    + apply sortDesc_sorted.
  - apply Forall_fmap. apply Forall_forall. intros l L. simpl.
    rewrite P in L. apply list_elem_of_fmap in L as (x & -> & _). reflexivity.
  - apply Forall_fmap. apply Forall_forall. intros l _.
    unfold compose, entryOf, aggregate, totalClicks, slice0.
    cbn [lw_stats recentClicks l_stats lw_id s_totalClicks].
    split; [rewrite (Permutation_length (O _)); reflexivity|].
    split; [rewrite length_take; lia|].
    intros c I. apply subseteq_take in I. rewrite O in I.
    apply list_elem_of_In, List.filter_In in I as [I1 I2].
    apply N.eqb_eq in I2. split; [apply list_elem_of_In; exact I1 | exact I2].
Qed.

Lemma listing_shows_own_links_witness :
  linkReadFault Sample.env = None ∧
  clickReadFault Sample.env = None ∧
  (∀ l, scanOrder Sample.env l ≡ₚ l) ∧
  ∃ entries,
    get_links Sample.env 9%N Fixture.town = (Ok (Json 200 entries), Fixture.town) ∧
    map lw_id entries ≡ₚ [1%N; 2%N].
Proof.
  assert (F : linkReadFault Sample.env = None) by reflexivity.
  assert (C : clickReadFault Sample.env = None) by reflexivity.
  assert (O : ∀ l, scanOrder Sample.env l ≡ₚ l) by (intros l; reflexivity).
  refine (conj F (conj C (conj O _))).
  destruct (listing_shows_own_links Sample.env 9%N Fixture.town F C O)
    as (entries & E & P & _).
  exists entries. split; [exact E | exact P].
Defined.

(** ** Creating, reading and deleting a link *)

Section LinkFacts.

Variables (lenv : LinkEnv) (userId : ObjectId).

Lemma post_link_cases (body : LinkBody) (w : World) :
  post_link lenv userId body w
  = match validationErrors lenv with
    | _ :: _ => (Ok (Json 400 (Errors (validationErrors lenv))), w)
    | [] =>
        match linkReadFault (base lenv) with
        | Some e => (Ok (Next e), w)
        | None =>
            match List.find
                    (byDomainAndSlugJs (orDefault (lb_domain body) "xpro.li")
                       (orDefault (lb_slug body) (nanoid8 lenv))) (links w) with
            | Some _ => (Ok (Next (AppError "Slug already in use" 400)), w)
            | None =>
                match Link_create lenv (inputOf lenv userId body) w with
                | (Ok link, w') => (Ok (Json 201 (Created link)), w')
                | (Throw e, w') => (Ok (Next e), w')
                end
            end
        end
    end.
Proof.
  unfold post_link, tryCatch, mbind, M_bind, Link_findOne.
  destruct (validationErrors lenv); [|reflexivity].
  destruct (linkReadFault (base lenv)); [reflexivity|].
  destruct (List.find _ (links w)); cbn [fmap option_fmap option_map];
    [reflexivity|].
  unfold inputOf.
  destruct (Link_create lenv _ w) as [[l|e] w']; reflexivity.
Qed.

Lemma Link_create_cases (i : LinkInput) (w : World) :
  (∃ doc, Link_create lenv i w = (Ok doc, linked w doc) ∧
          doc = newLink (base lenv) (nextId w) i ∧
          invalidPaths (base lenv) i = [] ∧
          duplicateKey (links w) doc = false)
  ∨ (∃ e, Link_create lenv i w = (Throw e, w)).
Proof.
  unfold Link_create.
  destruct (invalidPaths (base lenv) i) eqn:V; [|right; eauto].
  destruct (linkWriteFault lenv); [right; eauto|].
  cbv zeta.
  destruct (duplicateKey (links w) (newLink (base lenv) (nextId w) i)) eqn:D;
    [right; eauto|].
  left. eexists. repeat split. exact D.
Qed.

Lemma duplicateKey_false (stored : list Link) (l : Link) :
  duplicateKey stored l = false -> slug l ∉ map slug stored.
Proof.
  unfold duplicateKey. intros D X.
  apply list_elem_of_fmap in X as (k & E & K).
  apply not_true_iff_false in D. apply D.
  apply existsb_exists. exists k. split; [apply list_elem_of_In; exact K|].
  unfold sameSlug. rewrite E, String.eqb_refl. reflexivity.
Qed.

Lemma duplicateKey_true (stored : list Link) (l k : Link) :
  k ∈ stored -> slug k = slug l -> duplicateKey stored l = true.
Proof.
  intros K E. unfold duplicateKey. apply existsb_exists.
  exists k. split; [apply list_elem_of_In; exact K|].
  unfold sameSlug. rewrite E, String.eqb_refl. reflexivity.
Qed.

Lemma delete_link_cases (id : ObjectId) (w : World) :
  delete_link lenv userId id w
  = match linkWriteFault lenv with
    | Some e => (Ok (Next e), w)
    | None =>
        match List.find (byIdAndOwner id userId) (links w) with
        | None => (Ok (Next (AppError "Link not found" 404)), w)
        | Some _ =>
            (Ok (Json 200 tt),
             mkWorld (removeFirst (byIdAndOwner id userId) (links w))
                     (clickEvents w) (consoleErrors w) (geoQueries w)
                     (nextId w))
        end
    end.
Proof.
  unfold delete_link, tryCatch, mbind, M_bind, Link_findOneAndDelete.
  destruct (linkWriteFault lenv); [reflexivity|].
  destruct (List.find _ (links w)); reflexivity.
Qed.

End LinkFacts.

Lemma find_some_exists (matches : Link -> bool) (l : list Link) (x : Link) :
  x ∈ l -> matches x = true -> ∃ y, List.find matches l = Some y.
Proof.
  induction l as [|z l IH]; simpl; [intros H; inversion H|].
  intros H M. destruct (matches z) eqn:Z; [eauto|].
  apply elem_of_cons in H as [->|H]; [congruence|]. apply IH; assumption.
Qed.

(** X21. Creating a link on a domain and slug that a stored link already
    has is refused with "Slug already in use" (400), whatever the
    destination and the other fields of the body, and nothing is stored.
    An absent domain stands for [xpro.li]. *)
Theorem taken_slug_is_refused
    (lenv : LinkEnv) (userId : ObjectId) (body : LinkBody) (w : World)
    (existing : Link) :
  validationErrors lenv = [] ->
  linkReadFault (base lenv) = None ->
  existing ∈ links w ->
  orDefault (lb_domain body) "xpro.li" = Str (domain existing) ->
  lb_slug body = Str (slug existing) ->
  post_link lenv userId body w
  = (Ok (Next (AppError "Slug already in use" 400)), w).
Proof.
  intros V F I D S. rewrite post_link_cases, V, F, D, S. simpl.
  destruct (find_some_exists
              (byDomainAndSlugJs (Str (domain existing)) (Str (slug existing)))
              (links w) existing I) as [y Y].
  { unfold byDomainAndSlugJs. rewrite !bool_decide_eq_true_2; reflexivity. }
  rewrite Y. reflexivity.
Qed.

Lemma taken_slug_is_refused_witness :
  validationErrors Fixture.lenv = [] ∧
  linkReadFault (base Fixture.lenv) = None ∧
  Sample.openLink ∈ links Fixture.town ∧
  orDefault (lb_domain Fixture.takenBody) "xpro.li"
    = Str (domain Sample.openLink) ∧
  lb_slug Fixture.takenBody = Str (slug Sample.openLink) ∧
  post_link Fixture.lenv 8%N Fixture.takenBody Fixture.town
  = (Ok (Next (AppError "Slug already in use" 400)), Fixture.town).
Proof.
  assert (V : validationErrors Fixture.lenv = []) by reflexivity.
  assert (F : linkReadFault (base Fixture.lenv) = None) by reflexivity.
  assert (I : Sample.openLink ∈ links Fixture.town) by (simpl; left).
  assert (D : orDefault (lb_domain Fixture.takenBody) "xpro.li"
              = Str (domain Sample.openLink)) by reflexivity.
  assert (S : lb_slug Fixture.takenBody = Str (slug Sample.openLink))
    by reflexivity.
  exact (conj V (conj F (conj I (conj D (conj S
          (taken_slug_is_refused Fixture.lenv 8%N Fixture.takenBody
             Fixture.town Sample.openLink V F I D S)))))).
Defined.

Lemma removeFirst_subset (matches : Link -> bool) (l : list Link) (x : Link) :
  x ∈ removeFirst matches l -> x ∈ l.
Proof.
  induction l as [|y l IH]; simpl; [tauto|].
  destruct (matches y); [right; assumption|].
  rewrite !elem_of_cons. intros [->|H]; [left; reflexivity | right; auto].
Qed.

Lemma duplicateKey_fresh (stored : list Link) (l : Link) :
  slug l ∉ map slug stored -> duplicateKey stored l = false.
Proof.
  intros X. unfold duplicateKey. apply not_true_iff_false. intros D.
  apply existsb_exists in D as (k & K & D). apply X.
  apply list_elem_of_fmap. exists k. split; [|apply list_elem_of_In; exact K].
  unfold sameSlug, sameOwnerAndSlug, sameSlugAndDomain in D.
  rewrite !orb_true_iff, !andb_true_iff, !String.eqb_eq in D.
  destruct D as [[D|[_ D]]|[D _]]; symmetry; exact D.
Qed.

Lemma find_slug_none (d s : JsStr) (l : list Link) (x : string) :
  s = Str x -> x ∉ map slug l -> List.find (byDomainAndSlugJs d s) l = None.
Proof.
  intros -> X. apply find_none_forall. intros k K.
  unfold byDomainAndSlugJs. apply andb_false_iff. right.
  apply bool_decide_eq_false. intros [= E]. apply X.
  apply list_elem_of_fmap. exists k. split; [symmetry; exact E | exact K].
Qed.

(** X22. The slug of a link is unique across all domains, although the
    route only looks for the same domain and slug. When the slug is in
    use by a link of another domain, the check of the route passes, the
    store refuses the insertion on its unique index, the error goes to
    the error middleware (not the 400 of a taken slug), and nothing is
    stored. *)
Theorem slug_is_unique_across_domains
    (lenv : LinkEnv) (userId : ObjectId) (body : LinkBody) (w : World)
    (other : Link) (d s : string) :
  validationErrors lenv = [] ->
  linkReadFault (base lenv) = None ->
  linkWriteFault lenv = None ->
  other ∈ links w ->
  slug other = s ->
  (∀ l, l ∈ links w -> slug l = s -> domain l ≠ d) ->
  orDefault (lb_domain body) "xpro.li" = Str d -> d ≠ "" ->
  lb_slug body = Str s -> s ≠ "" ->
  truthy (lb_destinationUrl body) = true ->
  castDate (base lenv) (lb_expiresAt body) ≠ None ->
  post_link lenv userId body w
  = (Ok (Next (Failure "E11000 duplicate key error")), w).
Proof.
  intros V F W I S O D Dn B Sn U C.
  rewrite post_link_cases, V, F, D, B. simpl.
  rewrite find_none_forall.
  2:{ intros l L. unfold byDomainAndSlugJs. apply andb_false_iff.
      destruct (decide (slug l = s)) as [E|E].
      - left. apply bool_decide_eq_false. intros [= X]. exact (O l L E X).
      - right. apply bool_decide_eq_false. intros [= X]. exact (E X). }
  unfold Link_create, inputOf, invalidPaths.
  cbn [li_domain li_slug li_destinationUrl li_expiresAt].
  rewrite D, B, U. cbn [orDefault].
  assert (T : ∀ x, x ≠ "" -> truthy (Str x) = true).
  { intros x X. simpl. apply String.eqb_neq in X. rewrite X. reflexivity. }
  rewrite (T d Dn), (T s Sn).
  rewrite bool_decide_eq_false_2 by exact C. simpl. rewrite W.
  rewrite (duplicateKey_true (links w) _ other I); [reflexivity|].
  simpl. rewrite S. apply String.eqb_neq in Sn. rewrite Sn. reflexivity.
Qed.

Lemma slug_is_unique_across_domains_witness :
  validationErrors Fixture.lenv = [] ∧
  linkReadFault (base Fixture.lenv) = None ∧
  linkWriteFault Fixture.lenv = None ∧
  Fixture.foreignLink ∈ links Fixture.town ∧
  slug Fixture.foreignLink = "promo" ∧
  (∀ l, l ∈ links Fixture.town -> slug l = "promo" -> domain l ≠ "xpro.li") ∧
  orDefault (lb_domain Fixture.crossDomainBody) "xpro.li" = Str "xpro.li" ∧
  "xpro.li" ≠ "" ∧
  lb_slug Fixture.crossDomainBody = Str "promo" ∧
  "promo" ≠ "" ∧
  truthy (lb_destinationUrl Fixture.crossDomainBody) = true ∧
  castDate (base Fixture.lenv) (lb_expiresAt Fixture.crossDomainBody) ≠ None ∧
  post_link Fixture.lenv 9%N Fixture.crossDomainBody Fixture.town
  = (Ok (Next (Failure "E11000 duplicate key error")), Fixture.town).
Proof.
  assert (V : validationErrors Fixture.lenv = []) by reflexivity.
  assert (F : linkReadFault (base Fixture.lenv) = None) by reflexivity.
  assert (W : linkWriteFault Fixture.lenv = None) by reflexivity.
  assert (I : Fixture.foreignLink ∈ links Fixture.town)
    by (simpl; right; right; left).
  assert (S : slug Fixture.foreignLink = "promo") by reflexivity.
  assert (O : ∀ l, l ∈ links Fixture.town -> slug l = "promo"
                   -> domain l ≠ "xpro.li").
  { intros l L. simpl in L. rewrite !elem_of_cons, elem_of_nil in L.
    destruct L as [->|[->|[->|[]]]]; simpl; intros; discriminate. }
  assert (D : orDefault (lb_domain Fixture.crossDomainBody) "xpro.li"
              = Str "xpro.li") by reflexivity.
  assert (Dn : "xpro.li" ≠ "") by discriminate.
  assert (B : lb_slug Fixture.crossDomainBody = Str "promo") by reflexivity.
  assert (Sn : "promo" ≠ "") by discriminate.
  assert (U : truthy (lb_destinationUrl Fixture.crossDomainBody) = true)
    by reflexivity.
  assert (C : castDate (base Fixture.lenv)
                (lb_expiresAt Fixture.crossDomainBody) ≠ None) by discriminate.
  exact (conj V (conj F (conj W (conj I (conj S (conj O (conj D (conj Dn
          (conj B (conj Sn (conj U (conj C
            (slug_is_unique_across_domains Fixture.lenv 9%N
               Fixture.crossDomainBody Fixture.town Fixture.foreignLink
               "xpro.li" "promo" V F W I S O D Dn B Sn U C))))))))))))).
Defined.

Lemma find_app_fresh (matches : Link -> bool) (l : list Link) (x : Link) :
  (∀ k, k ∈ l -> matches k = false) -> matches x = true ->
  List.find matches (l ++ [x]) = Some x.
Proof.
  induction l as [|y l IH]; intros N M; simpl.
  - rewrite M. reflexivity.
  - rewrite (N y) by left. apply IH; [|exact M].
    intros k K. apply N. right. exact K.
Qed.

(** X23. A link that has been created is served. When the body passes
    validation, names a destination, a slug no stored link has (or
    leaves the slug to [nanoid]) and neither an expiry nor password
    protection, [POST /] answers 201 with a link owned by the caller,
    and from then on both redirect routes send every visitor of that
    domain and slug to the destination. *)
Theorem created_link_is_served
    (lenv : LinkEnv) (userId : ObjectId) (body : LinkBody) (w : World)
    (req : Request) (d s u : string) :
  validationErrors lenv = [] ->
  linkReadFault (base lenv) = None ->
  linkWriteFault lenv = None ->
  orDefault (lb_domain body) "xpro.li" = Str d -> d ≠ "" ->
  orDefault (lb_slug body) (nanoid8 lenv) = Str s -> s ≠ "" ->
  lb_destinationUrl body = Str u -> u ≠ "" ->
  lb_expiresAt body = Undefined ->
  lb_passwordProtected body ≠ Some true ->
  s ∉ map slug (links w) ->
  ∃ link,
    post_link lenv userId body w
      = (Ok (Json 201 (Created link)), linked w link) ∧
    ownerId link = userId ∧ domain link = d ∧ slug link = s ∧
    destinationUrl link = u ∧
    fst (get_domain_slug (base lenv) req d s (linked w link))
      = Ok (Redirect u) ∧
    fst (get_slug (base lenv) req s (linked w link)) = Ok (Redirect u).
Proof.
  intros V F W D Dn S Sn U Un E P N.
  assert (T : ∀ x, x ≠ "" -> String.eqb x "" = false)
    by (intros x X; apply String.eqb_neq; exact X).
  assert (I : inputOf lenv userId body
              = mkLinkInput userId (Str d) (Str s) (Str u) Undefined
                            (lb_passwordProtected body) (lb_password body)).
  { unfold inputOf. rewrite D, S, U, E. reflexivity. }
  set (link := newLink (base lenv) (nextId w)
                 (mkLinkInput userId (Str d) (Str s) (Str u) Undefined
                    (lb_passwordProtected body) (lb_password body))).
  assert (Ld : domain link = d).
  { unfold link, newLink. simpl. rewrite (T d Dn). reflexivity. }
  assert (Ls : slug link = s).
  { unfold link, newLink. simpl. rewrite (T s Sn). reflexivity. }
  assert (Lu : destinationUrl link = u).
  { unfold link, newLink. simpl. rewrite (T u Un). reflexivity. }
  assert (Le : expiresAt link = None) by reflexivity.
  assert (Lp : passwordProtected link = false).
  { unfold link, newLink. simpl.
    destruct (lb_passwordProtected body) as [[|]|]; try reflexivity.
    contradiction. }
  assert (PL : post_link lenv userId body w
               = (Ok (Json 201 (Created link)), linked w link)).
  { rewrite post_link_cases, V, F, D, S.
    rewrite (find_slug_none (Str d) (Str s) (links w) s eq_refl N).
    rewrite I. unfold Link_create, invalidPaths.
    cbn [li_domain li_slug li_destinationUrl li_expiresAt].
    simpl truthy. rewrite (T d Dn), (T s Sn), (T u Un).
    cbn [negb castDate app bool_decide decide_rel]. rewrite W.
    fold link.
    rewrite (duplicateKey_fresh (links w) link) by (rewrite Ls; exact N).
    reflexivity. }
  assert (Lo : ownerId link = userId) by reflexivity.
  clearbody link.
  exists link. split; [exact PL|]. repeat split; try assumption.
  - rewrite get_domain_slug_unfold, F. simpl.
    rewrite (find_app_fresh (byDomainAndSlug d s) (links w) link).
    + unfold served, expired. simpl. rewrite Le, Lp, Lu. reflexivity.
    + intros k K. unfold byDomainAndSlug. apply andb_false_iff. right.
      apply String.eqb_neq. intros X. apply N.
      apply list_elem_of_fmap. exists k. split; [symmetry; exact X | exact K].
    + unfold byDomainAndSlug. rewrite Ld, Ls, !String.eqb_refl. reflexivity.
  - rewrite get_slug_unfold, F. simpl.
    rewrite (find_app_fresh (bySlug s) (links w) link).
    + unfold served, expired. simpl. rewrite Le, Lp, Lu. reflexivity.
    + intros k K. unfold bySlug.
      apply String.eqb_neq. intros X. apply N.
      apply list_elem_of_fmap. exists k. split; [symmetry; exact X | exact K].
    + unfold bySlug. rewrite Ls, String.eqb_refl. reflexivity.
Qed.

Lemma created_link_is_served_witness :
  validationErrors Fixture.lenv = [] ∧
  linkReadFault (base Fixture.lenv) = None ∧
  linkWriteFault Fixture.lenv = None ∧
  orDefault (lb_domain Fixture.newBody) "xpro.li" = Str "xpro.li" ∧
  "xpro.li" ≠ "" ∧
  orDefault (lb_slug Fixture.newBody) (nanoid8 Fixture.lenv) = Str "fresh" ∧
  "fresh" ≠ "" ∧
  lb_destinationUrl Fixture.newBody = Str "https://example.com/new" ∧
  "https://example.com/new" ≠ "" ∧
  lb_expiresAt Fixture.newBody = Undefined ∧
  lb_passwordProtected Fixture.newBody ≠ Some true ∧
  ("fresh" ∉ map slug (links Fixture.town)) ∧
  ∃ link,
    post_link Fixture.lenv 9%N Fixture.newBody Fixture.town
      = (Ok (Json 201 (Created link)), linked Fixture.town link) ∧
    fst (get_slug (base Fixture.lenv) Sample.plain "fresh"
                  (linked Fixture.town link))
      = Ok (Redirect "https://example.com/new").
Proof.
  assert (V : validationErrors Fixture.lenv = []) by reflexivity.
  assert (F : linkReadFault (base Fixture.lenv) = None) by reflexivity.
  assert (W : linkWriteFault Fixture.lenv = None) by reflexivity.
  assert (D : orDefault (lb_domain Fixture.newBody) "xpro.li" = Str "xpro.li")
    by reflexivity.
  assert (Dn : "xpro.li" ≠ "") by discriminate.
  assert (S : orDefault (lb_slug Fixture.newBody) (nanoid8 Fixture.lenv)
              = Str "fresh") by reflexivity.
  assert (Sn : "fresh" ≠ "") by discriminate.
  assert (U : lb_destinationUrl Fixture.newBody
              = Str "https://example.com/new") by reflexivity.
  assert (Un : "https://example.com/new" ≠ "") by discriminate.
  assert (E : lb_expiresAt Fixture.newBody = Undefined) by reflexivity.
  assert (P : lb_passwordProtected Fixture.newBody ≠ Some true)
    by discriminate.
  assert (N : "fresh" ∉ map slug (links Fixture.town)).
  { simpl. rewrite !elem_of_cons, elem_of_nil.
    intros [X|[X|[X|[]]]]; discriminate X. }
  refine ((conj V (conj F (conj W (conj D (conj Dn (conj S (conj Sn (conj U (conj Un (conj E (conj P (conj N _))))))))))))).
  destruct (created_link_is_served Fixture.lenv 9%N Fixture.newBody
              Fixture.town Sample.plain "xpro.li" "fresh"
              "https://example.com/new" V F W D Dn S Sn U Un E P N)
    as (link & A & _ & _ & _ & _ & _ & B).
  exists link. exact (conj A B).
Defined.

(** X25. [POST /] writes only when it answers 201, and then it adds one
    link: for every body, either the response is 201 with a link that is
    owned by the caller, is dated at the instant of the request and has
    been appended to the collection, the click events untouched; or the
    world is exactly as it was. *)
Theorem post_link_writes_only_on_201
    (lenv : LinkEnv) (userId : ObjectId) (body : LinkBody) (w : World) :
  (∃ link,
     post_link lenv userId body w
       = (Ok (Json 201 (Created link)), linked w link) ∧
     ownerId link = userId ∧
     link_id link = nextId w ∧
     createdAt link = now (base lenv) ∧
     slug link ∉ map slug (links w))
  ∨ (snd (post_link lenv userId body w) = w ∧
     ∀ link, fst (post_link lenv userId body w) ≠ Ok (Json 201 (Created link))).
Proof.
  rewrite post_link_cases.
  destruct (validationErrors lenv);
    [|right; split; [reflexivity | intros; discriminate]].
  destruct (linkReadFault (base lenv));
    [right; split; [reflexivity | intros; discriminate]|].
  destruct (List.find _ (links w));
    [right; split; [reflexivity | intros; discriminate]|].
  destruct (Link_create_cases lenv (inputOf lenv userId body) w)
    as [(doc & -> & E & _ & D) | (e & ->)];
    [|right; split; [reflexivity | intros; discriminate]].
  left. exists doc. split; [reflexivity|]. rewrite E at 1 2 3.
  repeat split. exact (duplicateKey_false _ _ D).
Qed.

Lemma removeFirst_unique_id (id owner : ObjectId) (l : list Link)
    (link : Link) :
  NoDup (map link_id l) ->
  List.find (byIdAndOwner id owner) l = Some link ->
  ∀ x, x ∈ removeFirst (byIdAndOwner id owner) l ↔ x ∈ l ∧ link_id x ≠ id.
Proof.
  induction l as [|y l IH]; simpl; [discriminate|].
  rewrite NoDup_cons. intros [Y N] F x.
  assert (In_id : ∀ z, z ∈ l -> link_id z ≠ link_id y).
  { intros z Z E. apply Y. apply list_elem_of_fmap. exists z. auto. }
  destruct (byIdAndOwner id owner y) eqn:M.
  - unfold byIdAndOwner in M. apply andb_true_iff in M as [M _].
    apply N.eqb_eq in M. rewrite elem_of_cons. split.
    + intros X. split; [right; exact X|]. rewrite <- M. apply In_id. exact X.
    + intros [[->|X] E]; [contradiction | exact X].
  - assert (L : link ∈ l ∧ link_id link = id).
    { apply List.find_some in F as [F1 F2]. split.
      - apply list_elem_of_In. exact F1.
      - unfold byIdAndOwner in F2. apply andb_true_iff in F2 as [F2 _].
        apply N.eqb_eq. exact F2. }
    assert (Yid : link_id y ≠ id).
    { destruct L as [L1 L2]. rewrite <- L2. intros E.
      exact (In_id link L1 (eq_sym E)). }
    rewrite !elem_of_cons, (IH N F x). split.
    + intros [->|[X E]]; [split; [left; reflexivity | exact Yid]|].
      split; [right; exact X | exact E].
    + intros [[->|X] E]; [left; reflexivity | right; split; assumption].
Qed.

Lemma find_by_id_none (id owner : ObjectId) (l : list Link) :
  (∀ x, x ∈ l -> link_id x = id -> ownerId x ≠ owner) ->
  List.find (byIdAndOwner id owner) l = None.
Proof.
  intros H. apply find_none_forall. intros x X. unfold byIdAndOwner.
  destruct (N.eqb (link_id x) id) eqn:E; [|reflexivity].
  apply N.eqb_eq in E. simpl. apply N.eqb_neq. exact (H x X E).
Qed.

(** X26. A deleted link is gone, its clicks are not. After the owner
    deletes a link (ids being distinct), the collection holds exactly the
    other links; reading it, asking for its analytics or deleting it
    again answers NotFound (404); the click events are all still
    stored. *)
Theorem deleted_link_is_gone
    (lenv : LinkEnv) (userId id : ObjectId) (req : Request) (w : World)
    (link : Link) :
  linkWriteFault lenv = None ->
  linkReadFault (base lenv) = None ->
  NoDup (map link_id (links w)) ->
  List.find (byIdAndOwner id userId) (links w) = Some link ->
  ∃ w',
    delete_link lenv userId id w = (Ok (Json 200 tt), w') ∧
    (∀ l, l ∈ links w' ↔ l ∈ links w ∧ link_id l ≠ id) ∧
    clickEvents w' = clickEvents w ∧
    get_link (base lenv) userId id w'
      = (Ok (Next (AppError "Link not found" 404)), w') ∧
    get_links_linkId (base lenv) userId id req w'
      = (Ok (Next (AppError "Link not found" 404)), w') ∧
    delete_link lenv userId id w'
      = (Ok (Next (AppError "Link not found" 404)), w').
Proof.
  intros W F N H.
  set (w' := mkWorld (removeFirst (byIdAndOwner id userId) (links w))
                     (clickEvents w) (consoleErrors w) (geoQueries w)
                     (nextId w)).
  exists w'. split.
  { rewrite delete_link_cases, W, H. reflexivity. }
  pose proof (removeFirst_unique_id id userId (links w) link N H) as R.
  assert (G : List.find (byIdAndOwner id userId) (links w') = None).
  { apply find_by_id_none. intros x X E. apply R in X as [_ X].
    contradiction. }
  split; [exact R|]. split; [reflexivity|]. split; [|split].
  - unfold get_link, tryCatch, mbind, M_bind.
    rewrite (findOne_missing (base lenv) _ w' F G). reflexivity.
  - unfold get_links_linkId, tryCatch, mbind, M_bind.
    rewrite (findOne_missing (base lenv) _ w' F); [reflexivity | exact G].
  - rewrite delete_link_cases, W, G. reflexivity.
Qed.

Lemma deleted_link_is_gone_witness :
  linkWriteFault Fixture.lenv = None ∧
  linkReadFault (base Fixture.lenv) = None ∧
  NoDup (map link_id (links Fixture.town)) ∧
  List.find (byIdAndOwner 1%N 9%N) (links Fixture.town)
    = Some Sample.openLink ∧
  ∃ w',
    delete_link Fixture.lenv 9%N 1%N Fixture.town = (Ok (Json 200 tt), w') ∧
    clickEvents w' = Sample.sixClicks.
Proof.
  assert (W : linkWriteFault Fixture.lenv = None) by reflexivity.
  assert (F : linkReadFault (base Fixture.lenv) = None) by reflexivity.
  assert (N : NoDup (map link_id (links Fixture.town))).
  { simpl. repeat (apply NoDup_cons; split;
                   [rewrite ?elem_of_cons, elem_of_nil; intros X;
                    repeat destruct X as [X|X]; try discriminate X; exact X|]).
    apply NoDup_nil. exact I. }
  assert (H : List.find (byIdAndOwner 1%N 9%N) (links Fixture.town)
              = Some Sample.openLink) by reflexivity.
  refine (conj W (conj F (conj N (conj H _)))).
  destruct (deleted_link_is_gone Fixture.lenv 9%N 1%N Sample.plain
              Fixture.town Sample.openLink W F N H)
    as (w' & A & _ & C & _).
  exists w'. exact (conj A C).
Defined.

(** X27. Reading and deleting a link are scoped to its owner. Whatever
    [GET /:id] returns belongs to the caller, has the requested id and
    carries no password; and when no stored link has both the id and the
    caller as owner, reading and deleting answer NotFound (404) and
    leave the world as it was, even if the id is somebody else's link. *)
Theorem links_are_owner_scoped
    (lenv : LinkEnv) (userId id : ObjectId) (w : World) :
  (∀ link, fst (get_link (base lenv) userId id w) = Ok (Json 200 link) ->
           ownerId link = userId ∧ link_id link = id ∧
           password link = Undefined ∧
           ∃ doc, doc ∈ links w ∧ link = defaultProjection doc) ∧
  ((∀ l, l ∈ links w -> link_id l = id -> ownerId l ≠ userId) ->
   linkReadFault (base lenv) = None ->
   linkWriteFault lenv = None ->
   get_link (base lenv) userId id w
     = (Ok (Next (AppError "Link not found" 404)), w) ∧
   delete_link lenv userId id w
     = (Ok (Next (AppError "Link not found" 404)), w)).
Proof.
  split.
  - intros link. unfold get_link, tryCatch, mbind, M_bind, Link_findOne.
    destruct (linkReadFault (base lenv)); [discriminate|].
    destruct (List.find _ (links w)) as [doc|] eqn:F; [|discriminate].
    simpl. intros [= <-].
    apply List.find_some in F as [I B]. unfold byIdAndOwner in B.
    apply andb_true_iff in B as [B1 B2]. apply N.eqb_eq in B1, B2.
    simpl. repeat split; try assumption.
    exists doc. split; [apply list_elem_of_In; exact I | reflexivity].
  - intros H F W. pose proof (find_by_id_none id userId (links w) H) as G.
    split.
    + unfold get_link, tryCatch, mbind, M_bind.
      rewrite (findOne_missing (base lenv) _ _ F G). reflexivity.
    + rewrite delete_link_cases, W, G. reflexivity.
Qed.

Lemma links_are_owner_scoped_witness :
  (∀ l, l ∈ links Fixture.town -> link_id l = 5%N -> ownerId l ≠ 9%N) ∧
  linkReadFault (base Fixture.lenv) = None ∧
  linkWriteFault Fixture.lenv = None ∧
  delete_link Fixture.lenv 9%N 5%N Fixture.town
  = (Ok (Next (AppError "Link not found" 404)), Fixture.town) ∧
  fst (get_link (base Fixture.lenv) 9%N 2%N Fixture.town)
  = Ok (Json 200 (defaultProjection Sample.secretLink)) ∧
  password (defaultProjection Sample.secretLink) = Undefined.
Proof.
  assert (H : ∀ l, l ∈ links Fixture.town -> link_id l = 5%N
                   -> ownerId l ≠ 9%N).
  { intros l L. simpl in L. rewrite !elem_of_cons, elem_of_nil in L.
    destruct L as [->|[->|[->|[]]]]; simpl; intros; discriminate. }
  assert (F : linkReadFault (base Fixture.lenv) = None) by reflexivity.
  assert (W : linkWriteFault Fixture.lenv = None) by reflexivity.
  assert (G : fst (get_link (base Fixture.lenv) 9%N 2%N Fixture.town)
              = Ok (Json 200 (defaultProjection Sample.secretLink)))
    by reflexivity.
  refine (conj H (conj F (conj W (conj _ (conj G _))))).
  - exact (proj2 (proj2 (links_are_owner_scoped Fixture.lenv 9%N 5%N
                           Fixture.town) H F W)).
  - exact (proj1 (proj2 (proj2 (proj1 (links_are_owner_scoped Fixture.lenv
                    9%N 2%N Fixture.town) _ G)))).
Defined.

(** ** The [protect] middleware *)

Section SplitFacts.

Variable sep : ascii.

Lemma splitOn_no_sep (s : string) :
  sep ∉ list_ascii_of_string s -> splitOn sep s = [s].
Proof.
  induction s as [|a s IH]; simpl; [reflexivity|].
  rewrite not_elem_of_cons. intros [N X].
  destruct (Ascii.eqb a sep) eqn:E.
  - apply Ascii.eqb_eq in E. congruence.
  - rewrite (IH X). reflexivity.
Qed.

End SplitFacts.

Lemma bearerToken_spec (t : string) :
  (" " : ascii) ∉ list_ascii_of_string t ->
  bearerToken ("Bearer " +:+ t) = Str t.
Proof.
  intros N. unfold bearerToken.
  change (splitOn " " ("Bearer " +:+ t)) with ("Bearer" :: splitOn " " t).
  rewrite (splitOn_no_sep " " t N). reflexivity.
Qed.

(** X28. An [Authorization] header that starts with [Bearer] decides
    alone. With the header [Bearer t], [t] holding no space, the token is
    [t], and it stays [t] whatever [Cookie] header the request carries:
    the cookies are not read. *)
Theorem bearer_header_decides (req : Request) (t : string) :
  headers req !! "authorization" = Some ("Bearer " +:+ t) ->
  (" " : ascii) ∉ list_ascii_of_string t ->
  requestToken req = Str t ∧
  ∀ c, requestToken (setHeader "cookie" c req) = Str t.
Proof.
  intros H N.
  assert (S : startsWith "Bearer" ("Bearer " +:+ t) = true) by reflexivity.
  split.
  - unfold requestToken. rewrite H, S. apply bearerToken_spec. exact N.
  - intros c. unfold requestToken, setHeader. cbn [headers].
    rewrite lookup_insert_ne by discriminate. rewrite H, S.
    apply bearerToken_spec. exact N.
Qed.

Lemma bearer_header_decides_witness :
  headers Fixture.withBearer !! "authorization"
    = Some ("Bearer " +:+ "abc.def.ghi") ∧
  ((" " : ascii) ∉ list_ascii_of_string "abc.def.ghi") ∧
  requestToken Fixture.withBearer = Str "abc.def.ghi".
Proof.
  assert (H : headers Fixture.withBearer !! "authorization"
              = Some ("Bearer " +:+ "abc.def.ghi")) by reflexivity.
  assert (N : (" " : ascii) ∉ list_ascii_of_string "abc.def.ghi").
  { simpl. rewrite !elem_of_cons, elem_of_nil.
    intros X. repeat destruct X as [X|X]; try discriminate X. exact X. }
  exact (conj H (conj N
           (proj1 (bearer_header_decides Fixture.withBearer _ H N)))).
Defined.

(** X29. What [protect] answers. Without a token it refuses with "no
    token" and consults neither the verifier nor the user store; this is
    also the answer to a header that only says [Bearer], even when a
    cookie carries a token. With a token it refuses with "token failed"
    when the verification raises and also when the lookup of the user
    raises. When both answer it lets the request through with the user
    the lookup gave, which is [null] when the user no longer exists.
    It lets nothing through otherwise. *)
Theorem protect_outcomes {P U : Type}
    (verify : string -> Result P) (findById : P -> Result (option U))
    (req : Request) :
  (truthy (requestToken req) = false ->
   protect verify findById req = NoToken) ∧
  (∀ a, headers req !! "authorization" = Some a ->
        startsWith "Bearer" a = true ->
        (" " : ascii) ∉ list_ascii_of_string a ->
        protect verify findById req = NoToken) ∧
  (∀ t e, requestToken req = Str t -> t ≠ "" -> verify t = Throw e ->
          protect verify findById req = TokenFailed) ∧
  (∀ t p e, requestToken req = Str t -> t ≠ "" -> verify t = Ok p ->
            findById p = Throw e ->
            protect verify findById req = TokenFailed) ∧
  (∀ t p u, requestToken req = Str t -> t ≠ "" -> verify t = Ok p ->
            findById p = Ok u ->
            protect verify findById req = Granted u) ∧
  (∀ u, protect verify findById req = Granted u ->
        ∃ t p, requestToken req = Str t ∧ t ≠ "" ∧ verify t = Ok p ∧
               findById p = Ok u).
Proof.
  assert (T : ∀ t, requestToken req = Str t -> t ≠ "" ->
                   protect verify findById req
                   = match verify t with
                     | Throw _ => TokenFailed
                     | Ok p => match findById p with
                               | Throw _ => TokenFailed
                               | Ok u => Granted u
                               end
                     end).
  { intros t E N. unfold protect. rewrite E. simpl.
    apply String.eqb_neq in N. rewrite N. reflexivity. }
  split; [|split; [|split; [|split; [|split]]]].
  - intros F. unfold protect. rewrite F. reflexivity.
  - intros a H S N. unfold protect.
    assert (X : requestToken req = Undefined).
    { unfold requestToken. rewrite H, S. unfold bearerToken.
      rewrite (splitOn_no_sep " " a N). reflexivity. }
    rewrite X. reflexivity.
  - intros t e E N V. rewrite (T t E N), V. reflexivity.
  - intros t p e E N V L. rewrite (T t E N), V, L. reflexivity.
  - intros t p u E N V L. rewrite (T t E N), V, L. reflexivity.
  - intros u. unfold protect.
    destruct (requestToken req) as [| |t] eqn:E; simpl; try discriminate.
    destruct (String.eqb t "") eqn:N; simpl; [discriminate|].
    apply String.eqb_neq in N.
    destruct (verify t) as [p|e] eqn:V; [|discriminate].
    destruct (findById p) as [u'|e] eqn:L; [|discriminate].
    intros [= <-]. eauto 10.
Qed.

Lemma protect_outcomes_witness :
  headers Fixture.bareBearer !! "authorization" = Some "Bearer" ∧
  startsWith "Bearer" "Bearer" = true ∧
  ((" " : ascii) ∉ list_ascii_of_string "Bearer") ∧
  headers Fixture.bareBearer !! "cookie" = Some "token=abc.def.ghi" ∧
  protect (fun t => Ok t) (fun _ : string => Ok (Some 9%N)) Fixture.bareBearer
  = NoToken ∧
  requestToken Fixture.withCookie = Str "abc.def.ghi" ∧
  "abc.def.ghi" ≠ "" ∧
  protect (fun t => Ok t) (fun _ : string => Ok (@None N)) Fixture.withCookie
  = Granted None.
Proof.
  assert (H : headers Fixture.bareBearer !! "authorization" = Some "Bearer")
    by reflexivity.
  assert (S : startsWith "Bearer" "Bearer" = true) by reflexivity.
  assert (Ns : (" " : ascii) ∉ list_ascii_of_string "Bearer").
  { simpl. rewrite !elem_of_cons, elem_of_nil.
    intros X. repeat destruct X as [X|X]; try discriminate X. exact X. }
  assert (C : headers Fixture.bareBearer !! "cookie"
              = Some "token=abc.def.ghi") by reflexivity.
  assert (E : requestToken Fixture.withCookie = Str "abc.def.ghi")
    by reflexivity.
  assert (M : "abc.def.ghi" ≠ "") by discriminate.
  refine (conj H (conj S (conj Ns (conj C (conj _ (conj E (conj M _))))))).
  - exact (proj1 (proj2 (protect_outcomes (fun t => Ok t)
                           (fun _ : string => Ok (Some 9%N))
                           Fixture.bareBearer)) "Bearer" H S Ns).
  - exact (proj1 (proj2 (proj2 (proj2 (proj2
             (protect_outcomes (fun t => Ok t)
                (fun _ : string => Ok (@None N)) Fixture.withCookie)))))
             "abc.def.ghi" "abc.def.ghi" None E M eq_refl eq_refl).
Defined.

Lemma putCookie_other (acc : gmap string JsStr) (c : string) (k : string) :
  fst (cookiePair c) ≠ k -> putCookie acc c !! k = acc !! k.
Proof.
  unfold putCookie. destruct (cookiePair c) as [key value]. simpl.
  intros N. destruct (String.eqb key "__proto__"); [reflexivity|].
  apply lookup_insert_ne. exact N.
Qed.

(** X30. Among the cookies the last one named [token] wins, and its
    value stops at a second [=]. When the [Cookie] header splits at [;]
    into entries of which one is named [token] and none after it is, the
    token is the value of that entry (what stands between its first and
    its second [=], [undefined] when it has no [=]); with no entry named
    [token] there is no token. *)
Theorem last_token_cookie_wins (cookie : string) :
  (∀ before entry after,
     splitOn ";" cookie = before ++ entry :: after ->
     fst (cookiePair entry) = "token" ->
     Forall (fun c => fst (cookiePair c) ≠ "token") after ->
     cookieToken cookie = snd (cookiePair entry)) ∧
  (Forall (fun c => fst (cookiePair c) ≠ "token") (splitOn ";" cookie) ->
   cookieToken cookie = Undefined).
Proof.
  assert (G : ∀ l acc, Forall (fun c => fst (cookiePair c) ≠ "token") l ->
                       foldl putCookie acc l !! "token" = acc !! "token").
  { induction l as [|c l IH]; intros acc F; [reflexivity|].
    apply Forall_cons in F as [C F]. simpl. rewrite (IH _ F).
    apply putCookie_other. exact C. }
  split.
  - intros before entry after S K A. unfold cookieToken, parseCookies.
    rewrite S, foldl_app. cbn [foldl]. rewrite (G after _ A).
    unfold putCookie. destruct (cookiePair entry) as [key value].
    cbn [fst snd] in *. subst key.
    change (String.eqb "token" "__proto__") with false. cbv iota.
    rewrite lookup_insert_eq. reflexivity.
  - intros F. unfold cookieToken, parseCookies.
    rewrite (G _ ∅ F), lookup_empty. reflexivity.
Qed.

Lemma last_token_cookie_wins_witness :
  splitOn ";" "token=old; theme=dark; token=abc=def; lang=en"
    = ["token=old"; " theme=dark"] ++ " token=abc=def" :: [" lang=en"] ∧
  fst (cookiePair " token=abc=def") = "token" ∧
  Forall (fun c => fst (cookiePair c) ≠ "token") [" lang=en"] ∧
  cookieToken "token=old; theme=dark; token=abc=def; lang=en" = Str "abc".
Proof.
  assert (S : splitOn ";" "token=old; theme=dark; token=abc=def; lang=en"
              = ["token=old"; " theme=dark"] ++ " token=abc=def" :: [" lang=en"])
    by reflexivity.
  assert (K : fst (cookiePair " token=abc=def") = "token") by reflexivity.
  assert (A : Forall (fun c => fst (cookiePair c) ≠ "token") [" lang=en"]).
  { repeat constructor. discriminate. }
  exact (conj S (conj K (conj A
           (proj1 (last_token_cookie_wins _) _ _ _ S K A)))).
Defined.
